(** * ConfluenceClient: a shallow embedding of [ConfluenceClient.script.js]

    The script defines two prototypes: [ConfluencePage], an in-memory copy of
    one Confluence page with change flags, and [ConfluenceClient], which talks
    to the Confluence REST API through a [sn_ws.RESTMessageV2] object.

    Modelling conventions.
    - JavaScript strings are [string] (sequences of 8-bit characters); the
      case and white-space functions are the ASCII ones.
    - JavaScript numbers that hold integers (version numbers, status codes,
      offsets) are [Z].
    - A property that may be [undefined] is an [option].
    - Values of unconstrained type (scaffolding values, the object handed to
      [JSON.stringify]) are [JsValue].
    - A method that may throw returns an [Outcome]. *)

From Stdlib Require Import ZArith List String Ascii Bool Lia.
Import ListNotations.
Local Open Scope string_scope.
Local Open Scope list_scope.
Local Open Scope Z_scope.

Set Implicit Arguments.
Set Warnings "-register-all".

(** ** JavaScript values *)

Inductive JsValue : Type :=
| JsUndefined
| JsNull
| JsBool (b : bool)
| JsNumber (n : Z)
| JsNaN
| JsString (s : string)
| JsArray (items : list JsValue)
| JsObject (props : list (string * JsValue)).

(** ToBoolean: [undefined], [null], [false], [0], [NaN] and [""] are falsy. *)
Definition truthy (v : JsValue) : bool :=
  match v with
  | JsUndefined | JsNull | JsNaN => false
  | JsBool b => b
  | JsNumber n => negb (n =? 0)
  | JsString s => negb (String.eqb s "")
  | JsArray _ | JsObject _ => true
  end.

(** [a || b] *)
Definition js_or (a b : JsValue) : JsValue := if truthy a then a else b.

(** [typeof v === "boolean" && v == true] *)
Definition isBooleanTrue (v : JsValue) : bool :=
  match v with
  | JsBool true => true
  | _ => false
  end.

(** Truthiness of an optional string: [undefined] and [""] are falsy. *)
Definition truthyStr (o : option string) : bool :=
  match o with
  | Some s => negb (String.eqb s "")
  | None => false
  end.

(** Truthiness of an optional number. *)
Definition truthyNum (o : option Z) : bool :=
  match o with
  | Some n => negb (n =? 0)
  | None => false
  end.

(** An optional string as a value. *)
Definition ofStr (o : option string) : JsValue :=
  match o with
  | Some s => JsString s
  | None => JsUndefined
  end.

(** A number whose value is an integer is held as a [Z].  Among the
    integers the doubles are those of absolute value up to [2 ^ 53] and,
    beyond, the multiples of the power of two that leaves a significand of
    53 bits.  [toDouble] rounds an integer to the nearest double, to the even
    significand on a tie, as the addition of two doubles does with their
    exact sum.  (Adding 1 to a double never exceeds the largest double.) *)
Definition toDouble (z : Z) : Z :=
  let a := Z.abs z in
  if a <? 2 ^ 53 then z
  else
    let e := Z.log2 a - 52 in
    let q := Z.shiftr a e in
    let r := a - Z.shiftl q e in
    let half := Z.shiftl 1 (e - 1) in
    let q' := if r <? half then q
              else if half <? r then q + 1
              else if Z.even q then q else q + 1 in
    Z.sgn z * Z.shiftl q' e.

(** [x + 1] where [x] is a number or [undefined]: the sum of two doubles;
    [undefined + 1] is [NaN]. *)
Definition plusOne (o : option Z) : JsValue :=
  match o with
  | Some n => JsNumber (toDouble (n + 1))
  | None => JsNaN
  end.

(** Reading a property of an object; a missing property reads as [None]. *)
Fixpoint lookupProp (k : string) (props : list (string * JsValue)) : option JsValue :=
  match props with
  | [] => None
  | (k', v) :: rest => if String.eqb k k' then Some v else lookupProp k rest
  end.

Definition getProp (k : string) (v : JsValue) : option JsValue :=
  match v with
  | JsObject props => lookupProp k props
  | _ => None
  end.

(** [obj.k = v]: replaces the property in place, or appends it. *)
Fixpoint assignProp (k : string) (v : JsValue) (props : list (string * JsValue))
  : list (string * JsValue) :=
  match props with
  | [] => [(k, v)]
  | (k', v') :: rest =>
      if String.eqb k k' then (k, v) :: rest else (k', v') :: assignProp k v rest
  end.

(** ** Exceptions and outcomes *)

Inductive Exn : Type :=
| Error (msg : string)        (* [throw new Error(msg)] *)
| TypeError (what : string)   (* a property of [undefined] was read or written *)
| SyntaxError                 (* [JSON.parse] on a malformed text *)
| HostError (msg : string).   (* raised by [RESTMessageV2.execute] *)

Inductive Outcome (A : Type) : Type :=
| Return (a : A)
| Throw (e : Exn)
| OutOfFuel.

Arguments Return {A} a.
Arguments Throw {A} e.
Arguments OutOfFuel {A}.

(** ** Strings *)

Definition isDigit (c : ascii) : bool :=
  let n := nat_of_ascii c in (48 <=? n)%nat && (n <=? 57)%nat.
Definition isLower (c : ascii) : bool :=
  let n := nat_of_ascii c in (97 <=? n)%nat && (n <=? 122)%nat.
Definition isUpper (c : ascii) : bool :=
  let n := nat_of_ascii c in (65 <=? n)%nat && (n <=? 90)%nat.

(** White space removed by [String.prototype.trim] (ASCII part):
    TAB, LF, VT, FF, CR and SPACE. *)
Definition isSpace (c : ascii) : bool :=
  let n := nat_of_ascii c in ((9 <=? n)%nat && (n <=? 13)%nat) || (n =? 32)%nat.

Definition lowerChar (c : ascii) : ascii :=
  if isUpper c then ascii_of_nat (nat_of_ascii c + 32) else c.

Fixpoint toLowerCase (s : string) : string :=
  match s with
  | EmptyString => EmptyString
  | String c r => String (lowerChar c) (toLowerCase r)
  end.

Fixpoint allChars (p : ascii -> bool) (s : string) : bool :=
  match s with
  | EmptyString => true
  | String c r => p c && allChars p r
  end.

Fixpoint trimStart (s : string) : string :=
  match s with
  | EmptyString => EmptyString
  | String c r => if isSpace c then trimStart r else s
  end.

Fixpoint trimEnd (s : string) : string :=
  match s with
  | EmptyString => EmptyString
  | String c r =>
      let r' := trimEnd r in
      if isSpace c && String.eqb r' EmptyString then EmptyString else String c r'
  end.

Definition trim (s : string) : string := trimEnd (trimStart s).

(** [s.indexOf(t) != -1] *)
Fixpoint includes (t s : string) : bool :=
  String.prefix t s ||
  match s with
  | EmptyString => false
  | String _ r => includes t r
  end.

(** ** The validators of [ConfluenceClient] *)

(** [/^[0-9]{1,}$/.test(param.toString())] on a string. *)
Definition isValidInteger (param : string) : bool :=
  negb (String.eqb param "") && allChars isDigit param.

(** The same test on a number: [toString] yields only digits exactly for
    the non-negative integers below [1e21]. *)
Definition isValidIntegerNum (param : Z) : bool :=
  (0 <=? param) && (param <? 10 ^ 21).

Definition isLabelChar (c : ascii) : bool :=
  isDigit c || isLower c || isUpper c ||
  Ascii.eqb c "_" || Ascii.eqb c "-" || Ascii.eqb c "~" ||
  Ascii.eqb c "{" || Ascii.eqb c "}" || Ascii.eqb c "%" || Ascii.eqb c "+".

(** [/^[0-9a-zA-Z_\-~{}%+]{1,}$/.test(param.toString())] *)
Definition isValidLabelName (param : string) : bool :=
  negb (String.eqb param "") && allChars isLabelChar param.

Definition isSpaceKeyChar (c : ascii) : bool :=
  isDigit c || isLower c || Ascii.eqb c "-".

(** [/^(~)?[0-9a-z-]{3,255}$/.test(param.toString())] *)
Definition isValidSpaceKey (param : string) : bool :=
  let rest := match param with
              | String "~" r => r
              | _ => param
              end in
  allChars isSpaceKeyChar rest &&
  (3 <=? String.length rest)%nat && (String.length rest <=? 255)%nat.

(** ** Data held by a page *)

(** One entry of the Scaffolding form data: [{name: ..., value: ...}]. *)
Record ScaffoldingField : Type := mkField {
  fieldName : string;
  fieldValue : JsValue
}.

(** An array of label names.  [arrayId] is the identity of the array
    object: two references see each other's [push] exactly when they hold the
    same array.  A method that assigns a new array to a property gives it an
    identity the property has not held before. *)
Record LabelArray : Type := mkLabelArray {
  arrayId : nat;
  arrayItems : list string
}.

(** The properties of a [ConfluencePage] object.  The change flags are only
    ever read as conditions, so the initial [undefined] of a page built
    without JSON is [false] here.  [refClientInternalId] is the
    [_strInternalId] of the client [_refConfluenceClient] points to, which is
    what [isValid] reads through that reference; a client never changes it. *)
Inductive ConfluencePage : Type := mkPage {
  refClientInternalId : string;
  strInternalId : string;
  strId : option string;
  strStatus : option string;
  strTitle : option string;
  strSpaceKey : option string;
  intVersionNumber : option Z;
  strBody : option string;
  renderedHTML : option string;
  userReadingRestrictions : option (list JsValue);
  groupReadingRestrictions : option (list JsValue);
  userUpdatingRestrictions : option (list JsValue);
  groupUpdatingRestrictions : option (list JsValue);
  strModifierUserName : option string;
  strModifierDisplayName : option string;
  gdtModification : option string;
  arrLabels : option LabelArray;
  strParentPageId : option string;
  arrAncestors : option (list ConfluencePage);
  arrScaffoldingData : option (list ScaffoldingField);
  hasTitleChanged : bool;
  hasSpaceKeyChanged : bool;
  hasBodyChanged : bool;
  hasScaffoldingDataChanged : bool;
  hasParentPageIdChanged : bool;
  haveLabelsChanged : bool
}.

(** Assignments to single properties ([this._strTitle = v] and the like). *)

Definition set_strId v (this : ConfluencePage) : ConfluencePage :=
  mkPage
    (refClientInternalId this) (strInternalId this) v (strStatus this)
    (strTitle this) (strSpaceKey this) (intVersionNumber this) (strBody this)
    (renderedHTML this) (userReadingRestrictions this)
    (groupReadingRestrictions this) (userUpdatingRestrictions this)
    (groupUpdatingRestrictions this) (strModifierUserName this)
    (strModifierDisplayName this) (gdtModification this) (arrLabels this)
    (strParentPageId this) (arrAncestors this) (arrScaffoldingData this)
    (hasTitleChanged this) (hasSpaceKeyChanged this) (hasBodyChanged this)
    (hasScaffoldingDataChanged this) (hasParentPageIdChanged this)
    (haveLabelsChanged this).

Definition set_strStatus v (this : ConfluencePage) : ConfluencePage :=
  mkPage
    (refClientInternalId this) (strInternalId this) (strId this) v
    (strTitle this) (strSpaceKey this) (intVersionNumber this) (strBody this)
    (renderedHTML this) (userReadingRestrictions this)
    (groupReadingRestrictions this) (userUpdatingRestrictions this)
    (groupUpdatingRestrictions this) (strModifierUserName this)
    (strModifierDisplayName this) (gdtModification this) (arrLabels this)
    (strParentPageId this) (arrAncestors this) (arrScaffoldingData this)
    (hasTitleChanged this) (hasSpaceKeyChanged this) (hasBodyChanged this)
    (hasScaffoldingDataChanged this) (hasParentPageIdChanged this)
    (haveLabelsChanged this).

Definition set_strTitle v (this : ConfluencePage) : ConfluencePage :=
  mkPage
    (refClientInternalId this) (strInternalId this) (strId this)
    (strStatus this) v (strSpaceKey this) (intVersionNumber this)
    (strBody this) (renderedHTML this) (userReadingRestrictions this)
    (groupReadingRestrictions this) (userUpdatingRestrictions this)
    (groupUpdatingRestrictions this) (strModifierUserName this)
    (strModifierDisplayName this) (gdtModification this) (arrLabels this)
    (strParentPageId this) (arrAncestors this) (arrScaffoldingData this)
    (hasTitleChanged this) (hasSpaceKeyChanged this) (hasBodyChanged this)
    (hasScaffoldingDataChanged this) (hasParentPageIdChanged this)
    (haveLabelsChanged this).

Definition set_strSpaceKey v (this : ConfluencePage) : ConfluencePage :=
  mkPage
    (refClientInternalId this) (strInternalId this) (strId this)
    (strStatus this) (strTitle this) v (intVersionNumber this) (strBody this)
    (renderedHTML this) (userReadingRestrictions this)
    (groupReadingRestrictions this) (userUpdatingRestrictions this)
    (groupUpdatingRestrictions this) (strModifierUserName this)
    (strModifierDisplayName this) (gdtModification this) (arrLabels this)
    (strParentPageId this) (arrAncestors this) (arrScaffoldingData this)
    (hasTitleChanged this) (hasSpaceKeyChanged this) (hasBodyChanged this)
    (hasScaffoldingDataChanged this) (hasParentPageIdChanged this)
    (haveLabelsChanged this).

Definition set_intVersionNumber v (this : ConfluencePage) : ConfluencePage :=
  mkPage
    (refClientInternalId this) (strInternalId this) (strId this)
    (strStatus this) (strTitle this) (strSpaceKey this) v (strBody this)
    (renderedHTML this) (userReadingRestrictions this)
    (groupReadingRestrictions this) (userUpdatingRestrictions this)
    (groupUpdatingRestrictions this) (strModifierUserName this)
    (strModifierDisplayName this) (gdtModification this) (arrLabels this)
    (strParentPageId this) (arrAncestors this) (arrScaffoldingData this)
    (hasTitleChanged this) (hasSpaceKeyChanged this) (hasBodyChanged this)
    (hasScaffoldingDataChanged this) (hasParentPageIdChanged this)
    (haveLabelsChanged this).

Definition set_strBody v (this : ConfluencePage) : ConfluencePage :=
  mkPage
    (refClientInternalId this) (strInternalId this) (strId this)
    (strStatus this) (strTitle this) (strSpaceKey this)
    (intVersionNumber this) v (renderedHTML this)
    (userReadingRestrictions this) (groupReadingRestrictions this)
    (userUpdatingRestrictions this) (groupUpdatingRestrictions this)
    (strModifierUserName this) (strModifierDisplayName this)
    (gdtModification this) (arrLabels this) (strParentPageId this)
    (arrAncestors this) (arrScaffoldingData this) (hasTitleChanged this)
    (hasSpaceKeyChanged this) (hasBodyChanged this)
    (hasScaffoldingDataChanged this) (hasParentPageIdChanged this)
    (haveLabelsChanged this).

Definition set_arrLabels v (this : ConfluencePage) : ConfluencePage :=
  mkPage
    (refClientInternalId this) (strInternalId this) (strId this)
    (strStatus this) (strTitle this) (strSpaceKey this)
    (intVersionNumber this) (strBody this) (renderedHTML this)
    (userReadingRestrictions this) (groupReadingRestrictions this)
    (userUpdatingRestrictions this) (groupUpdatingRestrictions this)
    (strModifierUserName this) (strModifierDisplayName this)
    (gdtModification this) v (strParentPageId this) (arrAncestors this)
    (arrScaffoldingData this) (hasTitleChanged this) (hasSpaceKeyChanged this)
    (hasBodyChanged this) (hasScaffoldingDataChanged this)
    (hasParentPageIdChanged this) (haveLabelsChanged this).

Definition set_strParentPageId v (this : ConfluencePage) : ConfluencePage :=
  mkPage
    (refClientInternalId this) (strInternalId this) (strId this)
    (strStatus this) (strTitle this) (strSpaceKey this)
    (intVersionNumber this) (strBody this) (renderedHTML this)
    (userReadingRestrictions this) (groupReadingRestrictions this)
    (userUpdatingRestrictions this) (groupUpdatingRestrictions this)
    (strModifierUserName this) (strModifierDisplayName this)
    (gdtModification this) (arrLabels this) v (arrAncestors this)
    (arrScaffoldingData this) (hasTitleChanged this) (hasSpaceKeyChanged this)
    (hasBodyChanged this) (hasScaffoldingDataChanged this)
    (hasParentPageIdChanged this) (haveLabelsChanged this).

Definition set_arrScaffoldingData v (this : ConfluencePage) : ConfluencePage :=
  mkPage
    (refClientInternalId this) (strInternalId this) (strId this)
    (strStatus this) (strTitle this) (strSpaceKey this)
    (intVersionNumber this) (strBody this) (renderedHTML this)
    (userReadingRestrictions this) (groupReadingRestrictions this)
    (userUpdatingRestrictions this) (groupUpdatingRestrictions this)
    (strModifierUserName this) (strModifierDisplayName this)
    (gdtModification this) (arrLabels this) (strParentPageId this)
    (arrAncestors this) v (hasTitleChanged this) (hasSpaceKeyChanged this)
    (hasBodyChanged this) (hasScaffoldingDataChanged this)
    (hasParentPageIdChanged this) (haveLabelsChanged this).

Definition set_hasTitleChanged v (this : ConfluencePage) : ConfluencePage :=
  mkPage
    (refClientInternalId this) (strInternalId this) (strId this)
    (strStatus this) (strTitle this) (strSpaceKey this)
    (intVersionNumber this) (strBody this) (renderedHTML this)
    (userReadingRestrictions this) (groupReadingRestrictions this)
    (userUpdatingRestrictions this) (groupUpdatingRestrictions this)
    (strModifierUserName this) (strModifierDisplayName this)
    (gdtModification this) (arrLabels this) (strParentPageId this)
    (arrAncestors this) (arrScaffoldingData this) v (hasSpaceKeyChanged this)
    (hasBodyChanged this) (hasScaffoldingDataChanged this)
    (hasParentPageIdChanged this) (haveLabelsChanged this).

Definition set_hasSpaceKeyChanged v (this : ConfluencePage) : ConfluencePage :=
  mkPage
    (refClientInternalId this) (strInternalId this) (strId this)
    (strStatus this) (strTitle this) (strSpaceKey this)
    (intVersionNumber this) (strBody this) (renderedHTML this)
    (userReadingRestrictions this) (groupReadingRestrictions this)
    (userUpdatingRestrictions this) (groupUpdatingRestrictions this)
    (strModifierUserName this) (strModifierDisplayName this)
    (gdtModification this) (arrLabels this) (strParentPageId this)
    (arrAncestors this) (arrScaffoldingData this) (hasTitleChanged this) v
    (hasBodyChanged this) (hasScaffoldingDataChanged this)
    (hasParentPageIdChanged this) (haveLabelsChanged this).

Definition set_hasBodyChanged v (this : ConfluencePage) : ConfluencePage :=
  mkPage
    (refClientInternalId this) (strInternalId this) (strId this)
    (strStatus this) (strTitle this) (strSpaceKey this)
    (intVersionNumber this) (strBody this) (renderedHTML this)
    (userReadingRestrictions this) (groupReadingRestrictions this)
    (userUpdatingRestrictions this) (groupUpdatingRestrictions this)
    (strModifierUserName this) (strModifierDisplayName this)
    (gdtModification this) (arrLabels this) (strParentPageId this)
    (arrAncestors this) (arrScaffoldingData this) (hasTitleChanged this)
    (hasSpaceKeyChanged this) v (hasScaffoldingDataChanged this)
    (hasParentPageIdChanged this) (haveLabelsChanged this).

Definition set_hasScaffoldingDataChanged v (this : ConfluencePage) : ConfluencePage :=
  mkPage
    (refClientInternalId this) (strInternalId this) (strId this)
    (strStatus this) (strTitle this) (strSpaceKey this)
    (intVersionNumber this) (strBody this) (renderedHTML this)
    (userReadingRestrictions this) (groupReadingRestrictions this)
    (userUpdatingRestrictions this) (groupUpdatingRestrictions this)
    (strModifierUserName this) (strModifierDisplayName this)
    (gdtModification this) (arrLabels this) (strParentPageId this)
    (arrAncestors this) (arrScaffoldingData this) (hasTitleChanged this)
    (hasSpaceKeyChanged this) (hasBodyChanged this) v
    (hasParentPageIdChanged this) (haveLabelsChanged this).

Definition set_hasParentPageIdChanged v (this : ConfluencePage) : ConfluencePage :=
  mkPage
    (refClientInternalId this) (strInternalId this) (strId this)
    (strStatus this) (strTitle this) (strSpaceKey this)
    (intVersionNumber this) (strBody this) (renderedHTML this)
    (userReadingRestrictions this) (groupReadingRestrictions this)
    (userUpdatingRestrictions this) (groupUpdatingRestrictions this)
    (strModifierUserName this) (strModifierDisplayName this)
    (gdtModification this) (arrLabels this) (strParentPageId this)
    (arrAncestors this) (arrScaffoldingData this) (hasTitleChanged this)
    (hasSpaceKeyChanged this) (hasBodyChanged this)
    (hasScaffoldingDataChanged this) v (haveLabelsChanged this).

Definition set_haveLabelsChanged v (this : ConfluencePage) : ConfluencePage :=
  mkPage
    (refClientInternalId this) (strInternalId this) (strId this)
    (strStatus this) (strTitle this) (strSpaceKey this)
    (intVersionNumber this) (strBody this) (renderedHTML this)
    (userReadingRestrictions this) (groupReadingRestrictions this)
    (userUpdatingRestrictions this) (groupUpdatingRestrictions this)
    (strModifierUserName this) (strModifierDisplayName this)
    (gdtModification this) (arrLabels this) (strParentPageId this)
    (arrAncestors this) (arrScaffoldingData this) (hasTitleChanged this)
    (hasSpaceKeyChanged this) (hasBodyChanged this)
    (hasScaffoldingDataChanged this) (hasParentPageIdChanged this) v.

Definition set_arrAncestors (v : option (list ConfluencePage)) (this : ConfluencePage)
  : ConfluencePage :=
  mkPage
    (refClientInternalId this) (strInternalId this) (strId this)
    (strStatus this) (strTitle this) (strSpaceKey this)
    (intVersionNumber this) (strBody this) (renderedHTML this)
    (userReadingRestrictions this) (groupReadingRestrictions this)
    (userUpdatingRestrictions this) (groupUpdatingRestrictions this)
    (strModifierUserName this) (strModifierDisplayName this)
    (gdtModification this) (arrLabels this) (strParentPageId this)
    v (arrScaffoldingData this) (hasTitleChanged this)
    (hasSpaceKeyChanged this) (hasBodyChanged this)
    (hasScaffoldingDataChanged this) (hasParentPageIdChanged this)
    (haveLabelsChanged this).

(** ** Sequencing of methods that may throw *)

Definition bindO {A B : Type} (m : Outcome A) (k : A -> Outcome B) : Outcome B :=
  match m with
  | Return a => k a
  | Throw e => Throw e
  | OutOfFuel => OutOfFuel
  end.

Notation "'let!' x ':=' m 'in' k" := (bindO m (fun x => k))
  (at level 10, x name, m at level 100, k at level 200).

(** ** The JSON documents of the REST API

    A parsed document is typed by the members the script reads.  For a
    chain of member reads such as [jsonPage.space.key] the field holds
    [None] when a link of the chain is missing (the read raises a
    [TypeError]) and [Some leaf] otherwise, where the leaf may itself be
    [undefined]. *)

Record JsonUser : Type := mkJsonUser {
  username : option string;
  displayName : option string
}.

Record JsonLastUpdated : Type := mkJsonLastUpdated {
  lastUpdatedBy : option JsonUser;
  lastUpdatedWhen : option string
}.

(** An element of a label listing: [{prefix: ..., name: ...}]. *)
Record JsonLabel : Type := mkJsonLabel {
  labelPrefix : string;
  labelName : string
}.

Inductive JsonPage : Type := mkJsonPage {
  json_id : option string;
  json_status : option string;
  json_title : option string;
  json_space_key : option (option string);
  json_version_number : option (option Z);
  json_body_storage_value : option (option string);
  json_body_styled_view_value : option (option string);
  json_restrictions_read_user : option (option (list JsValue));
  json_restrictions_read_group : option (option (list JsValue));
  json_restrictions_update_user : option (option (list JsValue));
  json_restrictions_update_group : option (option (list JsValue));
  json_history_lastUpdated : option JsonLastUpdated;
  json_metadata_labels_results : option (option (list JsonLabel));
  json_ancestors : option (list JsonPage)
}.

(** A chain of member reads. *)
Definition chain {A : Type} (what : string) (o : option A) : Outcome A :=
  match o with
  | Some a => Return a
  | None => Throw (TypeError what)
  end.

(** ** The methods of [ConfluencePage] *)

Module Page.

(** The object right after [this._refConfluenceClient] and
    [this._strInternalId] are assigned in [initialize]. *)
Definition bare (clientInternalId : string) : ConfluencePage :=
  mkPage clientInternalId clientInternalId None None None None None None None
         None None None None None None None None None None None
         false false false false false false.

Definition getId (this : ConfluencePage) := strId this.
Definition getStatus (this : ConfluencePage) := strStatus this.
Definition getTitle (this : ConfluencePage) := strTitle this.
Definition getSpaceKey (this : ConfluencePage) := strSpaceKey this.
Definition getVersionNumber (this : ConfluencePage) := intVersionNumber this.
Definition getBody (this : ConfluencePage) := strBody this.
Definition getScaffoldingData (this : ConfluencePage) := arrScaffoldingData this.
Definition getParentPageId (this : ConfluencePage) := strParentPageId this.
Definition getLabels (this : ConfluencePage) := arrLabels this.

(** [this._x !== v] for an optional string property and a string. *)
Definition differs (o : option string) (v : string) : bool :=
  match o with
  | Some s => negb (String.eqb s v)
  | None => true
  end.

(** [this._intVersionNumber !== v] *)
Definition differsNum (o : option Z) (v : Z) : bool :=
  match o with
  | Some n => negb (n =? v)
  | None => true
  end.

Definition setStatus (strStatus : JsValue) (this : ConfluencePage)
  : Outcome ConfluencePage :=
  match strStatus with
  | JsString s =>
      if String.eqb s "current" || String.eqb s "trashed"
      then Return (set_strStatus (Some s) this)
      else Throw (Error "[ConfluencePage.setStatus] Please pass a valid page status at parameter {strStatus}!")
  | _ => Throw (Error "[ConfluencePage.setStatus] Please pass a valid page status at parameter {strStatus}!")
  end.

Definition setTitle (strPageTitle : JsValue) (this : ConfluencePage)
  : Outcome ConfluencePage :=
  match strPageTitle with
  | JsString s =>
      if (0 <? String.length s)%nat
      then
        let this := set_hasTitleChanged (differs (strTitle this) s) this in
        Return (set_strTitle (Some s) this)
      else Throw (Error "[ConfluencePage.setTitle] Please pass a valid page title at parameter {strTitle}!")
  | _ => Throw (Error "[ConfluencePage.setTitle] Please pass a valid page title at parameter {strTitle}!")
  end.

Definition setSpaceKey (strSpaceKey' : string) (this : ConfluencePage)
  : Outcome ConfluencePage :=
  if negb (isValidSpaceKey strSpaceKey')
  then Throw (Error "[ConfluencePage.setSpaceKey] Please pass a valid space key at parameter {strSpaceKey}!")
  else
    let this := set_hasSpaceKeyChanged (differs (strSpaceKey this) strSpaceKey') this in
    Return (set_strSpaceKey (Some strSpaceKey') this).

Definition setVersionNumber (intVersionNumber' : Z) (this : ConfluencePage)
  : Outcome ConfluencePage :=
  if negb (isValidIntegerNum intVersionNumber')
  then Throw (Error "[ConfluencePage.setVersionNumber] Please pass a valid integer value at parameter {intVersionNumber}!")
  else
    let this :=
      if differsNum (intVersionNumber this) intVersionNumber'
      then
        let this := set_hasTitleChanged false this in
        let this := set_hasSpaceKeyChanged false this in
        let this := set_hasParentPageIdChanged false this in
        let this := set_hasBodyChanged false this in
        set_haveLabelsChanged false this
      else this in
    Return (set_intVersionNumber (Some intVersionNumber') this).

(** [this._intVersionNumber += 1] is a sum of two doubles. *)
Definition increaseVersionNumber (this : ConfluencePage) : Outcome ConfluencePage :=
  match intVersionNumber this with
  | Some n =>
      if n =? 0
      then Throw (Error "[ConfluencePage.increaseVersionNumber] Page object has not been initialized!")
      else Return (set_intVersionNumber (Some (toDouble (n + 1))) this)
  | None => Throw (Error "[ConfluencePage.increaseVersionNumber] Page object has not been initialized!")
  end.

Definition setBody (strPageBody : JsValue) (this : ConfluencePage)
  : Outcome ConfluencePage :=
  match strPageBody with
  | JsString s =>
      let this := set_hasBodyChanged (differs (strBody this) s) this in
      Return (set_strBody (Some s) this)
  | _ => Throw (Error "[ConfluencePage.setBody] Please pass a valid body content at parameter {strPageBody}!")
  end.

(** The parameter is an array by its type, so the [Array.isArray] guard passes. *)
Definition setScaffoldingData (arrScaffoldingData' : list ScaffoldingField)
  (this : ConfluencePage) : Outcome ConfluencePage :=
  let this := set_arrScaffoldingData (Some arrScaffoldingData') this in
  Return (set_hasScaffoldingDataChanged true this).

(** [undefined.toString()] raises a [TypeError] before the pattern is tried. *)
Definition setParentPageId (strParentPageId' : option string) (this : ConfluencePage)
  : Outcome ConfluencePage :=
  match strParentPageId' with
  | None => Throw (TypeError "param.toString")
  | Some s =>
      if negb (isValidInteger s)
      then Throw (Error "[ConfluencePage.setParentPageId] Please pass a valid page ID at parameter {strParentPageId}!")
      else
        let this := set_hasParentPageIdChanged (differs (strParentPageId this) s) this in
        Return (set_strParentPageId (Some s) this)
  end.

(** [strLabelName.toLowerCase().trim()] *)
Definition normalizeLabel (strLabelName : string) : string :=
  trim (toLowerCase strLabelName).

(** The search loops of the label methods: is [name] an element? *)
Definition labelIndexed (name : string) (items : list string) : bool :=
  existsb (fun item => String.eqb item name) items.

Definition hasLabel (strLabelName : string) (this : ConfluencePage) : Outcome bool :=
  if negb (isValidLabelName strLabelName)
  then Throw (Error "[ConfluencePage.hasLabel] Please pass a valid label name at parameter {strLabelName}!")
  else
    match arrLabels this with
    | Some arr => Return (labelIndexed (normalizeLabel strLabelName) (arrayItems arr))
    | None => Return false
    end.

Definition addLabel (strLabelName : string) (this : ConfluencePage)
  : Outcome ConfluencePage :=
  if negb (isValidLabelName strLabelName)
  then Throw (Error "[ConfluencePage.addLabel] Please pass a valid label name at parameter {strLabelName}!")
  else
    let _strLabelName := normalizeLabel strLabelName in
    match arrLabels this with
    | Some arr =>
        if labelIndexed _strLabelName (arrayItems arr)
        then Return this
        else
          let this := set_haveLabelsChanged true this in
          (* push: the same array object, one element longer *)
          Return (set_arrLabels
                    (Some (mkLabelArray (arrayId arr) (arrayItems arr ++ [_strLabelName])))
                    this)
    | None =>
        (* this._arrLabels = [] *)
        let this := set_arrLabels (Some (mkLabelArray 0 [])) this in
        let this := set_haveLabelsChanged true this in
        Return (set_arrLabels (Some (mkLabelArray 0 [_strLabelName])) this)
    end.

(** The loop of [removeLabel]: copies the other names to [_arrResult] and
    raises the flag at every match. *)
Fixpoint removeLoop (name : string) (items : list string) (changed : bool)
  : list string * bool :=
  match items with
  | [] => ([], changed)
  | item :: rest =>
      if String.eqb item name
      then removeLoop name rest true
      else let (res, changed') := removeLoop name rest changed in (item :: res, changed')
  end.

Definition removeLabel (strLabelName : string) (this : ConfluencePage)
  : Outcome ConfluencePage :=
  if negb (isValidLabelName strLabelName)
  then Throw (Error "[ConfluencePage.addLabel] Please pass a valid label name at parameter {strLabelName}!")
  else
    match arrLabels this with
    | Some arr =>
        let _strLabelName := normalizeLabel strLabelName in
        let (_arrResult, changed) :=
          removeLoop _strLabelName (arrayItems arr) (haveLabelsChanged this) in
        let this := set_haveLabelsChanged changed this in
        (* this._arrLabels = _arrResult: another array object *)
        Return (set_arrLabels (Some (mkLabelArray (S (arrayId arr)) _arrResult)) this)
    | None => Return this
    end.

(** [typeof strFieldName === "string" && strFieldName.length > 0] *)
Definition isFieldName (strFieldName : JsValue) : option string :=
  match strFieldName with
  | JsString s => if (0 <? String.length s)%nat then Some s else None
  | _ => None
  end.

(** The loop of [getScaffoldingValue]: the value of the first entry named
    [name], [undefined] when there is none. *)
Fixpoint findField (name : string) (data : list ScaffoldingField) : JsValue :=
  match data with
  | [] => JsUndefined
  | f :: rest => if String.eqb (fieldName f) name then fieldValue f else findField name rest
  end.

Definition getScaffoldingValue (strFieldName : JsValue) (this : ConfluencePage)
  : Outcome JsValue :=
  match isFieldName strFieldName with
  | None => Throw (Error "[ConfluencePage.getScaffoldingValue] Please pass a valid field name at parameter {strFieldName}!")
  | Some name =>
      match arrScaffoldingData this with
      | Some data => Return (findField name data)
      | None => Return JsUndefined
      end
  end.

(** The loop of [setScaffoldingValue]: overwrites the value of the first
    entry named [name]; [None] when the loop ends without a match. *)
Fixpoint storeField (name : string) (v : JsValue) (data : list ScaffoldingField)
  : option (list ScaffoldingField) :=
  match data with
  | [] => None
  | f :: rest =>
      if String.eqb (fieldName f) name
      then Some (mkField (fieldName f) v :: rest)
      else option_map (cons f) (storeField name v rest)
  end.

Definition setScaffoldingValue (strFieldName objFieldValue : JsValue)
  (this : ConfluencePage) : Outcome ConfluencePage :=
  match isFieldName strFieldName with
  | None => Throw (Error "[ConfluencePage.setScaffoldingValue] Please pass a valid field name at parameter {strFieldName}!")
  | Some name =>
      let value := js_or objFieldValue (JsString "") in
      match arrScaffoldingData this with
      | Some data =>
          match storeField name value data with
          | Some data' =>
              let this := set_arrScaffoldingData (Some data') this in
              Return (set_hasScaffoldingDataChanged true this)
          | None =>
              (* no proper field found, add a new one *)
              let this :=
                set_arrScaffoldingData (Some (data ++ [mkField name value])) this in
              Return (set_hasScaffoldingDataChanged true this)
          end
      | None =>
          let this := set_arrScaffoldingData (Some []) this in
          let this := set_arrScaffoldingData (Some [mkField name value]) this in
          Return (set_hasScaffoldingDataChanged true this)
      end
  end.

Definition isValid (this : ConfluencePage) : bool :=
  String.eqb (strInternalId this) (refClientInternalId this).

(** [objResult.version.minorEdit = true] *)
Definition assignMinorEdit (props : list (string * JsValue))
  : Outcome (list (string * JsValue)) :=
  match lookupProp "version" props with
  | Some (JsObject vprops) =>
      Return (assignProp "version"
                (JsObject (assignProp "minorEdit" (JsBool true) vprops)) props)
  | None | Some JsUndefined | Some JsNull => Throw (TypeError "objResult.version")
  | Some _ => Return props
  end.

(** [stringify] up to its last line: the result is the object [objResult]
    that the method passes to [JSON.stringify]. *)
Definition stringify (createNewPage suppressNotifications : JsValue)
  (this : ConfluencePage) : Outcome JsValue :=
  let objResult : list (string * JsValue) := [] in
  let objResult :=
    if negb (isBooleanTrue createNewPage)
    then
      let objResult := assignProp "id" (ofStr (getId this)) objResult in
      assignProp "version"
        (JsObject [("number", plusOne (getVersionNumber this))]) objResult
    else objResult in
  let! objResult :=
    (if isBooleanTrue suppressNotifications
     then assignMinorEdit objResult
     else Return objResult) in
  let objResult := assignProp "type" (JsString "page") objResult in
  let objResult := assignProp "title" (ofStr (getTitle this)) objResult in
  let objResult :=
    assignProp "space" (JsObject [("key", ofStr (getSpaceKey this))]) objResult in
  let objResult :=
    if truthyStr (getBody this)
    then assignProp "body"
           (JsObject [("storage",
                       JsObject [("value", ofStr (getBody this));
                                 ("representation", JsString "storage")])])
           objResult
    else objResult in
  let objResult :=
    if truthyStr (getParentPageId this)
    then assignProp "ancestors"
           (JsArray [JsObject [("id", ofStr (getParentPageId this))]]) objResult
    else objResult in
  Return (JsObject objResult).

(** The scalar assignments at the head of [ConfluencePage.initialize]. *)
Definition scalars (clientInternalId : string) (jsonPage : JsonPage)
  : Outcome ConfluencePage :=
  let! spaceKey := chain "jsonPage.space.key" (json_space_key jsonPage) in
  let! versionNumber := chain "jsonPage.version.number" (json_version_number jsonPage) in
  let! body := chain "jsonPage.body.storage.value" (json_body_storage_value jsonPage) in
  let! html := chain "jsonPage.body.styled_view.value" (json_body_styled_view_value jsonPage) in
  let! ru := chain "jsonPage.restrictions.read" (json_restrictions_read_user jsonPage) in
  let! rg := chain "jsonPage.restrictions.read" (json_restrictions_read_group jsonPage) in
  let! uu := chain "jsonPage.restrictions.update" (json_restrictions_update_user jsonPage) in
  let! ug := chain "jsonPage.restrictions.update" (json_restrictions_update_group jsonPage) in
  let! lastUpdated := chain "jsonPage.history.lastUpdated" (json_history_lastUpdated jsonPage) in
  let modifier := lastUpdatedBy lastUpdated in
  let when := if truthyStr (lastUpdatedWhen lastUpdated)
              then lastUpdatedWhen lastUpdated else None in
  let! results := chain "jsonPage.metadata.labels.results"
                        (json_metadata_labels_results jsonPage) in
  let labels :=
    match results with
    | Some (l :: ls) => Some (mkLabelArray 0 (map labelName (l :: ls)))
    | _ => None
    end in
  Return (mkPage clientInternalId clientInternalId
            (json_id jsonPage) (json_status jsonPage) (json_title jsonPage)
            spaceKey versionNumber body html ru rg uu ug
            (match modifier with Some u => username u | None => None end)
            (match modifier with Some u => displayName u | None => None end)
            when labels None None None
            false false false false false false).

(** The final assignments of [initialize]. *)
Definition clearFlags (this : ConfluencePage) : ConfluencePage :=
  let this := set_hasTitleChanged false this in
  let this := set_hasSpaceKeyChanged false this in
  let this := set_hasBodyChanged false this in
  let this := set_hasScaffoldingDataChanged false this in
  let this := set_hasParentPageIdChanged false this in
  set_haveLabelsChanged false this.

(** [new ConfluencePage(refConfluenceClient, jsonPage)] for a JSON object. *)
Fixpoint fromJson (clientInternalId : string) (jsonPage : JsonPage) {struct jsonPage}
  : Outcome ConfluencePage :=
  let! this := scalars clientInternalId jsonPage in
  let! this :=
    match json_ancestors jsonPage with
    | Some (a :: rest) =>
        let! this := setParentPageId (json_id (last rest a)) this in
        let! ancestors :=
          (fix each (l : list JsonPage) : Outcome (list ConfluencePage) :=
             match l with
             | [] => Return []
             | j :: l' =>
                 let! p := fromJson clientInternalId j in
                 let! ps := each l' in
                 Return (p :: ps)
             end) (a :: rest) in
        Return (set_arrAncestors (Some ancestors) this)
    | _ => Return this
    end in
  Return (clearFlags this).

(** [new ConfluencePage(refConfluenceClient, jsonPage)]; without JSON only the
    client reference and the internal id are set. *)
Definition initialize (clientInternalId : string) (jsonPage : option JsonPage)
  : Outcome ConfluencePage :=
  match jsonPage with
  | Some j => fromJson clientInternalId j
  | None => Return (bare clientInternalId)
  end.

(** [setId]: the id is checked by [isValidInteger]; an id that is set (and
    not empty) cannot be replaced by a different one. *)
Definition setId (strPageId : string) (this : ConfluencePage) : Outcome ConfluencePage :=
  if negb (isValidInteger strPageId)
  then Throw (Error ("[ConfluencePage.setId] Please pass a valid Confluence page ID at parameter {strPageId}!" ++
                     " Invalid value: " ++ strPageId)%string)
  else
    if truthyStr (strId this) && differs (strId this) strPageId
    then Throw (Error "[ConfluencePage.setId] It is not allowed to change the page ID!")
    else Return (set_strId (Some strPageId) this).

End Page.

(** ** The REST message, its responses and the network *)

(** The suffix handed to [_setEndpoint], by its shape:
    - [EpSearch start cql expand]:
      ["/rest/api/content/search?limit=1000&start=" + start + "&cql=" +
       encodeURIComponent(cql) + "&expand=" + expand]
    - [EpContent id]: ["/rest/api/content/" + id]
    - [EpScaffoldingForm id]: ["/rest/scaffolding/1.0/api/form/" + id]
    - [EpLabel id]: ["/rest/api/content/" + id + "/label"]
    - [EpLabelByName id name]:
      ["/rest/api/content/" + id + "/label?name=" + encodeURIComponent(name)] *)
Inductive Endpoint : Type :=
| EpSearch (start : Z) (cql : string) (expand : string)
| EpContent (id : string)
| EpScaffoldingForm (id : string)
| EpLabel (id : string)
| EpLabelByName (id : string) (name : string).

(** A request body: a literal text, or [JSON.stringify] of a value. *)
Inductive RequestBody : Type :=
| TextBody (text : string)
| JsonBody (value : JsValue).

(** The settings of the [RESTMessageV2] object.  They persist from one
    request to the next until set again. *)
Record RestMessage : Type := mkRestMessage {
  rmEndpoint : option (string * Endpoint);   (* base URL and suffix *)
  rmHttpMethod : option string;
  rmRequestBody : option RequestBody
}.

(** What [JSON.parse(objResponse.getBody())] yields. *)
Inductive JsonDocument : Type :=
| DocMalformed
| DocPage (jsonPage : JsonPage)
| DocPageListing (size : option Z) (results : option (list JsonPage))
| DocLabelListing (size : option Z) (results : option (list JsonLabel)).

Record Response : Type := mkResponse {
  statusCode : Z;
  body : JsonDocument;
  haveError : bool
}.

Inductive Reply : Type :=
| Responds (r : Response)
| Raises (e : Exn).

(** The remote side: the reply to a request, given the requests executed
    before it (oldest first). *)
Definition Network : Type := list RestMessage -> RestMessage -> Reply.

(** The text kept in [_strErrorMsg], by its origin. *)
Inductive ErrorMsg : Type :=
| NoErrorMsg
| ErrorResponseMsg (strMethodName : string) (r : Response)
| CaughtErrorMsg (strScope : string) (e : Exn).

(** The properties of a [ConfluenceClient] object.  [_endpoint],
    [_httpMethod] and [_logDebugMessages] only feed the log texts and are
    left out, as are the calls to [gs.info], [gs.warn] and [gs.error]. *)
Record ConfluenceClient : Type := mkClient {
  strConfluenceURL : string;
  strErrorMsg : ErrorMsg;
  clientInternalId : string;
  objRestMessage : RestMessage;
  objResponse : option Response
}.

(** A client together with the requests it has executed so far. *)
Record World : Type := mkWorld {
  client : ConfluenceClient;
  sent : list RestMessage
}.

(** An object without any of the members of a page. *)
Definition emptyObject : JsonPage :=
  mkJsonPage None None None None None None None None None None None None None None.

(** ** Stateful computations *)

Definition M (S A : Type) : Type := S -> Outcome A * S.

Definition ret {S A : Type} (a : A) : M S A := fun s => (Return a, s).
Definition throw {S A : Type} (e : Exn) : M S A := fun s => (Throw e, s).
Definition outOfFuel {S A : Type} : M S A := fun s => (OutOfFuel, s).

Definition bind {S A B : Type} (m : M S A) (k : A -> M S B) : M S B :=
  fun s =>
    match m s with
    | (Return a, s') => k a s'
    | (Throw e, s') => (Throw e, s')
    | (OutOfFuel, s') => (OutOfFuel, s')
    end.

Notation "x <- m ;; k" := (bind m (fun x => k))
  (at level 61, m at next level, right associativity).
Notation "m ;;; k" := (bind m (fun _ => k))
  (at level 61, right associativity).

(** [try { m } catch (e) { handler e }] *)
Definition tryCatch {S A : Type} (m : M S A) (handler : Exn -> M S A) : M S A :=
  fun s =>
    match m s with
    | (Throw e, s') => handler e s'
    | r => r
    end.

(** A computation on the client, run next to a page. *)
Definition onWorld {A : Type} (m : M World A) : M (World * ConfluencePage) A :=
  fun s =>
    let (o, w) := m (fst s) in (o, (w, snd s)).

(** A method of the page [objPage]. *)
Definition onPage (f : ConfluencePage -> Outcome ConfluencePage)
  : M (World * ConfluencePage) unit :=
  fun s =>
    match f (snd s) with
    | Return p => (Return tt, (fst s, p))
    | Throw e => (Throw e, s)
    | OutOfFuel => (OutOfFuel, s)
    end.

(** A value computed from the page. *)
Definition readPage {A : Type} (f : ConfluencePage -> A) : M (World * ConfluencePage) A :=
  fun s => (Return (f (snd s)), s).

(** An [Outcome] inside a computation. *)
Definition lift {S A : Type} (o : Outcome A) : M S A := fun s => (o, s).

(** ** The methods of [ConfluenceClient] *)

(** ["..." + x] for an optional string. *)
Definition strOf (o : option string) : string :=
  match o with
  | Some s => s
  | None => "undefined"
  end.

Definition set_objRestMessage (rm : RestMessage) (c : ConfluenceClient) : ConfluenceClient :=
  mkClient (strConfluenceURL c) (strErrorMsg c) (clientInternalId c) rm (objResponse c).

Definition set_strErrorMsg (msg : ErrorMsg) (c : ConfluenceClient) : ConfluenceClient :=
  mkClient (strConfluenceURL c) msg (clientInternalId c) (objRestMessage c) (objResponse c).

Definition set_objResponse (r : option Response) (c : ConfluenceClient) : ConfluenceClient :=
  mkClient (strConfluenceURL c) (strErrorMsg c) (clientInternalId c) (objRestMessage c) r.

(** A reference to an array of label names held in a local variable:
    [refId] is the identity of the array when it is one a page may hold, and
    [refItems] its elements as last seen. *)
Record LocalRef : Type := mkLocalRef {
  refId : option nat;
  refItems : list string
}.

(** [objPage.getLabels() || []] *)
Definition localLabels (objPage : ConfluencePage) : LocalRef :=
  match Page.getLabels objPage with
  | Some arr => mkLocalRef (Some (arrayId arr)) (arrayItems arr)
  | None => mkLocalRef None []
  end.

(** The elements seen through a local reference after the page may have
    changed: those of the page's array if that is still the same object. *)
Definition refresh (objPage : ConfluencePage) (l : LocalRef) : LocalRef :=
  match refId l, arrLabels objPage with
  | Some i, Some arr =>
      if Nat.eqb i (arrayId arr) then mkLocalRef (Some i) (arrayItems arr) else l
  | _, _ => l
  end.

(** The inner loop of the first pass of [updatePageLabels]; the name of a
    remote element may be [undefined], which equals no string. *)
Definition existsLocally (remoteName : option string) (arrLocalLabels : list string) : bool :=
  fold_left
    (fun found localName =>
       match remoteName with
       | Some r => if String.eqb r localName then true else found
       | None => found
       end)
    arrLocalLabels false.

(** The inner loop of the second pass of [updatePageLabels]. *)
Definition existsRemote (localName : string) (arrRemoteLabels : list (option string)) : bool :=
  fold_left
    (fun found remoteName =>
       match remoteName with
       | Some r => if String.eqb localName r then true else found
       | None => found
       end)
    arrRemoteLabels false.

Definition labelObject (name : string) : JsValue :=
  JsObject [("prefix", JsString "global"); ("name", JsString name)].

Definition fieldObject (f : ScaffoldingField) : JsValue :=
  JsObject [("name", JsString (fieldName f)); ("value", fieldValue f)].

Definition _getCommonExpansions (includeContent : JsValue) : string :=
  let strExpand :=
   ("version," ++
    "space," ++
    "metadata.labels," ++
    "history.lastUpdated," ++
    "restrictions.read.restrictions.group," ++
    "restrictions.update.restrictions.group," ++
    "restrictions.read.restrictions.user," ++
    "restrictions.update.restrictions.user," ++
    "ancestors," ++
    "ancestors.version," ++
    "ancestors.space," ++
    "ancestors.metadata.labels," ++
    "ancestors.history.lastUpdated," ++
    "ancestors.restrictions.read.restrictions.group," ++
    "ancestors.restrictions.update.restrictions.group," ++
    "ancestors.restrictions.read.restrictions.user," ++
    "ancestors.restrictions.update.restrictions.user")%string in
  if isBooleanTrue includeContent
  then (strExpand ++ ",body.storage,body.styled_view")%string
  else strExpand.

(** The document as an argument of [new ConfluencePage(this, ...)]. *)
Definition asPage (doc : JsonDocument) : Outcome JsonPage :=
  match doc with
  | DocMalformed => Throw SyntaxError
  | DocPage j => Return j
  | DocPageListing _ _ | DocLabelListing _ _ => Return emptyObject
  end.

(** [jsonResponse.results] with its [length] read. *)
Definition asResults (doc : JsonDocument) : Outcome (list JsonPage) :=
  match doc with
  | DocMalformed => Throw SyntaxError
  | DocPage _ => Throw (TypeError "jsonResponse.results.length")
  | DocPageListing _ results => chain "jsonResponse.results.length" results
  | DocLabelListing _ results =>
      let! labels := chain "jsonResponse.results.length" results in
      Return (map (fun _ => emptyObject) labels)
  end.

(** [objResult.size] and [objResult.results] of a label listing; the
    elements are the [name] members, [None] for an element without one. *)
Definition asLabels (doc : JsonDocument)
  : Outcome (option Z * option (list (option string))) :=
  match doc with
  | DocMalformed => Throw SyntaxError
  | DocPage _ => Return (None, None)
  | DocPageListing size results =>
      Return (size, option_map (map (fun _ => None)) results)
  | DocLabelListing size results =>
      Return (size, option_map (map (fun r => Some (labelName r))) results)
  end.

Module Client.

Section WithNetwork.

Variable net : Network.

Definition _setEndpoint (strSuffix : Endpoint) : M World unit :=
  fun w =>
    let c := client w in
    let rm := objRestMessage c in
    (Return tt,
     mkWorld (set_objRestMessage
                (mkRestMessage (Some (strConfluenceURL c, strSuffix))
                               (rmHttpMethod rm) (rmRequestBody rm)) c)
             (sent w)).

Definition _setHttpMethod (strHttpMethod : string) : M World unit :=
  fun w =>
    let c := client w in
    let rm := objRestMessage c in
    (Return tt,
     mkWorld (set_objRestMessage
                (mkRestMessage (rmEndpoint rm) (Some strHttpMethod) (rmRequestBody rm)) c)
             (sent w)).

Definition _setRequestBody (strRequestBody : RequestBody) : M World unit :=
  fun w =>
    let c := client w in
    let rm := objRestMessage c in
    (Return tt,
     mkWorld (set_objRestMessage
                (mkRestMessage (rmEndpoint rm) (rmHttpMethod rm) (Some strRequestBody)) c)
             (sent w)).

Definition _logCaughtError (strScope : string) (e : Exn) : M World unit :=
  fun w => (Return tt, mkWorld (set_strErrorMsg (CaughtErrorMsg strScope e) (client w)) (sent w)).

(** [_executeRequest]: the message goes out as it is configured; the reply
    is kept in [_objResponse], and an error response is recorded by
    [_logResponse] through [_logError]. *)
Definition _executeRequest (strMethodName : string) : M World Response :=
  fun w =>
    let rm := objRestMessage (client w) in
    let sent' := sent w ++ [rm] in
    match net (sent w) rm with
    | Raises e => (Throw e, mkWorld (client w) sent')
    | Responds r =>
        let c := set_objResponse (Some r) (client w) in
        let c := if haveError r
                 then set_strErrorMsg (ErrorResponseMsg strMethodName r) c
                 else c in
        (Return r, mkWorld c sent')
    end.

Definition _isValidPageObj (objPage : ConfluencePage) : bool := Page.isValid objPage.

(** [new ConfluencePage(this, jsonPage)] *)
Definition newPage (jsonPage : JsonPage) : M World ConfluencePage :=
  fun w => (Page.initialize (clientInternalId (client w)) (Some jsonPage), w).

(** The loop that wraps the elements of [jsonResponse.results]. *)
Fixpoint pushPages (results : list JsonPage) (arrPages : list ConfluencePage)
  : M World (list ConfluencePage) :=
  match results with
  | [] => ret arrPages
  | jsonPage :: rest =>
      p <- newPage jsonPage ;;
      pushPages rest (arrPages ++ [p])
  end.

(** The [while (true)] loop of [searchPages]; [None] is [null]. *)
Fixpoint searchLoop (fuel : nat) (strFinalCQL : string) (includeContent : JsValue)
  (arrPages : list ConfluencePage) (intStartAt : Z)
  : M World (option (list ConfluencePage)) :=
  match fuel with
  | O => outOfFuel
  | S fuel' =>
      _setHttpMethod "get" ;;;
      _setEndpoint (EpSearch intStartAt strFinalCQL (_getCommonExpansions includeContent)) ;;;
      objResponse <- _executeRequest "ConfluenceClient.searchPages" ;;
      if statusCode objResponse =? 200
      then
        results <- lift (asResults (body objResponse)) ;;
        let intSize := Z.of_nat (List.length results) in
        if intSize =? 0
        then ret (Some arrPages)
        else
          arrPages' <- pushPages results arrPages ;;
          searchLoop fuel' strFinalCQL includeContent arrPages' (intStartAt + intSize)
      else ret None
  end.

(** [strFinalCQL] of [searchPages]: the trimmed query, restricted to pages. *)
Definition finalCQL (strCQL : string) : string :=
  let strFinalCQL := trim strCQL in
  if negb (includes "type=page" (toLowerCase strCQL))
  then (strFinalCQL ++ " AND type=page")%string
  else strFinalCQL.

Definition searchPages (fuel : nat) (strCQL includeContent : JsValue)
  : M World (option (list ConfluencePage)) :=
  match strCQL with
  | JsString cql =>
      if (5 <? String.length (trim cql))%nat
      then
        let strFinalCQL := finalCQL cql in
        tryCatch
          (searchLoop fuel strFinalCQL includeContent [] 0)
          (fun e => _logCaughtError "ConfluenceClient.searchPages" e ;;; ret None)
      else throw (Error "[ConfluenceClient.searchPages] Please pass a valid CQL string at parameter {strCQL}!")
  | _ => throw (Error "[ConfluenceClient.searchPages] Please pass a valid CQL string at parameter {strCQL}!")
  end.

(** *** Methods that take a page

    The state is the client with its requests, and the object [objPage]. *)

Definition removePage : M (World * ConfluencePage) bool :=
  valid <- readPage _isValidPageObj ;;
  if negb valid
  then throw (Error "[ConfluenceClient.removePage] Please pass a valid {ConfluencePage} object at parameter {objPage}!")
  else
  id <- readPage Page.getId ;;
  if negb (truthyStr id)
  then throw (Error "[ConfluenceClient.removePage] {objPage} has no page ID stored!")
  else
  status <- readPage Page.getStatus ;;
  if match status with Some s => String.eqb s "trashed" | None => false end
  then throw (Error "[ConfluenceClient.removePage] Given {objPage} is already in status 'trashed'!")
  else
  tryCatch
    (id <- readPage Page.getId ;;
     onWorld (_setEndpoint (EpContent (strOf id))) ;;;
     onWorld (_setHttpMethod "delete") ;;;
     onWorld (_setRequestBody (TextBody "x")) ;;;
     objResponse <- onWorld (_executeRequest "ConfluenceClient.removePage") ;;
     if (statusCode objResponse =? 200) || (statusCode objResponse =? 204)
     then onPage (Page.setStatus (JsString "trashed")) ;;; ret true
     else ret false)
    (fun e => onWorld (_logCaughtError "ConfluenceClient.removePage" e) ;;; ret false).

Definition updatePageData (suppressNotifications : JsValue)
  : M (World * ConfluencePage) bool :=
  valid <- readPage _isValidPageObj ;;
  if negb valid
  then throw (Error "[ConfluenceClient.updatePageData] Please pass a valid {ConfluencePage} object at parameter {objPage}!")
  else
  complete <- readPage (fun objPage =>
    truthyStr (Page.getId objPage) && truthyNum (Page.getVersionNumber objPage) &&
    truthyStr (Page.getParentPageId objPage) && truthyStr (Page.getTitle objPage) &&
    truthyStr (Page.getSpaceKey objPage)) ;;
  if negb complete
  then throw (Error "[ConfluenceClient.updatePageData] {objPage} has not the minimum values for updating the Confluence page!")
  else
  tryCatch
    (id <- readPage Page.getId ;;
     onWorld (_setEndpoint (EpContent (strOf id))) ;;;
     onWorld (_setHttpMethod "put") ;;;
     payload <- (fun s => (Page.stringify (JsBool false) suppressNotifications (snd s), s)) ;;
     onWorld (_setRequestBody (JsonBody payload)) ;;;
     objResponse <- onWorld (_executeRequest "ConfluenceClient.updatePageData") ;;
     if statusCode objResponse =? 200
     then
       jsonPage <- lift (asPage (body objResponse)) ;;
       objReturnedPage <- onWorld (newPage jsonPage) ;;
       match Page.getVersionNumber objReturnedPage with
       | Some v => onPage (Page.setVersionNumber v) ;;; ret true
       | None => throw (TypeError "param.toString")
       end
     else ret false)
    (fun e => onWorld (_logCaughtError "ConfluenceClient.updatePageData" e) ;;; ret false).

Definition updateScaffoldingData : M (World * ConfluencePage) bool :=
  valid <- readPage _isValidPageObj ;;
  if negb valid
  then throw (Error "[ConfluenceClient.updateScaffoldingData] Please pass a valid {ConfluencePage} object at parameter {objPage}!")
  else
  id <- readPage Page.getId ;;
  if negb (truthyStr id)
  then throw (Error "[ConfluenceClient.updateScaffoldingData] {objPage} has no page ID stored!")
  else
  data <- readPage Page.getScaffoldingData ;;
  match data with
  | None => throw (Error "[ConfluenceClient.updateScaffoldingData] {objPage} has no Scaffolding data for updating! Please use method 'loadScaffoldingData' first!")
  | Some _ =>
  tryCatch
    (id <- readPage Page.getId ;;
     onWorld (_setEndpoint (EpScaffoldingForm (strOf id))) ;;;
     onWorld (_setHttpMethod "put") ;;;
     data <- readPage Page.getScaffoldingData ;;
     onWorld (_setRequestBody
                (JsonBody (match data with
                           | Some fields => JsArray (map fieldObject fields)
                           | None => JsUndefined
                           end))) ;;;
     objResponse <- onWorld (_executeRequest "ConfluenceClient.updateScaffoldingData") ;;
     if statusCode objResponse =? 200
     then onPage Page.increaseVersionNumber ;;; ret true
     else
       if statusCode objResponse =? 304
       then ret true
       else ret false)
    (fun e => onWorld (_logCaughtError "ConfluenceClient.updateScaffoldingData" e) ;;; ret false)
  end.

(** The loop of [addPageLabels] that checks the names. *)
Fixpoint checkLabelNames (arrLabelNames : list string) : Outcome unit :=
  match arrLabelNames with
  | [] => Return tt
  | name :: rest =>
      if negb (isValidLabelName name)
      then Throw (Error ("[ConfluenceClient.addPageLabels] '" ++ name ++ "' is not a valid label name!")%string)
      else checkLabelNames rest
  end.

(** The loop of [addPageLabels] that mirrors the names onto the page. *)
Fixpoint addLabelsLocally (arrLabelNames : list string) : M (World * ConfluencePage) unit :=
  match arrLabelNames with
  | [] => ret tt
  | name :: rest => onPage (Page.addLabel name) ;;; addLabelsLocally rest
  end.

Definition addPageLabels (arrLabelNames : list string) : M (World * ConfluencePage) bool :=
  valid <- readPage _isValidPageObj ;;
  if negb valid
  then throw (Error "[ConfluenceClient.addPageLabels] Please pass a valid {ConfluencePage} object at parameter {objPage}!")
  else
  id <- readPage Page.getId ;;
  if negb (truthyStr id)
  then throw (Error "[ConfluenceClient.addPageLabels] {objPage} has no page ID stored!")
  else
  match arrLabelNames with
  | [] => ret false
  | _ =>
  lift (checkLabelNames arrLabelNames) ;;;
  let arrLabelObjects := map labelObject arrLabelNames in
  tryCatch
    (id <- readPage Page.getId ;;
     onWorld (_setEndpoint (EpLabel (strOf id))) ;;;
     onWorld (_setHttpMethod "post") ;;;
     onWorld (_setRequestBody (JsonBody (JsArray arrLabelObjects))) ;;;
     objResponse <- onWorld (_executeRequest "ConfluenceClient.addPageLabels") ;;
     if statusCode objResponse =? 200
     then addLabelsLocally arrLabelNames ;;; ret true
     else ret false)
    (fun e => onWorld (_logCaughtError "ConfluenceClient.addPageLabels" e) ;;; ret false)
  end.

Definition removePageLabel (strLabelName : string) : M (World * ConfluencePage) bool :=
  if negb (isValidLabelName strLabelName)
  then throw (Error "[ConfluenceClient.removePageLabel] Please pass a valid label name at parameter {strLabelName}!")
  else
  valid <- readPage _isValidPageObj ;;
  if negb valid
  then throw (Error "[ConfluenceClient.removePageLabel] Please pass a valid {ConfluencePage} object at parameter {objPage}!")
  else
  id <- readPage Page.getId ;;
  if negb (truthyStr id)
  then throw (Error "[ConfluenceClient.removePageLabel] {objPage} has no page ID stored!")
  else
  tryCatch
    (id <- readPage Page.getId ;;
     onWorld (_setEndpoint (EpLabelByName (strOf id) strLabelName)) ;;;
     onWorld (_setHttpMethod "delete") ;;;
     onWorld (_setRequestBody (TextBody "x")) ;;;
     objResponse <- onWorld (_executeRequest "ConfluenceClient.removePageLabel") ;;
     if statusCode objResponse =? 204
     then onPage (Page.removeLabel strLabelName) ;;; ret true
     else ret false)
    (fun e => onWorld (_logCaughtError "ConfluenceClient.removePageLabel" e) ;;; ret false).

(** The first pass of [updatePageLabels]: every remote label without a
    local counterpart is removed on the server.  Returns [result1] and the
    local array as seen afterwards. *)
Fixpoint removeMissing (arrRemoteLabels : list (option string))
  (arrLocalLabels : LocalRef) (result1 : bool)
  : M (World * ConfluencePage) (bool * LocalRef) :=
  match arrRemoteLabels with
  | [] => ret (result1, arrLocalLabels)
  | remoteName :: rest =>
      if negb (existsLocally remoteName (refItems arrLocalLabels))
      then
        removed <- match remoteName with
                   | Some name => removePageLabel name
                   | None => throw (TypeError "param.toString")
                   end ;;
        arrLocalLabels' <- readPage (fun objPage => refresh objPage arrLocalLabels) ;;
        removeMissing rest arrLocalLabels' (if removed then result1 else false)
      else removeMissing rest arrLocalLabels result1
  end.

(** The second pass of [updatePageLabels], from index [c] on: every local
    label without a remote counterpart is added on the server.  The bound
    [arrLocalLabels.length] is read anew in every round. *)
Fixpoint addMissing (fuel : nat) (c : nat) (arrRemoteLabels : list (option string))
  (arrLocalLabels : LocalRef) (result2 : bool)
  : M (World * ConfluencePage) bool :=
  match fuel with
  | O => outOfFuel
  | S fuel' =>
      match nth_error (refItems arrLocalLabels) c with
      | None => ret result2
      | Some localName =>
          if negb (existsRemote localName arrRemoteLabels)
          then
            added <- addPageLabels [localName] ;;
            arrLocalLabels' <- readPage (fun objPage => refresh objPage arrLocalLabels) ;;
            addMissing fuel' (S c) arrRemoteLabels arrLocalLabels'
                       (if added then result2 else false)
          else addMissing fuel' (S c) arrRemoteLabels arrLocalLabels result2
      end
  end.

Definition updatePageLabels (fuel : nat) : M (World * ConfluencePage) bool :=
  valid <- readPage _isValidPageObj ;;
  if negb valid
  then throw (Error "[ConfluenceClient.updatePageLabels] Please pass a valid {ConfluencePage} object at parameter {objPage}!")
  else
  id <- readPage Page.getId ;;
  if negb (truthyStr id)
  then throw (Error "[ConfluenceClient.updatePageLabels] {objPage} has no page ID stored!")
  else
  tryCatch
    (id <- readPage Page.getId ;;
     onWorld (_setEndpoint (EpLabel (strOf id))) ;;;
     onWorld (_setHttpMethod "get") ;;;
     objResponse <- onWorld (_executeRequest "ConfluenceClient.updatePageLabels") ;;
     if negb (statusCode objResponse =? 200)
     then ret false
     else
       objResult <- lift (asLabels (body objResponse)) ;;
       let intSize := match fst objResult with
                      | Some size => size
                      | None => 0
                      end in
       arrRemoteLabels <- (if 0 <? intSize
                           then lift (chain "arrRemoteLabels.length" (snd objResult))
                           else ret []) ;;
       arrLocalLabels <- readPage localLabels ;;
       pass1 <- removeMissing arrRemoteLabels arrLocalLabels true ;;
       result2 <- addMissing fuel 0 arrRemoteLabels (snd pass1) true ;;
       ret (fst pass1 && result2))
    (fun e => onWorld (_logCaughtError "ConfluenceClient.updatePageLabels" e) ;;; ret false).

(** [getLastErrorMessage]: the text stored last by [_logError] or
    [_logCaughtError]; no method clears it. *)
Definition getLastErrorMessage : M World ErrorMsg :=
  fun w => (Return (strErrorMsg (client w)), w).

(** [loadPageDescendants]: the search for ["ancestor=" + strParentId]. *)
Definition loadPageDescendants (fuel : nat) (strParentId : string) (includeContent : JsValue)
  : M World (option (list ConfluencePage)) :=
  if negb (isValidInteger strParentId)
  then throw (Error ("[ConfluenceClient.loadPageDescendants] Please pass a valid Confluence page ID at parameter {strParentId}!" ++
                     " Invalid value: " ++ strParentId)%string)
  else searchPages fuel (JsString ("ancestor=" ++ strParentId)%string) includeContent.

End WithNetwork.

End Client.

(** ** The methods of [ConfluencePage] that call the client

    The client in the state is the one [_refConfluenceClient] points to. *)

Module PageSave.

Section WithNetwork.

Variable net : Network.

Definition updatePageData (suppressNotifications : JsValue)
  : M (World * ConfluencePage) bool :=
  changed <- readPage (fun this =>
    hasBodyChanged this || hasParentPageIdChanged this ||
    hasSpaceKeyChanged this || hasTitleChanged this) ;;
  if changed then Client.updatePageData net suppressNotifications else ret true.

Definition updatePageLabels (fuel : nat) : M (World * ConfluencePage) bool :=
  changed <- readPage haveLabelsChanged ;;
  if changed then Client.updatePageLabels net fuel else ret true.

Definition updateScaffoldingData : M (World * ConfluencePage) bool :=
  changed <- readPage hasScaffoldingDataChanged ;;
  if changed then Client.updateScaffoldingData net else ret true.

(** [a && b && c] *)
Definition update (fuel : nat) (suppressNotifications : JsValue)
  : M (World * ConfluencePage) bool :=
  saved <- updatePageData suppressNotifications ;;
  if saved
  then
    labelled <- updatePageLabels fuel ;;
    if labelled then updateScaffoldingData else ret false
  else ret false.


End WithNetwork.

End PageSave.

(** ** Sample data *)

Module Sample.

(** A page as the REST API returns it with all expansions. *)
Definition jsonPage (id title : string) (version : Z) (labels : list string) : JsonPage :=
  mkJsonPage (Some id) (Some "current") (Some title) (Some (Some "DEV"))
    (Some (Some version)) (Some (Some "<p>text</p>")) (Some (Some "<html/>"))
    (Some (Some [])) (Some (Some [])) (Some (Some [])) (Some (Some []))
    (Some (mkJsonLastUpdated (Some (mkJsonUser (Some "jdoe") (Some "J. Doe")))
                             (Some "2020-07-24T10:00:00")))
    (Some (Some (map (mkJsonLabel "global") labels))) None.

(** A label listing as the REST API returns it. *)
Definition labelListing (names : list string) : JsonDocument :=
  DocLabelListing (Some (Z.of_nat (List.length names)))
                  (Some (map (mkJsonLabel "global") names)).

(** A network that answers the n-th request with the n-th reply of a script. *)
Definition scripted (script : list Reply) : Network :=
  fun history _ => nth (List.length history) script (Raises (HostError "no reply")).

Definition answer (status : Z) (doc : JsonDocument) : Reply :=
  Responds (mkResponse status doc false).

(** A client right after its constructor. *)
Definition newClient : ConfluenceClient :=
  mkClient "https://wiki.example.org" NoErrorMsg "1595584800000abc"
           (mkRestMessage None None None) None.

Definition newWorld : World := mkWorld newClient [].

(** The page of [newClient] with id 100, title "Draft" and version 5. *)
Definition draftPage (labels : list string) : ConfluencePage :=
  mkPage "1595584800000abc" "1595584800000abc" (Some "100") (Some "current")
    (Some "Draft") (Some "DEV") (Some 5) (Some "<p>text</p>") (Some "<html/>")
    (Some []) (Some []) (Some []) (Some [])
    (Some "jdoe") (Some "J. Doe") (Some "2020-07-24T10:00:00")
    (match labels with [] => None | _ => Some (mkLabelArray 0 labels) end)
    None None None false false false false false false.

(** [draftPage] below the page 99, after [setTitle("Final")] and
    [addLabel("review")]. *)
Definition editedPage : ConfluencePage :=
  set_haveLabelsChanged true
    (set_arrLabels (Some (mkLabelArray 0 ["docs"; "review"]))
       (set_hasTitleChanged true
          (set_strTitle (Some "Final")
             (set_strParentPageId (Some "99") (draftPage ["docs"]))))).

End Sample.

(** ** The requests of the methods *)

Module Request.

(** The request of [removePage] for the page [id]. *)
Definition delete (w : World) (id : string) : RestMessage :=
  mkRestMessage (Some (strConfluenceURL (client w), EpContent id))
                (Some "delete") (Some (TextBody "x")).

(** The request of [searchPages] for the results from [start] on.  The
    method does not set a request body, so the one set last is kept. *)
Definition search (w : World) (strFinalCQL : string) (includeContent : JsValue)
  (start : Z) : RestMessage :=
  mkRestMessage
    (Some (strConfluenceURL (client w),
           EpSearch start strFinalCQL (_getCommonExpansions includeContent)))
    (Some "get") (rmRequestBody (objRestMessage (client w))).

(** The network answers the requests [request start], [request (start + n)],
    ... that follow [history] with the result lists [pages], none of them
    empty, and then with an empty list, each time with status code 200. *)
Fixpoint serves (net : Network) (request : Z -> RestMessage)
  (history : list RestMessage) (start : Z) (pages : list (list JsonPage)) : Prop :=
  match pages with
  | [] =>
      exists r, net history (request start) = Responds r /\
                statusCode r = 200 /\ asResults (body r) = Return []
  | page :: rest =>
      page <> [] /\
      exists r, net history (request start) = Responds r /\
                statusCode r = 200 /\ asResults (body r) = Return page /\
                serves net request (history ++ [request start])
                       (start + Z.of_nat (List.length page)) rest
  end.

(** The start offsets of the requests for [pages] and the final empty list. *)
Fixpoint offsets (start : Z) (pages : list (list JsonPage)) : list Z :=
  match pages with
  | [] => [start]
  | page :: rest => start :: offsets (start + Z.of_nat (List.length page)) rest
  end.

(** The request of [updatePageLabels] for the labels of the page [id]; it
    too keeps the request body set last. *)
Definition listLabels (w : World) (id : string) : RestMessage :=
  mkRestMessage (Some (strConfluenceURL (client w), EpLabel id))
                (Some "get") (rmRequestBody (objRestMessage (client w))).

(** The request of [removePageLabel]. *)
Definition removeLabel (w : World) (id name : string) : RestMessage :=
  mkRestMessage (Some (strConfluenceURL (client w), EpLabelByName id name))
                (Some "delete") (Some (TextBody "x")).

(** The request of [addPageLabels]. *)
Definition addLabels (w : World) (id : string) (names : list string) : RestMessage :=
  mkRestMessage (Some (strConfluenceURL (client w), EpLabel id))
                (Some "post") (Some (JsonBody (JsArray (map labelObject names)))).

(** The reply is a response with the status code [status]. *)
Definition succeeded (status : Z) (reply : Reply) : bool :=
  match reply with
  | Responds r => statusCode r =? status
  | Raises _ => false
  end.

(** The conjunction of the outcomes of the requests [requests], sent one
    after the other after [history], each with the status code that means
    success for it.  Every request is sent, whatever the outcomes before it. *)
Fixpoint allSucceed (net : Network) (history : list RestMessage)
  (requests : list (RestMessage * Z)) : bool :=
  match requests with
  | [] => true
  | (request, status) :: rest =>
      let ok := succeeded status (net history request) in
      let others := allSucceed net (history ++ [request]) rest in
      ok && others
  end.

(** [name] is one of [names], by equality of strings. *)
Definition among (names : list string) (name : string) : bool :=
  existsb (String.eqb name) names.

(** The removals [updatePageLabels] asks for: the remote names that are not
    among the local ones, in the order of the listing. *)
Definition removals (w : World) (id : string) (locals remotes : list string)
  : list (RestMessage * Z) :=
  map (fun name => (removeLabel w id name, 204))
      (filter (fun name => negb (among locals name)) remotes).

(** The additions [updatePageLabels] asks for: the local names that are not
    among the remote ones, in the order of the page's array. *)
Definition additions (w : World) (id : string) (locals remotes : list string)
  : list (RestMessage * Z) :=
  map (fun name => (addLabels w id [name], 200))
      (filter (fun name => negb (among remotes name)) locals).

(** The client as far as the requests depend on it. *)
Definition sameClient (w w' : World) : Prop :=
  strConfluenceURL (client w') = strConfluenceURL (client w) /\
  clientInternalId (client w') = clientInternalId (client w).

(** A local reference is in step with the page: the page's array is the one
    referred to and has the elements last seen, or it is a later one. *)
Definition inStep (l : LocalRef) (objPage : ConfluencePage) : Prop :=
  match refId l with
  | Some i =>
      exists arr, arrLabels objPage = Some arr /\ (i <= arrayId arr)%nat /\
                  (arrayId arr = i -> arrayItems arr = refItems l)
  | None => True
  end.

(** No change flag of the page is set. *)
Definition unchanged (this : ConfluencePage) : Prop :=
  hasTitleChanged this = false /\ hasSpaceKeyChanged this = false /\
  hasBodyChanged this = false /\ hasParentPageIdChanged this = false /\
  haveLabelsChanged this = false /\ hasScaffoldingDataChanged this = false.

End Request.

(** ** Further notions used in the properties *)

Module Behaviour.

(** A label name as [addLabel] stores it: valid, and equal to its own
    lowercase-trimmed form. *)
Definition stored (name : string) : Prop :=
  isValidLabelName name = true /\ Page.normalizeLabel name = name.

(** The names a page holds, [[]] when it has no array. *)
Definition labelsOf (this : ConfluencePage) : list string :=
  match arrLabels this with
  | Some arr => arrayItems arr
  | None => []
  end.

(** The label array of the page holds stored names, each once. *)
Definition labelSet (this : ConfluencePage) : Prop :=
  Forall stored (labelsOf this) /\ NoDup (labelsOf this).

(** The page holds what [updatePageData] of the client asks for: an id, a
    version number, a parent id, a title and a space key. *)
Definition complete (objPage : ConfluencePage) : bool :=
  truthyStr (strId objPage) && truthyNum (intVersionNumber objPage) &&
  truthyStr (strParentPageId objPage) && truthyStr (strTitle objPage) &&
  truthyStr (strSpaceKey objPage).

(** The request of [updatePageData] for the page [id]. *)
Definition putPage (w : World) (id : string) (payload : JsValue) : RestMessage :=
  mkRestMessage (Some (strConfluenceURL (client w), EpContent id))
                (Some "put") (Some (JsonBody payload)).

(** The request of [updateScaffoldingData] for the page [id]. *)
Definition putForm (w : World) (id : string) (fields : list ScaffoldingField)
  : RestMessage :=
  mkRestMessage (Some (strConfluenceURL (client w), EpScaffoldingForm id))
                (Some "put") (Some (JsonBody (JsArray (map fieldObject fields)))).

(** The version number [updatePageData] takes from a response: that of the
    page decoded from the body, if the body is a page that can be decoded and
    its version number passes [isValidInteger]. *)
Definition returnedVersion (clientInternalId : string) (r : Response) : option Z :=
  match asPage (body r) with
  | Return jsonPage =>
      match Page.initialize clientInternalId (Some jsonPage) with
      | Return objReturnedPage =>
          match intVersionNumber objReturnedPage with
          | Some v => if isValidIntegerNum v then Some v else None
          | None => None
          end
      | _ => None
      end
  | _ => None
  end.

(** The network answers the requests [request start], [request (start + n)],
    ... that follow [history] with the non-empty result lists [pages], each
    with status code 200, and the request after them with another status
    code or not at all. *)
Fixpoint failsAfter (net : Network) (request : Z -> RestMessage)
  (history : list RestMessage) (start : Z) (pages : list (list JsonPage)) : Prop :=
  match pages with
  | [] =>
      match net history (request start) with
      | Responds r => statusCode r <> 200
      | Raises _ => True
      end
  | page :: rest =>
      page <> [] /\
      exists r, net history (request start) = Responds r /\
                statusCode r = 200 /\ asResults (body r) = Return page /\
                failsAfter net request (history ++ [request start])
                           (start + Z.of_nat (List.length page)) rest
  end.

(** The page with id 100 as decoded for another client than
    [Sample.newClient]. *)
Definition otherClientsPage : ConfluencePage :=
  mkPage "1595584800001xyz" "1595584800001xyz" (Some "100") (Some "current")
    (Some "Draft") (Some "DEV") (Some 5) (Some "<p>text</p>") (Some "<html/>")
    (Some []) (Some []) (Some []) (Some [])
    (Some "jdoe") (Some "J. Doe") (Some "2020-07-24T10:00:00")
    None None None None false false false false false false.

End Behaviour.

(** * Properties *)

(** ** Pages *)

Lemma draftPage_decoded (labels : list string) :
  Page.initialize "1595584800000abc" (Some (Sample.jsonPage "100" "Draft" 5 labels))
  = Return (Sample.draftPage labels).
Proof.
  destruct labels as [|l ls]; [reflexivity|].
  cbn. rewrite ?map_map. cbn. rewrite map_id. reflexivity.
Qed.

(** *** The version number and the change flags *)

(** C3: [setVersionNumber] with a new version number clears the label
    flag together with the four flags of the page data.  The page decoded
    from the server with the label "docs" and version 5 gets the label
    "review", which raises its label flag; after [setVersionNumber(6)], the
    call that [updatePageData] of the client makes with the version the
    server returns, the flag is clear while the page still holds the new
    label.  The page's [updatePageLabels] then returns [true] without a
    request, so the label is never sent. *)
Theorem setVersionNumber_drops_label_edit (net : Network) (w : World) (fuel : nat) :
  exists p0 p1 p2,
    Page.initialize "1595584800000abc" (Some (Sample.jsonPage "100" "Draft" 5 ["docs"]))
      = Return p0 /\
    Page.addLabel "review" p0 = Return p1 /\
    Page.setVersionNumber 6 p1 = Return p2 /\
    haveLabelsChanged p0 = false /\
    haveLabelsChanged p1 = true /\
    arrLabels p1 = Some (mkLabelArray 0 ["docs"; "review"]) /\
    intVersionNumber p1 = Some 5 /\
    hasScaffoldingDataChanged p2 = hasScaffoldingDataChanged p1 /\
    haveLabelsChanged p2 = false /\
    arrLabels p2 = Some (mkLabelArray 0 ["docs"; "review"]) /\
    PageSave.updatePageLabels net fuel (w, p2) = (Return true, (w, p2)).
Proof.
  exists (Sample.draftPage ["docs"]).
  exists (set_haveLabelsChanged true
            (set_arrLabels (Some (mkLabelArray 0 ["docs"; "review"]))
               (Sample.draftPage ["docs"]))).
  exists (set_intVersionNumber (Some 6)
            (set_arrLabels (Some (mkLabelArray 0 ["docs"; "review"]))
               (Sample.draftPage ["docs"]))).
  split; [apply draftPage_decoded|].
  split; [vm_compute; reflexivity|].
  split; [vm_compute; reflexivity|].
  repeat split.
Qed.

(** C4: the page decoded from the server has the title "Draft" and a clear
    title flag.  After [setTitle("Final")] twice the flag is clear again
    although the title is not the server's: the second call compares the new
    title with the one the first call stored.  The page's [updatePageData]
    then returns [true] without a request, so the new title is never sent. *)
Theorem setTitle_twice_clears_flag (net : Network) (w : World) :
  exists p0 p1 p2,
    Page.initialize "1595584800000abc" (Some (Sample.jsonPage "100" "Draft" 5 []))
      = Return p0 /\
    Page.setTitle (JsString "Final") p0 = Return p1 /\
    Page.setTitle (JsString "Final") p1 = Return p2 /\
    strTitle p0 = Some "Draft" /\ hasTitleChanged p0 = false /\
    hasTitleChanged p1 = true /\
    strTitle p2 = Some "Final" /\ hasTitleChanged p2 = false /\
    PageSave.updatePageData net JsUndefined (w, p2) = (Return true, (w, p2)).
Proof.
  exists (Sample.draftPage []).
  exists (set_strTitle (Some "Final") (set_hasTitleChanged true (Sample.draftPage []))).
  exists (set_strTitle (Some "Final") (Sample.draftPage [])).
  split; [apply draftPage_decoded|].
  repeat split.
Qed.

(** *** Serialization *)

Lemma toDouble_exact (z : Z) : - 2 ^ 53 <= z <= 2 ^ 53 -> toDouble z = z.
Proof.
  change (2 ^ 53) with 9007199254740992. intros Hz. unfold toDouble.
  change (2 ^ 53) with 9007199254740992.
  destruct (Z.ltb_spec (Z.abs z) 9007199254740992) as [_|Habs]; [reflexivity|].
  assert (Hcases : z = 9007199254740992 \/ z = - 9007199254740992) by lia.
  destruct Hcases as [-> | ->]; vm_compute; reflexivity.
Qed.

(** C5, the claim as stated fails: [setVersionNumber] accepts the version
    number 2^53, and the object serialized for an update of that page
    carries 2^53 again as [version.number], not that number plus 1: the sum
    of the two doubles is rounded. *)
Lemma stringify_version_not_increased :
  exists this objResult version,
    Page.setVersionNumber 9007199254740992 (Sample.draftPage []) = Return this /\
    intVersionNumber this = Some 9007199254740992 /\
    Page.stringify (JsBool false) JsUndefined this = Return objResult /\
    getProp "version" objResult = Some version /\
    getProp "number" version = Some (JsNumber 9007199254740992) /\
    getProp "number" version <> Some (JsNumber (9007199254740992 + 1)).
Proof.
  exists (set_intVersionNumber (Some 9007199254740992) (Sample.draftPage [])).
  do 2 eexists.
  split; [vm_compute; reflexivity|].
  split; [reflexivity|].
  split; [vm_compute; reflexivity|].
  split; [vm_compute; reflexivity|].
  split; [vm_compute; reflexivity|].
  vm_compute. discriminate.
Qed.

(** C5 (amended): the object serialized for an update carries the page's id
    and, as [version.number], the sum of the page's version number and 1 as
    doubles, which is the version number plus 1 for every version number from
    -2^53 up to 2^53 - 1; the object serialized for a creation has neither an
    [id] nor a [version] property, whatever the page holds, and is produced
    whenever notifications are not suppressed. *)
Theorem stringify_id_and_version (this : ConfluencePage) (suppressNotifications : JsValue) :
  (forall id v,
      strId this = Some id ->
      intVersionNumber this = Some v ->
      exists objResult version,
        Page.stringify (JsBool false) suppressNotifications this = Return objResult /\
        getProp "id" objResult = Some (JsString id) /\
        getProp "version" objResult = Some version /\
        getProp "number" version = Some (JsNumber (toDouble (v + 1))) /\
        (- 2 ^ 53 <= v < 2 ^ 53 ->
         getProp "number" version = Some (JsNumber (v + 1)))) /\
  (forall objResult,
      Page.stringify (JsBool true) suppressNotifications this = Return objResult ->
      getProp "id" objResult = None /\ getProp "version" objResult = None) /\
  (isBooleanTrue suppressNotifications = false ->
   exists objResult,
     Page.stringify (JsBool true) suppressNotifications this = Return objResult).
Proof.
  split; [|split].
  - intros id v Hid Hv.
    assert (Hsafe : - 2 ^ 53 <= v < 2 ^ 53 -> toDouble (v + 1) = v + 1).
    { intros Hb. apply toDouble_exact. lia. }
    unfold Page.stringify, Page.getId, Page.getVersionNumber.
    rewrite Hid, Hv. cbn [isBooleanTrue negb ofStr plusOne].
    destruct (isBooleanTrue suppressNotifications);
      destruct (truthyStr (Page.getBody this));
      destruct (truthyStr (Page.getParentPageId this));
      cbn [bindO Page.assignMinorEdit lookupProp assignProp String.eqb Ascii.eqb Bool.eqb];
      do 2 eexists;
      (split; [reflexivity|]); (split; [reflexivity|]); (split; [reflexivity|]);
      (split; [reflexivity|]);
      intros Hb; rewrite (Hsafe Hb); reflexivity.
  - intros objResult. unfold Page.stringify. cbn [isBooleanTrue negb].
    destruct (isBooleanTrue suppressNotifications); cbn; [discriminate|].
    destruct (truthyStr (Page.getBody this));
      destruct (truthyStr (Page.getParentPageId this));
      intros H; injection H as <-; split; reflexivity.
  - intros Hs. unfold Page.stringify. cbn [isBooleanTrue negb]. rewrite Hs.
    cbn. eexists. reflexivity.
Qed.

Lemma stringify_id_and_version_witness :
  (exists objResult version,
      Page.stringify (JsBool false) JsUndefined (Sample.draftPage []) = Return objResult /\
      getProp "id" objResult = Some (JsString "100") /\
      getProp "version" objResult = Some version /\
      getProp "number" version = Some (JsNumber (5 + 1))) /\
  (exists objResult,
      Page.stringify (JsBool true) JsUndefined (Sample.draftPage []) = Return objResult /\
      getProp "id" objResult = None /\ getProp "version" objResult = None).
Proof.
  destruct (stringify_id_and_version (Sample.draftPage []) JsUndefined) as (Hu & Hc & He).
  split.
  - destruct (Hu "100" 5 eq_refl eq_refl) as (objResult & version & H1 & H2 & H3 & _ & H5).
    exists objResult, version. repeat split; try assumption.
    apply H5. split; [vm_compute; discriminate | vm_compute; reflexivity].
  - destruct (He eq_refl) as (objResult & Hobj).
    exists objResult. split; [exact Hobj | exact (Hc objResult Hobj)].
Defined.

(** C10: serialization for a creation with notifications suppressed raises
    a [TypeError]: the branch for [suppressNotifications] writes to
    [objResult.version], which only the update branch creates. *)
Theorem stringify_create_suppressed_throws (this : ConfluencePage) :
  Page.stringify (JsBool true) (JsBool true) this = Throw (TypeError "objResult.version").
Proof. reflexivity. Qed.

(** *** Scaffolding values *)

Lemma findField_stored name v data data' :
  Page.storeField name v data = Some data' ->
  Page.findField name data' = v.
Proof.
  revert data'. induction data as [|f rest IH]; cbn; intros data' H; [discriminate|].
  destruct (String.eqb (fieldName f) name) eqn:E.
  - injection H as <-. cbn. now rewrite E.
  - destruct (Page.storeField name v rest) as [rest'|]; [|discriminate].
    injection H as <-. cbn. rewrite E. now apply IH.
Qed.

Lemma findField_appended name v data :
  Page.storeField name v data = None ->
  Page.findField name (data ++ [mkField name v]) = v.
Proof.
  induction data as [|f rest IH]; cbn; intros H.
  - now rewrite String.eqb_refl.
  - destruct (String.eqb (fieldName f) name) eqn:E; [discriminate|].
    destruct (Page.storeField name v rest); [discriminate|]. now apply IH.
Qed.

(** A field is absent when no entry carries its name. *)
Lemma storeField_absent name v data :
  Page.storeField name v data = None <->
  forall f, In f data -> fieldName f <> name.
Proof.
  induction data as [|f rest IH]; cbn.
  - split; [intros _ f [] | reflexivity].
  - destruct (String.eqb_spec (fieldName f) name) as [E|E].
    + split; [discriminate|]. intros H. elim (H f); auto.
    + destruct (Page.storeField name v rest); cbn.
      * split; [discriminate|]. intros H.
        enough (Hn : Some l = @None (list ScaffoldingField)) by discriminate.
        apply IH. intros g Hg. apply H. now right.
      * split; [|reflexivity]. intros _ g [<-|Hg]; [exact E|].
        now apply (proj1 IH).
Qed.

(** C9, the claim as stated fails: [false] is not nullish, yet after
    [setScaffoldingValue("approved", false)] the getter returns [""]. *)
Lemma setScaffoldingValue_false_reads_empty :
  exists this',
    Page.setScaffoldingValue (JsString "approved") (JsBool false) (Sample.draftPage [])
      = Return this' /\
    Page.getScaffoldingValue (JsString "approved") this' = Return (JsString "") /\
    JsString "" <> JsBool false.
Proof.
  eexists. repeat split; try reflexivity. discriminate.
Qed.

(** C9 (amended): for a valid field name, [setScaffoldingValue(name, v)]
    followed by [getScaffoldingValue(name)] returns [v] when [v] is truthy and
    the empty string when [v] is falsy ([undefined], [null], [false], [0],
    [NaN], [""]); when no entry carries the name a new entry is appended at
    the end; the call always sets the Scaffolding flag. *)
Theorem setScaffoldingValue_then_get (this : ConfluencePage) (strFieldName v : JsValue)
  (name : string) :
  Page.isFieldName strFieldName = Some name ->
  exists this',
    Page.setScaffoldingValue strFieldName v this = Return this' /\
    Page.getScaffoldingValue strFieldName this'
      = Return (if truthy v then v else JsString "") /\
    hasScaffoldingDataChanged this' = true /\
    (arrScaffoldingData this = None ->
     arrScaffoldingData this'
       = Some [mkField name (if truthy v then v else JsString "")]) /\
    (forall data,
        arrScaffoldingData this = Some data ->
        (forall f, In f data -> fieldName f <> name) ->
        arrScaffoldingData this'
          = Some (data ++ [mkField name (if truthy v then v else JsString "")])).
Proof.
  intros Hname.
  unfold Page.setScaffoldingValue, Page.getScaffoldingValue. rewrite Hname.
  fold (js_or v (JsString "")). set (value := js_or v (JsString "")).
  destruct (arrScaffoldingData this) as [data|] eqn:Hdata.
  - destruct (Page.storeField name value data) as [data'|] eqn:Hstore.
    + eexists. split; [reflexivity|]. cbn. repeat split.
      * f_equal. now apply findField_stored with (data := data).
      * discriminate.
      * intros d Hd Habs. injection Hd as <-.
        apply (storeField_absent name value) in Habs. congruence.
    + eexists. split; [reflexivity|]. cbn. repeat split.
      * f_equal. now apply findField_appended.
      * discriminate.
      * intros d Hd _. now injection Hd as <-.
  - eexists. split; [reflexivity|]. cbn. rewrite String.eqb_refl. repeat split.
    intros d Hd. discriminate.
Qed.

Lemma setScaffoldingValue_then_get_witness :
  exists this',
    Page.setScaffoldingValue (JsString "approved") (JsNumber 7) (Sample.draftPage [])
      = Return this' /\
    Page.getScaffoldingValue (JsString "approved") this'
      = Return (if truthy (JsNumber 7) then JsNumber 7 else JsString "") /\
    hasScaffoldingDataChanged this' = true.
Proof.
  destruct (@setScaffoldingValue_then_get (Sample.draftPage []) (JsString "approved")
              (JsNumber 7) "approved" eq_refl) as (this' & H1 & H2 & H3 & _).
  exists this'. repeat split; assumption.
Defined.

(** ** The client *)

(** Unfolds the sequencing operations and the client's primitives. *)
Ltac mstep :=
  cbv beta iota zeta delta
    [bind ret throw outOfFuel tryCatch onWorld onPage readPage lift
     Client._isValidPageObj Client._setEndpoint Client._setHttpMethod
     Client._setRequestBody Client._executeRequest Client._logCaughtError
     Client.newPage set_objRestMessage set_strErrorMsg set_objResponse
     Page.getId Page.getStatus Page.getTitle Page.getSpaceKey Page.getVersionNumber
     Page.getBody Page.getScaffoldingData Page.getParentPageId Page.getLabels];
  cbn [fst snd negb strOf client sent objRestMessage rmEndpoint rmHttpMethod
       rmRequestBody strConfluenceURL strErrorMsg clientInternalId objResponse].

(** *** Deleting a page *)

(** C7: [removePage] on a page in status "trashed" throws and leaves the
    client, its requests and the page as they were.  On a valid page with an
    id and another status it sends one DELETE request; on status code 200 or
    204 it sets the page's status to "trashed" and returns [true], on any
    other status code, and when the request itself fails, it leaves the page
    alone and returns [false]. *)
Theorem removePage_outcomes (net : Network) (w : World) (objPage : ConfluencePage) :
  (strStatus objPage = Some "trashed" ->
   exists e, Client.removePage net (w, objPage) = (Throw e, (w, objPage))) /\
  (forall id,
      Page.isValid objPage = true ->
      strId objPage = Some id -> id <> "" ->
      strStatus objPage <> Some "trashed" ->
      exists w',
        sent w' = sent w ++ [Request.delete w id] /\
        Client.removePage net (w, objPage) =
          match net (sent w) (Request.delete w id) with
          | Responds r =>
              if (statusCode r =? 200) || (statusCode r =? 204)
              then (Return true, (w', set_strStatus (Some "trashed") objPage))
              else (Return false, (w', objPage))
          | Raises _ => (Return false, (w', objPage))
          end).
Proof.
  split.
  - intros Hst. unfold Client.removePage. mstep.
    destruct (Page.isValid objPage); mstep; [|eauto].
    destruct (truthyStr (strId objPage)); mstep; [|eauto].
    rewrite Hst. cbn. eauto.
  - intros id Hvalid Hid Hne Hst.
    assert (Htr : match strStatus objPage with
                  | Some s => String.eqb s "trashed"
                  | None => false
                  end = false).
    { destruct (strStatus objPage) as [s|]; [|reflexivity].
      destruct (String.eqb_spec s "trashed") as [->|]; [now elim Hst | reflexivity]. }
    assert (Hid' : truthyStr (Some id) = true).
    { cbn. destruct (String.eqb_spec id ""); [contradiction | reflexivity]. }
    destruct w as [[url err cid rm resp] snt].
    unfold Client.removePage, Request.delete.
    repeat (mstep; rewrite ?Hvalid, ?Hid, ?Hid', ?Htr).
    destruct (net snt _) as [r|e]; mstep.
    + destruct ((statusCode r =? 200) || (statusCode r =? 204)); mstep.
      * cbn. eexists. split; [|reflexivity]. reflexivity.
      * eexists. split; [|reflexivity]. reflexivity.
    + eexists. split; [|reflexivity]. reflexivity.
Qed.

Lemma removePage_outcomes_witness :
  (exists e,
      Client.removePage (Sample.scripted [])
        (Sample.newWorld, set_strStatus (Some "trashed") (Sample.draftPage []))
      = (Throw e, (Sample.newWorld, set_strStatus (Some "trashed") (Sample.draftPage [])))) /\
  (exists w',
      sent w' = [Request.delete Sample.newWorld "100"] /\
      Client.removePage (Sample.scripted [Sample.answer 204 DocMalformed])
        (Sample.newWorld, Sample.draftPage [])
      = (Return true, (w', set_strStatus (Some "trashed") (Sample.draftPage [])))).
Proof.
  split.
  - apply (proj1 (removePage_outcomes (Sample.scripted []) Sample.newWorld
                    (set_strStatus (Some "trashed") (Sample.draftPage [])))).
    reflexivity.
  - apply (proj2 (removePage_outcomes (Sample.scripted [Sample.answer 204 DocMalformed])
                    Sample.newWorld (Sample.draftPage [])) "100");
      [reflexivity | reflexivity | discriminate | discriminate].
Defined.

(** *** Saving a page *)

(** C8: on a page without any change flag the three save methods of the page
    return [true] and leave the client, its requests and the page untouched.
    [update] runs the page data, then the labels, then the Scaffolding data,
    and when a step returns [false] it returns [false] in the state that step
    left, without running the steps after it. *)
Theorem update_guards_and_order (net : Network) (fuel : nat)
  (suppressNotifications : JsValue) (s : World * ConfluencePage) :
  (Request.unchanged (snd s) ->
   PageSave.updatePageData net suppressNotifications s = (Return true, s) /\
   PageSave.updatePageLabels net fuel s = (Return true, s) /\
   PageSave.updateScaffoldingData net s = (Return true, s)) /\
  (forall s1,
      PageSave.updatePageData net suppressNotifications s = (Return false, s1) ->
      PageSave.update net fuel suppressNotifications s = (Return false, s1)) /\
  (forall s1 s2,
      PageSave.updatePageData net suppressNotifications s = (Return true, s1) ->
      PageSave.updatePageLabels net fuel s1 = (Return false, s2) ->
      PageSave.update net fuel suppressNotifications s = (Return false, s2)) /\
  (forall s1 s2,
      PageSave.updatePageData net suppressNotifications s = (Return true, s1) ->
      PageSave.updatePageLabels net fuel s1 = (Return true, s2) ->
      PageSave.update net fuel suppressNotifications s
      = PageSave.updateScaffoldingData net s2).
Proof.
  repeat split.
  - destruct H as (Ht & Hk & Hb & Hp & _).
    unfold PageSave.updatePageData. mstep. now rewrite Ht, Hk, Hb, Hp.
  - destruct H as (_ & _ & _ & _ & Hl & _).
    unfold PageSave.updatePageLabels. mstep. now rewrite Hl.
  - destruct H as (_ & _ & _ & _ & _ & Hs).
    unfold PageSave.updateScaffoldingData. mstep. now rewrite Hs.
  - intros s1 H1. unfold PageSave.update, bind. now rewrite H1.
  - intros s1 s2 H1 H2. unfold PageSave.update, bind. now rewrite H1, H2.
  - intros s1 s2 H1 H2. unfold PageSave.update, bind. now rewrite H1, H2.
Qed.

Lemma update_guards_and_order_witness :
  PageSave.updatePageData (Sample.scripted []) JsUndefined
    (Sample.newWorld, Sample.draftPage ["docs"])
  = (Return true, (Sample.newWorld, Sample.draftPage ["docs"])) /\
  exists s1,
    PageSave.update (Sample.scripted [Sample.answer 500 DocMalformed]) 5 JsUndefined
      (Sample.newWorld, Sample.editedPage)
    = (Return false, s1) /\
    List.length (sent (fst s1)) = 1%nat /\
    haveLabelsChanged (snd s1) = true.
Proof.
  split.
  - apply (update_guards_and_order (Sample.scripted []) 0 JsUndefined
             (Sample.newWorld, Sample.draftPage ["docs"])).
    repeat split.
  - eexists. split.
    + apply (update_guards_and_order (Sample.scripted [Sample.answer 500 DocMalformed])
               5 JsUndefined (Sample.newWorld, Sample.editedPage)).
      reflexivity.
    + split; reflexivity.
Defined.

(** *** Searching *)

Lemma pushPages_decoded (results : list JsonPage) (ps acc : list ConfluencePage) (w : World) :
  Forall2 (fun j p => Page.initialize (clientInternalId (client w)) (Some j) = Return p)
          results ps ->
  Client.pushPages results acc w = (Return (acc ++ ps), w).
Proof.
  intros H. revert acc.
  induction H as [|j p results ps Hj _ IH]; intros acc; cbn [Client.pushPages].
  - unfold ret. now rewrite app_nil_r.
  - unfold bind, Client.newPage. rewrite Hj, IH. now rewrite <- app_assoc.
Qed.

Lemma searchLoop_paginates (net : Network) (strFinalCQL : string) (includeContent : JsValue)
  (url cid : string) (b : option RequestBody) (pages : list (list JsonPage)) :
  let request := fun start =>
    mkRestMessage (Some (url, EpSearch start strFinalCQL (_getCommonExpansions includeContent)))
                  (Some "get") b in
  forall (w : World) (start : Z) (acc decoded : list ConfluencePage) (fuel : nat),
    strConfluenceURL (client w) = url ->
    clientInternalId (client w) = cid ->
    rmRequestBody (objRestMessage (client w)) = b ->
    Request.serves net request (sent w) start pages ->
    Forall2 (fun j p => Page.initialize cid (Some j) = Return p) (List.concat pages) decoded ->
    (List.length pages < fuel)%nat ->
    exists w',
      Client.searchLoop net fuel strFinalCQL includeContent acc start w
      = (Return (Some (acc ++ decoded)), w') /\
      sent w' = sent w ++ map request (Request.offsets start pages).
Proof.
  intros request. induction pages as [|page rest IH];
    intros [[url' err cid' rm resp] snt] start acc decoded fuel Hurl Hcid Hb Hserves Hdec Hfuel;
    cbn in Hurl, Hcid, Hb; subst url' cid'; (destruct fuel as [|fuel]; [inversion Hfuel|]).
  - cbn in Hdec. inversion Hdec; subst decoded.
    destruct Hserves as (r & Hr & Hst & Hres). cbn [sent] in Hr.
    cbn [Client.searchLoop]. mstep. rewrite Hb. fold (request start). rewrite Hr. mstep.
    rewrite Hst, Hres. cbn. rewrite app_nil_r. eexists. split; reflexivity.
  - cbn [List.concat] in Hdec. apply Forall2_app_inv_l in Hdec.
    destruct Hdec as (ps1 & ps2 & Hps1 & Hps2 & ->).
    destruct Hserves as (Hne & r & Hr & Hst & Hres & Hrest). cbn [sent] in Hr, Hrest.
    cbn [Client.searchLoop]. mstep. rewrite Hb. fold (request start). rewrite Hr. mstep.
    rewrite Hst, Hres. cbn [Z.eqb Pos.eqb].
    assert (Hlen : (Z.of_nat (List.length page) =? 0) = false).
    { destruct page; [contradiction | reflexivity]. }
    rewrite Hlen.
    set (w1 := mkWorld _ (snt ++ [request start])).
    assert (Hw1 : strConfluenceURL (client w1) = url /\ clientInternalId (client w1) = cid /\
                  rmRequestBody (objRestMessage (client w1)) = b).
    { unfold w1. destruct (haveError r); repeat split. }
    destruct Hw1 as (Hu1 & Hc1 & Hb1).
    rewrite (@pushPages_decoded page ps1 acc w1) by (rewrite Hc1; exact Hps1).
    destruct (IH w1 (start + Z.of_nat (List.length page)) (acc ++ ps1) ps2 fuel
                Hu1 Hc1 Hb1 Hrest Hps2) as (w' & Hrun & Hsent).
    { cbn in Hfuel. lia. }
    exists w'. rewrite Hrun, Hsent. unfold w1. cbn [sent Request.offsets map].
    now rewrite <- !app_assoc.
Qed.

(** C6: when the network answers the successive search requests with the
    non-empty result lists [pages] and then with an empty one, [searchPages]
    returns one decoded page per result item, in order; it sends one request
    per list, each starting at the number of items received so far, and no
    request after the one answered with the empty list. *)
Theorem searchPages_paginates (net : Network) (w : World) (cql : string)
  (includeContent : JsValue) (pages : list (list JsonPage))
  (decoded : list ConfluencePage) (fuel : nat) :
  (5 < String.length (trim cql))%nat ->
  Request.serves net (Request.search w (Client.finalCQL cql) includeContent)
                 (sent w) 0 pages ->
  Forall2 (fun j p => Page.initialize (clientInternalId (client w)) (Some j) = Return p)
          (List.concat pages) decoded ->
  (List.length pages < fuel)%nat ->
  exists w',
    Client.searchPages net fuel (JsString cql) includeContent w
    = (Return (Some decoded), w') /\
    sent w' = sent w ++ map (Request.search w (Client.finalCQL cql) includeContent)
                            (Request.offsets 0 pages).
Proof.
  intros Hcql Hserves Hdec Hfuel.
  destruct (@searchLoop_paginates net (Client.finalCQL cql) includeContent
              (strConfluenceURL (client w)) (clientInternalId (client w))
              (rmRequestBody (objRestMessage (client w))) pages
              w 0 [] decoded fuel eq_refl eq_refl eq_refl Hserves Hdec Hfuel)
    as (w' & Hrun & Hsent).
  exists w'. split; [|exact Hsent].
  unfold Client.searchPages. apply Nat.ltb_lt in Hcql. rewrite Hcql.
  unfold tryCatch. now rewrite Hrun.
Qed.

Lemma searchPages_paginates_witness :
  exists w',
    Client.searchPages
      (Sample.scripted
         [Sample.answer 200
            (DocPageListing (Some 2)
               (Some [Sample.jsonPage "100" "Draft" 5 []; Sample.jsonPage "101" "Notes" 1 []]));
          Sample.answer 200 (DocPageListing (Some 0) (Some []))])
      2 (JsString "type=page") JsUndefined Sample.newWorld
    = (Return (Some [Sample.draftPage [];
                     set_intVersionNumber (Some 1)
                       (set_strTitle (Some "Notes")
                          (set_strId (Some "101") (Sample.draftPage [])))]), w') /\
    sent w' = [Request.search Sample.newWorld "type=page" JsUndefined 0;
               Request.search Sample.newWorld "type=page" JsUndefined 2].
Proof.
  apply (@searchPages_paginates _ Sample.newWorld "type=page" JsUndefined
           [[Sample.jsonPage "100" "Draft" 5 []; Sample.jsonPage "101" "Notes" 1 []]]).
  - apply Nat.ltb_lt. reflexivity.
  - cbn. split; [discriminate|]. eexists. repeat split. eexists. repeat split.
  - repeat constructor.
  - cbn. lia.
Defined.

(** *** Reconciling labels *)

Lemma existsLocally_among (r : string) (locals : list string) :
  existsLocally (Some r) locals = Request.among locals r.
Proof.
  unfold existsLocally, Request.among.
  enough (H : forall acc,
             fold_left (fun found l => if String.eqb r l then true else found) locals acc
             = acc || existsb (String.eqb r) locals) by apply H.
  induction locals as [|l ls IH]; intros acc; cbn.
  - now rewrite orb_false_r.
  - rewrite IH. destruct (String.eqb r l), acc; reflexivity.
Qed.

Lemma existsRemote_among (l : string) (remotes : list string) :
  existsRemote l (map Some remotes) = Request.among remotes l.
Proof.
  unfold existsRemote, Request.among.
  enough (H : forall acc,
             fold_left (fun found o => match o with
                                       | Some r => if String.eqb l r then true else found
                                       | None => found
                                       end) (map Some remotes) acc
             = acc || existsb (String.eqb l) remotes) by apply H.
  induction remotes as [|r rs IH]; intros acc; cbn.
  - now rewrite orb_false_r.
  - rewrite IH. destruct (String.eqb l r), acc; reflexivity.
Qed.

(** What [removeLabel] and [addLabel] leave alone. *)
Lemma removeLabel_frame (name : string) (this : ConfluencePage) :
  isValidLabelName name = true ->
  exists this',
    Page.removeLabel name this = Return this' /\
    strId this' = strId this /\
    Page.isValid this' = Page.isValid this /\
    match arrLabels this with
    | Some arr => exists items, arrLabels this' = Some (mkLabelArray (S (arrayId arr)) items)
    | None => arrLabels this' = None
    end.
Proof.
  intros Hname. unfold Page.removeLabel. rewrite Hname. cbn [negb].
  destruct (arrLabels this) as [arr|] eqn:Harr.
  - destruct (Page.removeLoop _ _ _) as [res changed].
    eexists. split; [reflexivity|]. cbn. repeat split. now exists res.
  - exists this. rewrite ?Harr. repeat split; assumption.
Qed.

Lemma addLabel_frame (name : string) (this : ConfluencePage) :
  isValidLabelName name = true ->
  exists this',
    Page.addLabel name this = Return this' /\
    strId this' = strId this /\
    Page.isValid this' = Page.isValid this /\
    match arrLabels this with
    | Some arr =>
        if Page.labelIndexed (Page.normalizeLabel name) (arrayItems arr)
        then this' = this
        else arrLabels this'
             = Some (mkLabelArray (arrayId arr) (arrayItems arr ++ [Page.normalizeLabel name]))
    | None => arrLabels this' = Some (mkLabelArray 0 [Page.normalizeLabel name])
    end.
Proof.
  intros Hname. unfold Page.addLabel. rewrite Hname. cbn [negb].
  destruct (arrLabels this) as [arr|] eqn:Harr.
  - destruct (Page.labelIndexed _ _) eqn:Hin.
    + exists this. rewrite ?Harr, ?Hin. repeat split.
    + eexists. split; [reflexivity|]. repeat split.
  - eexists. split; [reflexivity|]. cbn. repeat split.
Qed.


Lemma removePageLabel_run (net : Network) (w : World) (objPage : ConfluencePage)
  (id name : string) :
  Page.isValid objPage = true ->
  strId objPage = Some id -> id <> "" ->
  isValidLabelName name = true ->
  exists w' removed,
    Page.removeLabel name objPage = Return removed /\
    sent w' = sent w ++ [Request.removeLabel w id name] /\
    Request.sameClient w w' /\
    Client.removePageLabel net name (w, objPage)
    = let ok := Request.succeeded 204 (net (sent w) (Request.removeLabel w id name)) in
      (Return ok, (w', if ok then removed else objPage)).
Proof.
  intros Hvalid Hid Hne Hname.
  destruct (@removeLabel_frame name objPage Hname) as (removed & Hrem & _).
  assert (Hid' : truthyStr (Some id) = true).
  { cbn. destruct (String.eqb_spec id ""); [contradiction | reflexivity]. }
  destruct w as [[url err cid rm resp] snt].
  unfold Client.removePageLabel, Request.removeLabel, Request.succeeded, Request.sameClient.
  rewrite Hname. repeat (mstep; rewrite ?Hvalid, ?Hid, ?Hid').
  destruct (net snt _) as [r|e]; mstep.
  - destruct (statusCode r =? 204); mstep.
    + rewrite Hrem. destruct (haveError r); do 2 eexists; repeat split; reflexivity.
    + destruct (haveError r); do 2 eexists; repeat split; try reflexivity; exact Hrem.
  - do 2 eexists; repeat split; try reflexivity; exact Hrem.
Qed.

Lemma addPageLabels_run (net : Network) (w : World) (objPage : ConfluencePage)
  (id name : string) :
  Page.isValid objPage = true ->
  strId objPage = Some id -> id <> "" ->
  isValidLabelName name = true ->
  exists w' added,
    Page.addLabel name objPage = Return added /\
    sent w' = sent w ++ [Request.addLabels w id [name]] /\
    Request.sameClient w w' /\
    Client.addPageLabels net [name] (w, objPage)
    = let ok := Request.succeeded 200 (net (sent w) (Request.addLabels w id [name])) in
      (Return ok, (w', if ok then added else objPage)).
Proof.
  intros Hvalid Hid Hne Hname.
  destruct (@addLabel_frame name objPage Hname) as (added & Hadd & _).
  assert (Hid' : truthyStr (Some id) = true).
  { cbn. destruct (String.eqb_spec id ""); [contradiction | reflexivity]. }
  destruct w as [[url err cid rm resp] snt].
  unfold Client.addPageLabels, Request.addLabels, Request.succeeded, Request.sameClient.
  cbn [Client.checkLabelNames Client.addLabelsLocally map]. rewrite Hname.
  repeat (mstep; rewrite ?Hvalid, ?Hid, ?Hid').
  destruct (net snt _) as [r|e]; mstep.
  - destruct (statusCode r =? 200); mstep.
    + rewrite Hadd. destruct (haveError r); do 2 eexists; repeat split; reflexivity.
    + destruct (haveError r); do 2 eexists; repeat split; try reflexivity; exact Hadd.
  - do 2 eexists; repeat split; try reflexivity; exact Hadd.
Qed.


Lemma inStep_localLabels (objPage : ConfluencePage) :
  Request.inStep (localLabels objPage) objPage.
Proof.
  unfold Request.inStep, localLabels, Page.getLabels.
  destruct (arrLabels objPage) as [arr|]; cbn; [|exact I].
  exists arr. repeat split. lia.
Qed.

Lemma refresh_inStep (l : LocalRef) (objPage : ConfluencePage) :
  Request.inStep l objPage -> refresh objPage l = l.
Proof.
  unfold Request.inStep, refresh. destruct l as [[i|] items]; cbn; [|reflexivity].
  intros (arr & -> & _ & Hitems).
  destruct (Nat.eqb_spec i (arrayId arr)) as [E|E]; [|reflexivity].
  now rewrite Hitems.
Qed.

Lemma inStep_removed (l : LocalRef) (name : string) (objPage removed : ConfluencePage) :
  isValidLabelName name = true ->
  Page.removeLabel name objPage = Return removed ->
  Request.inStep l objPage -> Request.inStep l removed.
Proof.
  intros Hname Hrem. destruct (@removeLabel_frame name objPage Hname) as (p & Hp & _ & _ & Harr).
  rewrite Hp in Hrem. injection Hrem as <-.
  unfold Request.inStep. destruct (refId l) as [i|]; [|trivial].
  intros (arr & Ha & Hle & _). rewrite Ha in Harr. destruct Harr as (items & Hitems).
  eexists. split; [exact Hitems|]. cbn. split; lia.
Qed.

Lemma labelIndexed_In (name : string) (items : list string) :
  In name items -> Page.labelIndexed name items = true.
Proof.
  intros H. unfold Page.labelIndexed. apply existsb_exists.
  exists name. split; [exact H | apply String.eqb_refl].
Qed.

Lemma inStep_added (l : LocalRef) (name : string) (objPage added : ConfluencePage) :
  isValidLabelName name = true ->
  Page.normalizeLabel name = name ->
  In name (refItems l) ->
  Page.addLabel name objPage = Return added ->
  Request.inStep l objPage -> Request.inStep l added.
Proof.
  intros Hname Hnorm Hin Hadd.
  destruct (@addLabel_frame name objPage Hname) as (p & Hp & _ & _ & Harr).
  rewrite Hp in Hadd. injection Hadd as <-.
  unfold Request.inStep. destruct (refId l) as [i|]; [|trivial].
  intros (arr & Ha & Hle & Hitems). rewrite Ha, Hnorm in Harr.
  destruct (Page.labelIndexed name (arrayItems arr)) eqn:Hidx.
  - subst p. now exists arr.
  - eexists. split; [exact Harr|]. cbn. split; [exact Hle|].
    intros E. rewrite (Hitems E) in Hidx.
    now rewrite (labelIndexed_In _ _ Hin) in Hidx.
Qed.

Lemma sameClient_trans (w w1 w2 : World) :
  Request.sameClient w w1 -> Request.sameClient w1 w2 -> Request.sameClient w w2.
Proof. unfold Request.sameClient. intros [-> ->] [-> ->]. now split. Qed.

Lemma removeLabel_sameClient (w w1 : World) (id name : string) :
  Request.sameClient w w1 -> Request.removeLabel w1 id name = Request.removeLabel w id name.
Proof. unfold Request.sameClient, Request.removeLabel. now intros [-> _]. Qed.

Lemma addLabels_sameClient (w w1 : World) (id : string) (names : list string) :
  Request.sameClient w w1 -> Request.addLabels w1 id names = Request.addLabels w id names.
Proof. unfold Request.sameClient, Request.addLabels. now intros [-> _]. Qed.

(** The first pass: one DELETE per remote name that is not among the local
    ones, each sent whatever the outcomes before it. *)
Lemma removeMissing_run (net : Network) (w : World) (id : string) (l : LocalRef)
  (remotes : list string) :
  id <> "" ->
  Forall (fun name => isValidLabelName name = true) remotes ->
  forall (w1 : World) (p1 : ConfluencePage) (result1 : bool),
    Page.isValid p1 = true -> strId p1 = Some id ->
    Request.sameClient w w1 -> Request.inStep l p1 ->
    exists w2 p2,
      Client.removeMissing net (map Some remotes) l result1 (w1, p1)
      = (Return (result1 &&
                 Request.allSucceed net (sent w1)
                   (Request.removals w id (refItems l) remotes), l),
         (w2, p2)) /\
      sent w2 = sent w1 ++ map fst (Request.removals w id (refItems l) remotes) /\
      Page.isValid p2 = true /\ strId p2 = Some id /\
      Request.sameClient w w2 /\ Request.inStep l p2.
Proof.
  intros Hne Hnames. induction Hnames as [|name rest Hname _ IH];
    intros w1 p1 result1 Hvalid Hid Hsame Hstep.
  - exists w1, p1. cbn. unfold ret. rewrite andb_true_r, app_nil_r. repeat split; auto.
    apply Hsame. apply Hsame.
  - cbn [map Client.removeMissing]. rewrite existsLocally_among.
    unfold Request.removals. cbn [filter].
    destruct (Request.among (refItems l) name) eqn:Hamong; cbn [negb].
    + apply IH; assumption.
    + destruct (@removePageLabel_run net w1 p1 id name Hvalid Hid Hne Hname)
        as (w1' & removed & Hrem & Hsent & Hsame' & Hrun).
      rewrite (removeLabel_sameClient id name Hsame) in Hrun, Hsent.
      unfold bind at 1. rewrite Hrun. cbv zeta.
      set (ok := Request.succeeded 204 _) in *.
      set (p1' := if ok then removed else p1).
      assert (Hvalid' : Page.isValid p1' = true /\ strId p1' = Some id /\ Request.inStep l p1').
      { unfold p1'. destruct ok; [|auto].
        destruct (@removeLabel_frame name p1 Hname) as (q & Hq & Hqid & Hqv & _).
        rewrite Hq in Hrem. injection Hrem as <-.
        rewrite Hqid, Hqv. repeat split; auto.
        now apply (@inStep_removed l name p1 q). }
      destruct Hvalid' as (Hv' & Hid' & Hstep').
      unfold bind at 1, readPage. cbn [snd]. rewrite (@refresh_inStep _ _ Hstep').
      destruct (IH w1' p1' (if ok then result1 else false) Hv' Hid'
                  (sameClient_trans Hsame Hsame') Hstep')
        as (w2 & p2 & Hrun2 & Hsent2 & Hv2 & Hid2 & Hsame2 & Hstep2).
      exists w2, p2. rewrite Hrun2, Hsent2, Hsent.
      cbn [map fst Request.allSucceed]. fold ok. unfold Request.removals.
      rewrite <- !app_assoc. repeat split; auto.
      destruct ok, result1; reflexivity.
      all: apply Hsame2.
Qed.

Lemma nth_error_middle {A : Type} (pre : list A) (a : A) (suf : list A) :
  nth_error (pre ++ a :: suf) (List.length pre) = Some a.
Proof. induction pre; cbn; auto. Qed.

Lemma nth_error_end {A : Type} (pre : list A) :
  nth_error pre (List.length pre) = None.
Proof. induction pre; cbn; auto. Qed.

(** The second pass: one POST per local name that is not among the remote
    ones, each sent whatever the outcomes before it.  The local names are
    valid and in the form [addLabel] stores. *)
Lemma addMissing_run (net : Network) (w : World) (id : string) (l : LocalRef)
  (remotes : list string) :
  id <> "" ->
  Forall (fun name => isValidLabelName name = true /\ Page.normalizeLabel name = name)
         (refItems l) ->
  forall (suf pre : list string) (fuel : nat) (w1 : World) (p1 : ConfluencePage)
         (result2 : bool),
    refItems l = pre ++ suf ->
    (List.length suf < fuel)%nat ->
    Page.isValid p1 = true -> strId p1 = Some id ->
    Request.sameClient w w1 -> Request.inStep l p1 ->
    exists w2 p2,
      Client.addMissing net fuel (List.length pre) (map Some remotes) l result2 (w1, p1)
      = (Return (result2 &&
                 Request.allSucceed net (sent w1) (Request.additions w id suf remotes)),
         (w2, p2)) /\
      sent w2 = sent w1 ++ map fst (Request.additions w id suf remotes) /\
      Page.isValid p2 = true /\ strId p2 = Some id /\
      Request.sameClient w w2 /\ Request.inStep l p2.
Proof.
  intros Hne Hlocals. induction suf as [|name rest IH];
    intros pre fuel w1 p1 result2 Hsplit Hfuel Hvalid Hid Hsame Hstep;
    (destruct fuel as [|fuel]; [inversion Hfuel|]); cbn [Client.addMissing].
  - rewrite app_nil_r in Hsplit. rewrite Hsplit, nth_error_end.
    exists w1, p1. cbn. unfold ret. rewrite andb_true_r, app_nil_r. repeat split; auto.
    all: apply Hsame.
  - rewrite Hsplit, nth_error_middle. rewrite existsRemote_among.
    unfold Request.additions. cbn [filter].
    assert (Hpre : refItems l = (pre ++ [name]) ++ rest) by now rewrite <- app_assoc.
    assert (Hlen : List.length (pre ++ [name]) = S (List.length pre)).
    { rewrite length_app. cbn. lia. }
    assert (Hfuel' : (List.length rest < fuel)%nat) by (cbn in Hfuel; lia).
    destruct (Request.among remotes name) eqn:Hamong; cbn [negb].
    + rewrite <- Hlen. apply IH; assumption.
    + assert (Hin : In name (refItems l)).
      { rewrite Hsplit. apply in_or_app. right. now left. }
      destruct (proj1 (Forall_forall _ _) Hlocals name Hin) as (Hname & Hnorm).
      destruct (@addPageLabels_run net w1 p1 id name Hvalid Hid Hne Hname)
        as (w1' & added & Hadd & Hsent & Hsame' & Hrun).
      rewrite (addLabels_sameClient id [name] Hsame) in Hrun, Hsent.
      unfold bind at 1. rewrite Hrun. cbv zeta.
      set (ok := Request.succeeded 200 _) in *.
      set (p1' := if ok then added else p1).
      assert (Hvalid' : Page.isValid p1' = true /\ strId p1' = Some id /\ Request.inStep l p1').
      { unfold p1'. destruct ok; [|auto].
        destruct (@addLabel_frame name p1 Hname) as (q & Hq & Hqid & Hqv & _).
        rewrite Hq in Hadd. injection Hadd as <-.
        rewrite Hqid, Hqv. repeat split; auto.
        now apply (@inStep_added l name p1 q). }
      destruct Hvalid' as (Hv' & Hid' & Hstep').
      unfold bind at 1, readPage. cbn [snd]. rewrite (@refresh_inStep _ _ Hstep').
      rewrite <- Hlen.
      destruct (IH (pre ++ [name]) fuel w1' p1' (if ok then result2 else false)
                  Hpre Hfuel' Hv' Hid' (sameClient_trans Hsame Hsame') Hstep')
        as (w2 & p2 & Hrun2 & Hsent2 & Hv2 & Hid2 & Hsame2 & Hstep2).
      exists w2, p2. rewrite Hrun2, Hsent2, Hsent.
      cbn [map fst Request.allSucceed]. fold ok. unfold Request.additions.
      rewrite <- !app_assoc. repeat split; auto.
      destruct ok, result2; reflexivity.
      all: apply Hsame2.
Qed.

(** [updatePageLabels] on a valid page whose local names are valid and in
    the form [addLabel] stores, when the listing of the remote labels
    arrives: after the GET come the removals and then the additions, all of
    them, and the result is the conjunction of their outcomes. *)
Lemma updatePageLabels_run (net : Network) (w : World) (objPage : ConfluencePage)
  (id : string) (remote : list JsonLabel) (r0 : Response) (fuel : nat) :
  let locals := refItems (localLabels objPage) in
  let remotes := map labelName remote in
  let history := sent w ++ [Request.listLabels w id] in
  let dels := Request.removals w id locals remotes in
  let adds := Request.additions w id locals remotes in
  Page.isValid objPage = true ->
  strId objPage = Some id -> id <> "" ->
  Forall (fun name => isValidLabelName name = true /\ Page.normalizeLabel name = name)
         locals ->
  Forall (fun name => isValidLabelName name = true) remotes ->
  net (sent w) (Request.listLabels w id) = Responds r0 ->
  statusCode r0 = 200 ->
  body r0 = DocLabelListing (Some (Z.of_nat (List.length remote))) (Some remote) ->
  (List.length locals < fuel)%nat ->
  exists w' objPage',
    Client.updatePageLabels net fuel (w, objPage)
    = (Return (Request.allSucceed net history dels &&
               Request.allSucceed net (history ++ map fst dels) adds),
       (w', objPage')) /\
    sent w' = history ++ map fst dels ++ map fst adds.
Proof.
  intros locals remotes history dels adds Hvalid Hid Hne Hlocals Hremotes Hget Hst Hbody Hfuel.
  assert (Hid' : truthyStr (Some id) = true).
  { cbn. destruct (String.eqb_spec id ""); [contradiction | reflexivity]. }
  destruct w as [[url err cid rm resp] snt].
  set (get := mkRestMessage (Some (url, EpLabel id)) (Some "get") (rmRequestBody rm)).
  set (w1 := mkWorld
               (if haveError r0
                then mkClient url (ErrorResponseMsg "ConfluenceClient.updatePageLabels" r0)
                              cid get (Some r0)
                else mkClient url err cid get (Some r0))
               (snt ++ [get])).
  assert (Hsame : Request.sameClient (mkWorld (mkClient url err cid rm resp) snt) w1).
  { unfold Request.sameClient, w1. cbn [client]. destruct (haveError r0); split; reflexivity. }
  destruct (@removeMissing_run net _ id (localLabels objPage) remotes Hne Hremotes
              w1 objPage true Hvalid Hid Hsame (inStep_localLabels objPage))
    as (w2 & p2 & Hrun1 & Hsent1 & Hv2 & Hid2 & Hsame2 & Hstep2).
  destruct (@addMissing_run net _ id (localLabels objPage) remotes Hne Hlocals
              locals [] fuel w2 p2 true eq_refl Hfuel Hv2 Hid2 Hsame2 Hstep2)
    as (w3 & p3 & Hrun2 & Hsent2 & _).
  fold locals dels in Hrun1, Hsent1. fold adds in Hrun2, Hsent2.
  cbn [List.length andb sent] in Hrun1, Hrun2, Hsent1.
  exists w3, p3. split.
  - unfold Client.updatePageLabels.
    repeat (mstep; rewrite ?Hvalid, ?Hid, ?Hid').
    unfold Request.listLabels in Hget.
    cbn [client sent strConfluenceURL objRestMessage rmRequestBody] in Hget.
    fold get in Hget |- *. rewrite Hget. mstep. rewrite Hst. cbn [Z.eqb Pos.eqb negb]. mstep.
    rewrite Hbody. cbn [asLabels option_map fst snd]. mstep. fold w1.
    rewrite <- (map_map labelName Some remote). fold remotes.
    match goal with
    | |- context [?f (w1, objPage)] =>
        match f with
        | (if _ then _ else _) =>
            assert (Hremote : f (w1, objPage) = (Return (map Some remotes), (w1, objPage)))
        end
    end.
    { unfold remotes. clear. destruct remote; reflexivity. }
    rewrite Hremote. mstep. rewrite Hrun1. mstep. rewrite Hrun2. mstep.
    unfold history. cbn [sent]. unfold Request.listLabels.
    cbn [client strConfluenceURL objRestMessage rmRequestBody]. fold get.
    rewrite Hsent1. reflexivity.
  - rewrite Hsent2, Hsent1. unfold history, Request.listLabels.
    cbn [sent client strConfluenceURL objRestMessage rmRequestBody]. fold get.
    unfold w1. cbn [sent]. now rewrite <- !app_assoc.
Qed.

Lemma among_In (names : list string) (name : string) :
  Request.among names name = true <-> In name names.
Proof.
  unfold Request.among. rewrite existsb_exists. split.
  - intros (x & Hx & E). apply String.eqb_eq in E. now subst.
  - intros H. exists name. split; [exact H | apply String.eqb_refl].
Qed.



(** C2, the claim as stated fails: "Foo" on the server and "foo" on the
    page have the same lowercase-trimmed form, yet [updatePageLabels] takes
    them for different labels: it removes "Foo" and adds "foo". *)
Lemma updatePageLabels_distinguishes_case :
  Page.normalizeLabel "Foo" = Page.normalizeLabel "foo" /\
  existsLocally (Some "Foo") ["foo"] = false /\
  exists w' objPage',
    Client.updatePageLabels
      (Sample.scripted [Sample.answer 200 (Sample.labelListing ["Foo"]);
                        Sample.answer 204 DocMalformed;
                        Sample.answer 200 DocMalformed])
      2 (Sample.newWorld, Sample.draftPage ["foo"])
    = (Return true, (w', objPage')) /\
    sent w' = [Request.listLabels Sample.newWorld "100";
               Request.removeLabel Sample.newWorld "100" "Foo";
               Request.addLabels Sample.newWorld "100" ["foo"]].
Proof.
  split; [reflexivity|]. split; [reflexivity|].
  do 2 eexists. split; [vm_compute; reflexivity|]. vm_compute. reflexivity.
Qed.

(** C2 (amended): [updatePageLabels] compares a remote name and a local
    name by equality of the strings as they are.  On a valid page whose
    local names are valid and in the form [addLabel] stores, with a listing
    of valid remote names, it sends after the GET one DELETE for each remote
    name that equals no local name and then one POST for each local name
    that equals no remote name; names that differ only in case or
    surrounding white space are different names. *)
Theorem updatePageLabels_compares_exactly (net : Network) (w : World)
  (objPage : ConfluencePage) (id : string) (remote : list JsonLabel)
  (r0 : Response) (fuel : nat) :
  let locals := refItems (localLabels objPage) in
  let remotes := map labelName remote in
  let history := sent w ++ [Request.listLabels w id] in
  let dels := Request.removals w id locals remotes in
  let adds := Request.additions w id locals remotes in
  Page.isValid objPage = true ->
  strId objPage = Some id -> id <> "" ->
  Forall (fun name => isValidLabelName name = true /\ Page.normalizeLabel name = name)
         locals ->
  Forall (fun name => isValidLabelName name = true) remotes ->
  net (sent w) (Request.listLabels w id) = Responds r0 ->
  statusCode r0 = 200 ->
  body r0 = DocLabelListing (Some (Z.of_nat (List.length remote))) (Some remote) ->
  (List.length locals < fuel)%nat ->
  (exists w' objPage',
      Client.updatePageLabels net fuel (w, objPage)
      = (Return (Request.allSucceed net history dels &&
                 Request.allSucceed net (history ++ map fst dels) adds),
         (w', objPage')) /\
      sent w' = history ++ map fst dels ++ map fst adds) /\
  (forall name,
      In (Request.removeLabel w id name) (map fst dels)
      <-> In name remotes /\ ~ In name locals) /\
  (forall name,
      In (Request.addLabels w id [name]) (map fst adds)
      <-> In name locals /\ ~ In name remotes).
Proof.
  intros locals remotes history dels adds Hvalid Hid Hne Hlocals Hremotes Hget Hst Hbody Hfuel.
  split; [|split].
  - apply (@updatePageLabels_run net w objPage id remote r0 fuel); assumption.
  - intros name. unfold dels, Request.removals. rewrite map_map. cbn [fst].
    rewrite in_map_iff. split.
    + intros (x & E & Hx). injection E as ->. apply filter_In in Hx.
      destruct Hx as (Hin & Hnot). split; [exact Hin|].
      intros Hl. apply among_In in Hl. now rewrite Hl in Hnot.
    + intros (Hin & Hnot). exists name. split; [reflexivity|].
      apply filter_In. split; [exact Hin|].
      destruct (Request.among locals name) eqn:E; [|reflexivity].
      apply among_In in E. contradiction.
  - intros name. unfold adds, Request.additions. rewrite map_map. cbn [fst].
    rewrite in_map_iff. split.
    + intros (x & E & Hx). injection E as ->. apply filter_In in Hx.
      destruct Hx as (Hin & Hnot). split; [exact Hin|].
      intros Hl. apply among_In in Hl. now rewrite Hl in Hnot.
    + intros (Hin & Hnot). exists name. split; [reflexivity|].
      apply filter_In. split; [exact Hin|].
      destruct (Request.among remotes name) eqn:E; [|reflexivity].
      apply among_In in E. contradiction.
Qed.

Lemma updatePageLabels_compares_exactly_witness :
  exists w' objPage',
    Client.updatePageLabels
      (Sample.scripted [Sample.answer 200 (Sample.labelListing ["Docs"; "review"]);
                        Sample.answer 204 DocMalformed;
                        Sample.answer 200 DocMalformed])
      3 (Sample.newWorld, Sample.draftPage ["docs"; "review"])
    = (Return true, (w', objPage')) /\
    sent w' = [Request.listLabels Sample.newWorld "100";
               Request.removeLabel Sample.newWorld "100" "Docs";
               Request.addLabels Sample.newWorld "100" ["docs"]].
Proof.
  apply (@updatePageLabels_compares_exactly
           (Sample.scripted [Sample.answer 200 (Sample.labelListing ["Docs"; "review"]);
                             Sample.answer 204 DocMalformed;
                             Sample.answer 200 DocMalformed])
           Sample.newWorld (Sample.draftPage ["docs"; "review"]) "100"
           [mkJsonLabel "global" "Docs"; mkJsonLabel "global" "review"]
           (mkResponse 200 (Sample.labelListing ["Docs"; "review"]) false) 3);
    try reflexivity; try discriminate.
  - repeat constructor.
  - repeat constructor.
  - cbn. lia.
Defined.

(** * Further properties *)

(** ** Label names *)

Lemma labelChar_facts (c : ascii) :
  isLabelChar c = true ->
  isSpace c = false /\ isLabelChar (lowerChar c) = true /\ lowerChar (lowerChar c) = lowerChar c.
Proof.
  destruct c as [[] [] [] [] [] [] [] []]; vm_compute; intros H;
    try discriminate H; repeat split.
Qed.

Lemma trimStart_labelChars (s : string) :
  allChars isLabelChar s = true -> trimStart s = s.
Proof.
  destruct s as [|c r]; cbn; [reflexivity|]. intros H.
  apply andb_true_iff in H. destruct H as (Hc & _).
  now rewrite (proj1 (labelChar_facts c Hc)).
Qed.

Lemma trimEnd_labelChars (s : string) :
  allChars isLabelChar s = true -> trimEnd s = s.
Proof.
  induction s as [|c r IH]; cbn; [reflexivity|]. intros H.
  apply andb_true_iff in H. destruct H as (Hc & Hr).
  rewrite (proj1 (labelChar_facts c Hc)), (IH Hr). reflexivity.
Qed.

Lemma toLowerCase_labelChars (s : string) :
  allChars isLabelChar s = true ->
  allChars isLabelChar (toLowerCase s) = true /\ toLowerCase (toLowerCase s) = toLowerCase s.
Proof.
  induction s as [|c r IH]; cbn; [auto|]. intros H.
  apply andb_true_iff in H. destruct H as (Hc & Hr).
  destruct (labelChar_facts c Hc) as (_ & Hl & Hi). destruct (IH Hr) as (Ha & Hb).
  now rewrite Hl, Ha, Hi, Hb.
Qed.

Lemma toLowerCase_empty (s : string) :
  String.eqb (toLowerCase s) "" = String.eqb s "".
Proof. destruct s; reflexivity. Qed.

Lemma trim_labelChars (s : string) : allChars isLabelChar s = true -> trim s = s.
Proof.
  intros Hs. unfold trim. now rewrite (trimStart_labelChars s Hs), trimEnd_labelChars.
Qed.

Lemma normalizeLabel_lower (name : string) :
  isValidLabelName name = true -> Page.normalizeLabel name = toLowerCase name.
Proof.
  unfold isValidLabelName. intros H. apply andb_true_iff in H. destruct H as (_ & Hall).
  unfold Page.normalizeLabel. apply trim_labelChars.
  exact (proj1 (toLowerCase_labelChars name Hall)).
Qed.

(** X1: for a valid label name the stored form is the lowercase name (there
    is nothing to trim); it is again a valid name and its own stored form. *)
Theorem normalizeLabel_valid (name : string) :
  isValidLabelName name = true ->
  Page.normalizeLabel name = toLowerCase name /\
  isValidLabelName (Page.normalizeLabel name) = true /\
  Page.normalizeLabel (Page.normalizeLabel name) = Page.normalizeLabel name.
Proof.
  unfold isValidLabelName. intros H. apply andb_true_iff in H. destruct H as (Hne & Hall).
  destruct (toLowerCase_labelChars name Hall) as (Hlow & Hidem).
  assert (Hnorm : forall s, allChars isLabelChar s = true -> trim s = s).
  { intros s Hs. unfold trim. now rewrite (trimStart_labelChars s Hs), trimEnd_labelChars. }
  unfold Page.normalizeLabel. rewrite (Hnorm _ Hlow). repeat split.
  - now rewrite toLowerCase_empty, Hne, Hlow.
  - now rewrite Hidem, (Hnorm _ Hlow).
Qed.

Lemma normalizeLabel_valid_witness :
  Page.normalizeLabel "Team-Docs" = toLowerCase "Team-Docs" /\
  isValidLabelName (Page.normalizeLabel "Team-Docs") = true /\
  Page.normalizeLabel (Page.normalizeLabel "Team-Docs") = Page.normalizeLabel "Team-Docs".
Proof. apply (normalizeLabel_valid "Team-Docs"). reflexivity. Defined.

Lemma normalizeLabel_stored (name : string) :
  isValidLabelName name = true -> Behaviour.stored (Page.normalizeLabel name).
Proof.
  intros H. rewrite (normalizeLabel_lower name H).
  unfold isValidLabelName in H. apply andb_true_iff in H. destruct H as (Hne & Hall).
  destruct (toLowerCase_labelChars name Hall) as (Hlow & Hidem).
  split.
  - unfold isValidLabelName. now rewrite toLowerCase_empty, Hne, Hlow.
  - unfold Page.normalizeLabel. now rewrite Hidem, trim_labelChars.
Qed.

Lemma labelIndexed_iff (name : string) (items : list string) :
  Page.labelIndexed name items = true <-> In name items.
Proof.
  unfold Page.labelIndexed. rewrite existsb_exists. split.
  - intros (x & Hx & E). apply String.eqb_eq in E. now subst.
  - intros H. exists name. split; [exact H | apply String.eqb_refl].
Qed.

Lemma removeLoop_filter (name : string) (items : list string) (changed : bool) :
  Page.removeLoop name items changed
  = (filter (fun item => negb (String.eqb item name)) items,
     changed || Page.labelIndexed name items).
Proof.
  revert changed. induction items as [|item rest IH]; intros changed; cbn.
  - now rewrite orb_false_r.
  - destruct (String.eqb item name) eqn:E; cbn.
    + rewrite IH. cbn. now rewrite orb_true_r.
    + now rewrite IH.
Qed.

(** ** The label methods of a page *)

Lemma addLabel_result (name : string) (this : ConfluencePage) :
  isValidLabelName name = true ->
  exists this',
    Page.addLabel name this = Return this' /\
    Behaviour.labelsOf this'
    = (if Page.labelIndexed (Page.normalizeLabel name) (Behaviour.labelsOf this)
       then Behaviour.labelsOf this
       else Behaviour.labelsOf this ++ [Page.normalizeLabel name]) /\
    haveLabelsChanged this'
    = haveLabelsChanged this ||
      negb (Page.labelIndexed (Page.normalizeLabel name) (Behaviour.labelsOf this)) /\
    (Page.labelIndexed (Page.normalizeLabel name) (Behaviour.labelsOf this) = true ->
     arrLabels this <> None -> this' = this).
Proof.
  intros Hname. unfold Page.addLabel, Behaviour.labelsOf. rewrite Hname. cbn [negb].
  destruct (arrLabels this) as [arr|] eqn:Harr.
  - destruct (Page.labelIndexed _ _) eqn:Hin.
    + exists this. rewrite Harr, orb_false_r. repeat split.
    + eexists. split; [reflexivity|]. cbn. repeat split; [|discriminate].
      now rewrite orb_true_r.
  - eexists. split; [reflexivity|]. cbn. repeat split.
    + now rewrite orb_true_r.
    + discriminate.
Qed.

Lemma removeLabel_result (name : string) (this : ConfluencePage) :
  isValidLabelName name = true ->
  exists this',
    Page.removeLabel name this = Return this' /\
    Behaviour.labelsOf this'
    = filter (fun item => negb (String.eqb item (Page.normalizeLabel name)))
             (Behaviour.labelsOf this) /\
    haveLabelsChanged this'
    = haveLabelsChanged this ||
      Page.labelIndexed (Page.normalizeLabel name) (Behaviour.labelsOf this).
Proof.
  intros Hname. unfold Page.removeLabel, Behaviour.labelsOf. rewrite Hname. cbn [negb].
  destruct (arrLabels this) as [arr|] eqn:Harr.
  - rewrite removeLoop_filter. eexists. split; [reflexivity|]. cbn. split; reflexivity.
  - exists this. rewrite Harr. cbn. now rewrite orb_false_r.
Qed.

Lemma hasLabel_result (name : string) (this : ConfluencePage) :
  isValidLabelName name = true ->
  Page.hasLabel name this
  = Return (Page.labelIndexed (Page.normalizeLabel name) (Behaviour.labelsOf this)).
Proof.
  intros Hname. unfold Page.hasLabel, Behaviour.labelsOf. rewrite Hname. cbn [negb].
  destruct (arrLabels this); reflexivity.
Qed.

Lemma filter_other_absent (name : string) (items : list string) :
  ~ In name items ->
  filter (fun item => negb (String.eqb item name)) items = items.
Proof.
  induction items as [|item rest IH]; cbn; [reflexivity|]. intros H.
  destruct (String.eqb_spec item name) as [->|_]; cbn.
  - elim H. now left.
  - rewrite IH; [reflexivity|]. intros Hin. apply H. now right.
Qed.

Lemma labelIndexed_filtered (name : string) (items : list string) :
  Page.labelIndexed name (filter (fun item => negb (String.eqb item name)) items) = false.
Proof.
  destruct (Page.labelIndexed name _) eqn:E; [|reflexivity].
  apply labelIndexed_iff, filter_In in E. destruct E as (_ & E).
  now rewrite String.eqb_refl in E.
Qed.

(** X2: [addLabel] with a valid name makes [hasLabel] true for that name
    and for every valid name with the same lowercase form; a second
    [addLabel] with the same name changes nothing; the label flag is raised
    exactly when the name was not yet there. *)
Theorem addLabel_then_hasLabel (name : string) (this : ConfluencePage) :
  isValidLabelName name = true ->
  exists this',
    Page.addLabel name this = Return this' /\
    (forall other,
        isValidLabelName other = true ->
        toLowerCase other = toLowerCase name ->
        Page.hasLabel other this' = Return true) /\
    Page.addLabel name this' = Return this' /\
    haveLabelsChanged this'
    = haveLabelsChanged this ||
      negb (Page.labelIndexed (Page.normalizeLabel name) (Behaviour.labelsOf this)).
Proof.
  intros Hname. destruct (@addLabel_result name this Hname) as (this' & Hadd & Hitems & Hflag & _).
  assert (Hin : Page.labelIndexed (Page.normalizeLabel name) (Behaviour.labelsOf this') = true).
  { rewrite Hitems. destruct (Page.labelIndexed _ (Behaviour.labelsOf this)) eqn:E; [exact E|].
    apply labelIndexed_iff, in_or_app. right. now left. }
  exists this'. repeat split; try assumption.
  - intros other Hother Hlow. rewrite (@hasLabel_result other this' Hother).
    rewrite (normalizeLabel_lower other Hother).
    pose proof (normalizeLabel_lower name Hname) as En.
    rewrite Hlow, <- En. now rewrite Hin.
  - destruct (@addLabel_result name this' Hname) as (this'' & Hadd' & _ & _ & Hsame).
    rewrite Hadd'. f_equal. apply Hsame; [exact Hin|].
    unfold Behaviour.labelsOf in Hin. destruct (arrLabels this'); [discriminate|].
    discriminate Hin.
Qed.

Lemma addLabel_then_hasLabel_witness :
  exists this',
    Page.addLabel "Review" (Sample.draftPage ["docs"]) = Return this' /\
    Page.hasLabel "REVIEW" this' = Return true /\
    Page.addLabel "Review" this' = Return this'.
Proof.
  destruct (@addLabel_then_hasLabel "Review" (Sample.draftPage ["docs"]) eq_refl)
    as (this' & Hadd & Hhas & Hidem & _).
  exists this'. repeat split; [exact Hadd | | exact Hidem].
  apply Hhas; reflexivity.
Defined.

(** X3: [removeLabel] with a valid name drops every occurrence of its
    lowercase form and keeps the other names in order; afterwards [hasLabel]
    is false for it.  The label flag is raised exactly when the name was
    there; without it the names and the flag stay as they were. *)
Theorem removeLabel_then_hasLabel (name : string) (this : ConfluencePage) :
  isValidLabelName name = true ->
  exists this',
    Page.removeLabel name this = Return this' /\
    Behaviour.labelsOf this'
    = filter (fun item => negb (String.eqb item (toLowerCase name))) (Behaviour.labelsOf this) /\
    Page.hasLabel name this' = Return false /\
    haveLabelsChanged this'
    = haveLabelsChanged this ||
      Page.labelIndexed (toLowerCase name) (Behaviour.labelsOf this) /\
    (~ In (toLowerCase name) (Behaviour.labelsOf this) ->
     Behaviour.labelsOf this' = Behaviour.labelsOf this /\
     haveLabelsChanged this' = haveLabelsChanged this).
Proof.
  intros Hname. destruct (@removeLabel_result name this Hname) as (this' & Hrem & Hitems & Hflag).
  pose proof (normalizeLabel_lower name Hname) as En. rewrite En in Hitems, Hflag.
  exists this'. repeat split; try assumption.
  - rewrite (@hasLabel_result name this' Hname), En, Hitems. now rewrite labelIndexed_filtered.
  - rewrite Hitems. now apply filter_other_absent.
  - rewrite Hflag. destruct (Page.labelIndexed _ _) eqn:E; [|apply orb_false_r].
    apply labelIndexed_iff in E. contradiction.
Qed.

Lemma removeLabel_then_hasLabel_witness :
  exists this',
    Page.removeLabel "Docs" (Sample.draftPage ["docs"; "review"]) = Return this' /\
    Behaviour.labelsOf this' = ["review"] /\
    Page.hasLabel "Docs" this' = Return false /\
    haveLabelsChanged this' = true.
Proof.
  destruct (@removeLabel_then_hasLabel "Docs" (Sample.draftPage ["docs"; "review"]) eq_refl)
    as (this' & Hrem & Hitems & Hhas & Hflag & _).
  exists this'. repeat split; assumption.
Defined.

(** X4: the labels of a page built without JSON and changed only through
    [addLabel] and [removeLabel] are always valid names in lowercase, each
    held once: the empty page has the property and both methods keep it. *)
Theorem labelSet_kept :
  (forall clientInternalId, Behaviour.labelSet (Page.bare clientInternalId)) /\
  (forall this name this',
      Behaviour.labelSet this ->
      Page.addLabel name this = Return this' \/ Page.removeLabel name this = Return this' ->
      Behaviour.labelSet this').
Proof.
  split.
  - intros cid. split; constructor.
  - intros this name this' (Hstored & Hnodup) Hrun.
    destruct (isValidLabelName name) eqn:Hname.
    2:{ unfold Page.addLabel, Page.removeLabel in Hrun. rewrite Hname in Hrun.
        destruct Hrun as [H|H]; discriminate H. }
    destruct Hrun as [Hadd|Hrem].
    + destruct (@addLabel_result name this Hname) as (p & Hp & Hitems & _).
      rewrite Hp in Hadd. injection Hadd as <-. unfold Behaviour.labelSet. rewrite Hitems.
      destruct (Page.labelIndexed _ _) eqn:Hin; [now split|]. split.
      * apply Forall_app. split; [exact Hstored|]. constructor; [|constructor].
        now apply normalizeLabel_stored.
      * apply NoDup_app; [exact Hnodup | repeat constructor; intros [] | ].
        intros x Hx [<-|[]]. apply labelIndexed_iff in Hx. congruence.
    + destruct (@removeLabel_result name this Hname) as (p & Hp & Hitems & _).
      rewrite Hp in Hrem. injection Hrem as <-. unfold Behaviour.labelSet. rewrite Hitems.
      split.
      * apply Forall_forall. intros x Hx. apply filter_In in Hx.
        exact (proj1 (Forall_forall _ _) Hstored x (proj1 Hx)).
      * now apply NoDup_filter.
Qed.

Lemma labelSet_kept_witness :
  exists this',
    Page.addLabel "Review" (Page.bare "1595584800000abc") = Return this' /\
    Behaviour.labelSet this'.
Proof.
  exists (set_arrLabels (Some (mkLabelArray 0 ["review"]))
            (set_haveLabelsChanged true (Page.bare "1595584800000abc"))).
  split; [reflexivity|].
  apply (proj2 labelSet_kept (Page.bare "1595584800000abc") "Review").
  - apply (proj1 labelSet_kept).
  - left. reflexivity.
Defined.

(** X5: adding a valid name that the page does not hold and removing it
    again gives back the names the page held before, in the same order. *)
Theorem addLabel_removeLabel (name : string) (this : ConfluencePage) :
  isValidLabelName name = true ->
  ~ In (toLowerCase name) (Behaviour.labelsOf this) ->
  exists added removed,
    Page.addLabel name this = Return added /\
    Page.removeLabel name added = Return removed /\
    Behaviour.labelsOf removed = Behaviour.labelsOf this.
Proof.
  intros Hname Habs.
  pose proof (normalizeLabel_lower name Hname) as En.
  destruct (@addLabel_result name this Hname) as (added & Hadd & Hitems & _).
  destruct (@removeLabel_result name added Hname) as (removed & Hrem & Hitems' & _).
  exists added, removed. repeat split; try assumption.
  rewrite En in Hitems, Hitems'. rewrite Hitems', Hitems.
  destruct (Page.labelIndexed _ _) eqn:E.
  - apply labelIndexed_iff in E. contradiction.
  - rewrite filter_app, (filter_other_absent _ _ Habs). cbn.
    rewrite String.eqb_refl. cbn. apply app_nil_r.
Qed.

Lemma addLabel_removeLabel_witness :
  exists added removed,
    Page.addLabel "Review" (Sample.draftPage ["docs"]) = Return added /\
    Page.removeLabel "Review" added = Return removed /\
    Behaviour.labelsOf removed = Behaviour.labelsOf (Sample.draftPage ["docs"]).
Proof.
  apply (@addLabel_removeLabel "Review" (Sample.draftPage ["docs"])).
  - reflexivity.
  - cbn. intros [H|[]]. discriminate H.
Defined.

(** ** The id and the fields of a page *)

(** X6: the id of a page is set once: [setId] returns only for an id made
    of digits, stores it, and when the page already had a non-empty id the
    new one is that same id; on a page without an id every such id is
    accepted. *)
Theorem setId_set_once (strPageId : string) (this : ConfluencePage) :
  (forall this',
      Page.setId strPageId this = Return this' ->
      isValidInteger strPageId = true /\
      strId this' = Some strPageId /\
      (forall old, strId this = Some old -> old <> "" -> old = strPageId)) /\
  (isValidInteger strPageId = true ->
   truthyStr (strId this) = false ->
   Page.setId strPageId this = Return (set_strId (Some strPageId) this)).
Proof.
  unfold Page.setId. split.
  - intros this'. destruct (isValidInteger strPageId); cbn [negb]; [|discriminate].
    destruct (truthyStr (strId this) && Page.differs (strId this) strPageId) eqn:E;
      [discriminate|].
    intros H. injection H as <-. repeat split.
    intros old Hold Hne. rewrite Hold in E. cbn in E.
    destruct (String.eqb_spec old ""); [contradiction|]. cbn in E.
    destruct (String.eqb_spec old strPageId); [assumption | discriminate].
  - intros -> Hno. rewrite Hno. reflexivity.
Qed.

Lemma setId_set_once_witness :
  (isValidInteger "100" = true /\
   strId (set_strId (Some "100") (Sample.draftPage [])) = Some "100" /\
   (forall old, strId (Sample.draftPage []) = Some old -> old <> "" -> old = "100")) /\
  Page.setId "100" (Page.bare "1595584800000abc")
  = Return (set_strId (Some "100") (Page.bare "1595584800000abc")).
Proof.
  split.
  - apply (proj1 (setId_set_once "100" (Sample.draftPage []))
             (set_strId (Some "100") (Sample.draftPage []))).
    reflexivity.
  - apply (proj2 (setId_set_once "100" (Page.bare "1595584800000abc"))); reflexivity.
Defined.

Lemma differs_false (o : option string) (v : string) :
  Page.differs o v = false <-> o = Some v.
Proof.
  unfold Page.differs. destruct o as [s|]; [|split; discriminate].
  destruct (String.eqb_spec s v) as [->|Hn]; cbn; split; auto; try discriminate.
  intros H. injection H as ->. now elim Hn.
Qed.

(** X7: each of [setTitle], [setBody], [setSpaceKey] and [setParentPageId]
    stores an accepted value so that the getter returns it, and leaves its
    flag clear exactly when the field already held that value.  [setTitle]
    rejects the empty string, [setBody] accepts it; a rejected value leaves
    no page behind. *)
Theorem setters_store_and_flag (this : ConfluencePage) (value : string) :
  (value <> "" ->
   exists this',
     Page.setTitle (JsString value) this = Return this' /\
     Page.getTitle this' = Some value /\
     (hasTitleChanged this' = false <-> strTitle this = Some value)) /\
  (exists this',
     Page.setBody (JsString value) this = Return this' /\
     Page.getBody this' = Some value /\
     (hasBodyChanged this' = false <-> strBody this = Some value)) /\
  (isValidSpaceKey value = true ->
   exists this',
     Page.setSpaceKey value this = Return this' /\
     Page.getSpaceKey this' = Some value /\
     (hasSpaceKeyChanged this' = false <-> strSpaceKey this = Some value)) /\
  (isValidInteger value = true ->
   exists this',
     Page.setParentPageId (Some value) this = Return this' /\
     Page.getParentPageId this' = Some value /\
     (hasParentPageIdChanged this' = false <-> strParentPageId this = Some value)) /\
  (exists e, Page.setTitle (JsString "") this = Throw e) /\
  (isValidSpaceKey value = false -> exists e, Page.setSpaceKey value this = Throw e) /\
  (isValidInteger value = false ->
   exists e, Page.setParentPageId (Some value) this = Throw e).
Proof.
  repeat split.
  - intros Hne. unfold Page.setTitle.
    destruct value as [|c r]; [contradiction|]. cbn [String.length Nat.ltb Nat.leb].
    eexists. split; [reflexivity|]. cbn. split; [reflexivity | apply differs_false].
  - unfold Page.setBody. eexists. split; [reflexivity|]. cbn.
    split; [reflexivity | apply differs_false].
  - intros Hv. unfold Page.setSpaceKey. rewrite Hv. eexists. split; [reflexivity|]. cbn.
    split; [reflexivity | apply differs_false].
  - intros Hv. unfold Page.setParentPageId. rewrite Hv. eexists. split; [reflexivity|]. cbn.
    split; [reflexivity | apply differs_false].
  - eexists. reflexivity.
  - intros Hv. unfold Page.setSpaceKey. rewrite Hv. eexists. reflexivity.
  - intros Hv. unfold Page.setParentPageId. rewrite Hv. eexists. reflexivity.
Qed.

Lemma setters_store_and_flag_witness :
  (exists this',
      Page.setTitle (JsString "Final") (Sample.draftPage []) = Return this' /\
      Page.getTitle this' = Some "Final") /\
  (exists this',
      Page.setSpaceKey "dev" (Sample.draftPage []) = Return this' /\
      Page.getSpaceKey this' = Some "dev") /\
  (exists this',
      Page.setParentPageId (Some "99") (Sample.draftPage []) = Return this' /\
      Page.getParentPageId this' = Some "99") /\
  (exists e, Page.setSpaceKey "DEV" (Sample.draftPage []) = Throw e).
Proof.
  destruct (setters_store_and_flag (Sample.draftPage []) "Final") as (Ht & _).
  destruct (setters_store_and_flag (Sample.draftPage []) "dev") as (_ & _ & Hk & _).
  destruct (setters_store_and_flag (Sample.draftPage []) "99") as (_ & _ & _ & Hp & _).
  destruct (setters_store_and_flag (Sample.draftPage []) "DEV") as (_ & _ & _ & _ & _ & Hbad & _).
  repeat split.
  - destruct Ht as (p & H1 & H2 & _); [discriminate|]. now exists p.
  - destruct Hk as (p & H1 & H2 & _); [reflexivity|]. now exists p.
  - destruct Hp as (p & H1 & H2 & _); [reflexivity|]. now exists p.
  - apply Hbad. reflexivity.
Defined.

Lemma spaceKeyChar_lower (c : ascii) :
  isSpaceKeyChar c = true -> lowerChar c = c.
Proof.
  destruct c as [[] [] [] [] [] [] [] []]; vm_compute; intros H;
    try discriminate H; reflexivity.
Qed.

Lemma toLowerCase_spaceKeyChars (s : string) :
  allChars isSpaceKeyChar s = true -> toLowerCase s = s.
Proof.
  induction s as [|c r IH]; cbn; [reflexivity|]. intros H.
  apply andb_true_iff in H. destruct H as (Hc & Hr).
  now rewrite (spaceKeyChar_lower c Hc), (IH Hr).
Qed.

(** X8: a space key that [isValidSpaceKey] accepts holds no uppercase
    letter (it equals its lowercase form) and has 3 to 256 characters;
    [setSpaceKey] throws for every key that differs from its lowercase
    form. *)
Theorem isValidSpaceKey_lowercase (key : string) :
  (isValidSpaceKey key = true ->
   toLowerCase key = key /\ (3 <= String.length key <= 256)%nat) /\
  (toLowerCase key <> key ->
   forall this, exists e, Page.setSpaceKey key this = Throw e).
Proof.
  assert (Hlow : isValidSpaceKey key = true -> toLowerCase key = key).
  { intros Hv. unfold isValidSpaceKey in Hv.
    apply andb_true_iff in Hv. destruct Hv as (Hv & _).
    apply andb_true_iff in Hv. destruct Hv as (Hall & _).
    destruct key as [|c r]; [reflexivity|].
    destruct (Ascii.eqb_spec c "~") as [->|Hc].
    + cbn. now rewrite (toLowerCase_spaceKeyChars r Hall).
    + assert (Hall' : allChars isSpaceKeyChar (String c r) = true).
      { revert Hall. destruct c as [[] [] [] [] [] [] [] []]; try exact (fun H => H).
        now elim Hc. }
      now apply toLowerCase_spaceKeyChars. }
  split.
  - intros Hv. split; [now apply Hlow|].
    unfold isValidSpaceKey in Hv.
    apply andb_true_iff in Hv. destruct Hv as (Hv & Hmax).
    apply andb_true_iff in Hv. destruct Hv as (_ & Hmin).
    apply Nat.leb_le in Hmin, Hmax.
    destruct key as [|c r]; [cbn in Hmin; lia|].
    destruct (Ascii.eqb_spec c "~") as [->|Hc].
    + cbn [String.length] in *. lia.
    + assert (E : match String c r with String "~" r' => r' | _ => String c r end = String c r).
      { destruct c as [[] [] [] [] [] [] [] []]; try reflexivity. now elim Hc. }
      rewrite E in Hmin, Hmax. lia.
  - intros Hne this. unfold Page.setSpaceKey.
    destruct (isValidSpaceKey key) eqn:Hv; [now elim Hne; apply Hlow|].
    eexists. reflexivity.
Qed.

Lemma isValidSpaceKey_lowercase_witness :
  (toLowerCase "~jdoe" = "~jdoe" /\ (3 <= String.length "~jdoe" <= 256)%nat) /\
  exists e, Page.setSpaceKey "TST" (Sample.draftPage []) = Throw e.
Proof.
  split.
  - apply (proj1 (isValidSpaceKey_lowercase "~jdoe")). reflexivity.
  - apply (proj2 (isValidSpaceKey_lowercase "TST")). discriminate.
Defined.

(** ** Scaffolding values: other fields *)

Lemma findField_stored_other (name other : string) (v : JsValue)
  (data data' : list ScaffoldingField) :
  other <> name ->
  Page.storeField name v data = Some data' ->
  Page.findField other data' = Page.findField other data.
Proof.
  intros Hne. revert data'. induction data as [|f rest IH]; cbn; intros data' H; [discriminate|].
  destruct (String.eqb_spec (fieldName f) name) as [E|E].
  - injection H as <-. cbn. rewrite E.
    destruct (String.eqb_spec name other) as [->|_]; [now elim Hne | reflexivity].
  - destruct (Page.storeField name v rest) as [rest'|]; [|discriminate].
    injection H as <-. cbn. destruct (String.eqb (fieldName f) other); [reflexivity|].
    now apply IH.
Qed.

Lemma findField_appended_other (name other : string) (v : JsValue)
  (data : list ScaffoldingField) :
  other <> name ->
  Page.findField other (data ++ [mkField name v]) = Page.findField other data.
Proof.
  intros Hne. induction data as [|f rest IH]; cbn.
  - destruct (String.eqb_spec name other) as [->|_]; [now elim Hne | reflexivity].
  - now rewrite IH.
Qed.

Lemma storeField_length (name : string) (v : JsValue) (data data' : list ScaffoldingField) :
  Page.storeField name v data = Some data' ->
  List.length data' = List.length data /\ map fieldName data' = map fieldName data.
Proof.
  revert data'. induction data as [|f rest IH]; cbn; intros data' H; [discriminate|].
  destruct (String.eqb (fieldName f) name).
  - injection H as <-. now split.
  - destruct (Page.storeField name v rest) as [rest'|]; [|discriminate].
    injection H as <-. destruct (IH rest' eq_refl) as (Hl & Hm). cbn. now rewrite Hl, Hm.
Qed.

(** X9: [setScaffoldingValue] for one field leaves the value that
    [getScaffoldingValue] returns for every other field as it was, and keeps
    the names and the order of the entries it had; with a field name that is
    empty or not a string both methods throw. *)
Theorem setScaffoldingValue_other_fields (this : ConfluencePage) (name : string)
  (v : JsValue) :
  name <> "" ->
  exists this',
    Page.setScaffoldingValue (JsString name) v this = Return this' /\
    (forall other,
        other <> name ->
        Page.getScaffoldingValue (JsString other) this'
        = Page.getScaffoldingValue (JsString other) this) /\
    (exists added,
        map fieldName (match arrScaffoldingData this' with Some d => d | None => [] end)
        = map fieldName (match arrScaffoldingData this with Some d => d | None => [] end)
          ++ added) /\
    (forall bad, Page.isFieldName bad = None ->
                 (exists e, Page.setScaffoldingValue bad v this = Throw e) /\
                 (exists e, Page.getScaffoldingValue bad this = Throw e)).
Proof.
  intros Hne.
  assert (Hname : Page.isFieldName (JsString name) = Some name).
  { destruct name; [contradiction | reflexivity]. }
  assert (Hget : forall c r p,
             Page.getScaffoldingValue (JsString (String c r)) p
             = Return (Page.findField (String c r) (match arrScaffoldingData p with
                                                    | Some d => d | None => [] end))).
  { intros c r p. unfold Page.getScaffoldingValue.
    cbn [Page.isFieldName String.length Nat.ltb Nat.leb].
    destruct (arrScaffoldingData p); reflexivity. }
  assert (Hbad : forall p bad, Page.isFieldName bad = None ->
             (exists e, Page.setScaffoldingValue bad v p = Throw e) /\
             (exists e, Page.getScaffoldingValue bad p = Throw e)).
  { intros p bad Hb. unfold Page.setScaffoldingValue, Page.getScaffoldingValue.
    rewrite Hb. split; eexists; reflexivity. }
  enough (Hmain : exists this',
             Page.setScaffoldingValue (JsString name) v this = Return this' /\
             (forall other,
                 other <> name ->
                 Page.getScaffoldingValue (JsString other) this'
                 = Page.getScaffoldingValue (JsString other) this) /\
             (exists added,
                 map fieldName (match arrScaffoldingData this' with Some d => d | None => [] end)
                 = map fieldName (match arrScaffoldingData this with Some d => d | None => [] end)
                   ++ added)).
  { destruct Hmain as (p & H1 & H2 & H3). exists p. repeat split; auto; now apply Hbad. }
  clear Hbad. unfold Page.setScaffoldingValue. rewrite Hname.
  destruct (arrScaffoldingData this) as [data|] eqn:Hdata.
  - destruct (Page.storeField name (js_or v (JsString "")) data) as [data'|] eqn:Hstore.
    + eexists. split; [reflexivity|]. split.
      * intros other Ho. destruct other as [|c r]; [reflexivity|]. rewrite !Hget.
        cbn [arrScaffoldingData set_arrScaffoldingData set_hasScaffoldingDataChanged].
        rewrite Hdata. f_equal.
        now apply (@findField_stored_other name (String c r) (js_or v (JsString "")) data data').
      * exists []. cbn. rewrite app_nil_r. now apply (@storeField_length name (js_or v (JsString "")) data data' Hstore).
    + eexists. split; [reflexivity|]. split.
      * intros other Ho. destruct other as [|c r]; [reflexivity|]. rewrite !Hget.
        cbn [arrScaffoldingData set_arrScaffoldingData set_hasScaffoldingDataChanged].
        rewrite Hdata. f_equal. now apply findField_appended_other.
      * exists [name]. cbn. now rewrite map_app.
  - eexists. split; [reflexivity|]. split.
    + intros other Ho. destruct other as [|c r]; [reflexivity|]. rewrite !Hget.
      cbn [arrScaffoldingData set_arrScaffoldingData set_hasScaffoldingDataChanged].
      rewrite Hdata. cbn [Page.findField fieldName].
      destruct (String.eqb_spec name (String c r)) as [E|_]; [now elim Ho | reflexivity].
    + exists [name]. reflexivity.
Qed.

Lemma setScaffoldingValue_other_fields_witness :
  exists this',
    Page.setScaffoldingValue (JsString "owner") (JsString "jdoe") (Sample.draftPage [])
      = Return this' /\
    Page.getScaffoldingValue (JsString "approved") this'
    = Page.getScaffoldingValue (JsString "approved") (Sample.draftPage []).
Proof.
  destruct (@setScaffoldingValue_other_fields (Sample.draftPage []) "owner" (JsString "jdoe"))
    as (this' & Hset & Hother & _); [discriminate|].
  exists this'. split; [exact Hset|]. apply Hother. discriminate.
Defined.

(** ** The serialized page *)

(** X10: unless it is called for a creation with notifications suppressed,
    [stringify] returns an object with [type] "page", the title and the
    space key; it has [body] exactly when the page has a non-empty body and
    [ancestors] exactly when the parent id is; for an update [version] holds
    the sum of the version number and 1 as doubles, which is the next number
    for every version number from -2^53 up to 2^53 - 1, and [minorEdit]
    exactly when notifications are suppressed.  There is never another
    property: labels, status and Scaffolding data are not part of it. *)
Theorem stringify_fields (this : ConfluencePage) (createNewPage suppressNotifications : JsValue) :
  isBooleanTrue createNewPage = false \/ isBooleanTrue suppressNotifications = false ->
  exists objResult,
    Page.stringify createNewPage suppressNotifications this = Return objResult /\
    getProp "type" objResult = Some (JsString "page") /\
    getProp "title" objResult = Some (ofStr (strTitle this)) /\
    getProp "space" objResult = Some (JsObject [("key", ofStr (strSpaceKey this))]) /\
    getProp "body" objResult
    = (if truthyStr (strBody this)
       then Some (JsObject [("storage",
                             JsObject [("value", ofStr (strBody this));
                                       ("representation", JsString "storage")])])
       else None) /\
    getProp "ancestors" objResult
    = (if truthyStr (strParentPageId this)
       then Some (JsArray [JsObject [("id", ofStr (strParentPageId this))]])
       else None) /\
    (isBooleanTrue createNewPage = false ->
     getProp "version" objResult
     = Some (JsObject (("number", match intVersionNumber this with
                                  | Some v => JsNumber (toDouble (v + 1))
                                  | None => JsNaN
                                  end)
                       :: if isBooleanTrue suppressNotifications
                          then [("minorEdit", JsBool true)] else [])) /\
     forall v,
       intVersionNumber this = Some v -> - 2 ^ 53 <= v < 2 ^ 53 ->
       getProp "version" objResult
       = Some (JsObject (("number", JsNumber (v + 1))
                         :: if isBooleanTrue suppressNotifications
                            then [("minorEdit", JsBool true)] else []))) /\
    (forall k,
        ~ In k ["id"; "version"; "type"; "title"; "space"; "body"; "ancestors"] ->
        getProp k objResult = None).
Proof.
  intros Hmode.
  assert (Hsafe : forall v, - 2 ^ 53 <= v < 2 ^ 53 -> toDouble (v + 1) = v + 1).
  { intros v Hb. apply toDouble_exact. lia. }
  unfold Page.stringify, Page.getId, Page.getVersionNumber, Page.getTitle,
    Page.getSpaceKey, Page.getBody, Page.getParentPageId, plusOne.
  destruct (isBooleanTrue createNewPage) eqn:Hc;
    destruct (isBooleanTrue suppressNotifications) eqn:Hs;
    try (destruct Hmode; discriminate);
    destruct (truthyStr (strBody this));
    destruct (truthyStr (strParentPageId this));
    cbn; eexists; (split; [reflexivity|]);
    repeat (split; [first [reflexivity | discriminate
                          | intros _; split;
                            [reflexivity
                            | intros v Hv Hb; rewrite Hv, (Hsafe v Hb); reflexivity]]|]);
    intros k Hk; cbn;
    repeat match goal with
           | |- context [String.eqb k ?s] =>
               destruct (String.eqb_spec k s) as [->|_];
               [exfalso; apply Hk; cbn; tauto|]
           end;
    reflexivity.
Qed.

Lemma stringify_fields_witness :
  exists objResult,
    Page.stringify (JsBool false) (JsBool true) Sample.editedPage = Return objResult /\
    getProp "title" objResult = Some (JsString "Final") /\
    getProp "ancestors" objResult = Some (JsArray [JsObject [("id", JsString "99")]]) /\
    getProp "version" objResult
    = Some (JsObject [("number", JsNumber (5 + 1)); ("minorEdit", JsBool true)]) /\
    getProp "labels" objResult = None.
Proof.
  destruct (@stringify_fields Sample.editedPage (JsBool false) (JsBool true))
    as (objResult & Hrun & _ & Ht & _ & _ & Ha & Hv & Hno); [now left|].
  exists objResult. repeat split.
  - exact Hrun.
  - exact Ht.
  - exact Ha.
  - apply (proj2 (Hv eq_refl) 5 eq_refl).
    split; [vm_compute; discriminate | vm_compute; reflexivity].
  - apply Hno. cbn. intros H. repeat (destruct H as [H|H]; [discriminate H|]). exact H.
Defined.

(** ** Decoding a page *)

Ltac decoded_fields Hlabels :=
  unfold Request.unchanged, Page.isValid, Behaviour.labelsOf;
  cbn [Page.clearFlags strInternalId refClientInternalId hasTitleChanged
       hasSpaceKeyChanged hasBodyChanged hasParentPageIdChanged haveLabelsChanged
       hasScaffoldingDataChanged strId strStatus strTitle strSpaceKey
       intVersionNumber strBody arrScaffoldingData arrLabels strParentPageId
       set_hasTitleChanged set_hasSpaceKeyChanged set_hasBodyChanged
       set_hasParentPageIdChanged set_haveLabelsChanged
       set_hasScaffoldingDataChanged set_strParentPageId set_arrAncestors];
  rewrite ?String.eqb_refl, ?Hlabels; repeat split.

(** Case analysis on the JSON object [j] of a goal
    [Page.initialize _ (Some j) = Return this -> _]: what is left are the
    three ways in which the constructor returns (no ancestors, an empty array
    of ancestors, ancestors), with [this] replaced by the page built. *)
Ltac decode_cases j :=
  unfold Page.initialize;
  destruct j as [id st ti sk vn bs bv ru rg uu ug hl ml anc];
  cbn [Page.fromJson]; unfold Page.scalars, chain, bindO;
  cbn [json_id json_status json_title json_space_key json_version_number
       json_body_storage_value json_body_styled_view_value json_restrictions_read_user
       json_restrictions_read_group json_restrictions_update_user
       json_restrictions_update_group json_history_lastUpdated
       json_metadata_labels_results json_ancestors];
  (destruct sk as [sk|]; [|discriminate]);
  (destruct vn as [vn|]; [|discriminate]);
  (destruct bs as [bs|]; [|discriminate]);
  (destruct bv as [bv|]; [|discriminate]);
  (destruct ru as [ru|]; [|discriminate]);
  (destruct rg as [rg|]; [|discriminate]);
  (destruct uu as [uu|]; [|discriminate]);
  (destruct ug as [ug|]; [|discriminate]);
  (destruct hl as [hl|]; [|discriminate]);
  (destruct ml as [ml|]; [|discriminate]);
  destruct anc as [[|a rest]|];
  [ idtac
  | unfold Page.setParentPageId;
    (destruct (json_id (last rest a)) as [pid|]; [|discriminate]);
    (destruct (isValidInteger pid); cbn [negb]; [|discriminate]);
    (destruct (Page.fromJson _ a) as [first|e|]; try discriminate);
    match goal with
    | |- context [match ?X with Return _ => _ | Throw _ => _ | OutOfFuel => _ end] =>
        match X with
        | _ rest => destruct X as [others|e|]
        end
    end; try discriminate
  | idtac ];
  (let H := fresh "H" in intros H; injection H as <-).

Lemma initialize_isValid (clientInternalId : string) (jsonPage : JsonPage)
  (this : ConfluencePage) :
  Page.initialize clientInternalId (Some jsonPage) = Return this ->
  Page.isValid this = true.
Proof.
  decode_cases jsonPage; unfold Page.isValid;
    cbn [Page.clearFlags strInternalId refClientInternalId
         set_hasTitleChanged set_hasSpaceKeyChanged set_hasBodyChanged
         set_hasParentPageIdChanged set_haveLabelsChanged
         set_hasScaffoldingDataChanged set_strParentPageId set_arrAncestors];
    apply String.eqb_refl.
Qed.

(** X11: a page that [new ConfluencePage(client, jsonPage)] returns for a
    JSON object passes [isValid], has no change flag set and no Scaffolding
    data, and holds the members of the object as they are: the label names
    unchanged and in order, and as parent id the id of the last ancestor.
    The constructor returns only if the member chains [space.key],
    [version.number] and [body.storage.value] can be read. *)
Theorem initialize_decoded (clientInternalId : string) (jsonPage : JsonPage)
  (this : ConfluencePage) :
  Page.initialize clientInternalId (Some jsonPage) = Return this ->
  Request.unchanged this /\
  Page.isValid this = true /\
  strId this = json_id jsonPage /\
  strStatus this = json_status jsonPage /\
  strTitle this = json_title jsonPage /\
  json_space_key jsonPage = Some (strSpaceKey this) /\
  json_version_number jsonPage = Some (intVersionNumber this) /\
  json_body_storage_value jsonPage = Some (strBody this) /\
  arrScaffoldingData this = None /\
  Behaviour.labelsOf this
  = match json_metadata_labels_results jsonPage with
    | Some (Some results) => map labelName results
    | _ => []
    end /\
  strParentPageId this
  = match json_ancestors jsonPage with
    | Some (a :: rest) => json_id (last rest a)
    | _ => None
    end.
Proof.
  assert (Hlabels : forall o : option (list JsonLabel),
             match match o with
                   | Some (l1 :: ls) => Some (mkLabelArray 0 (map labelName (l1 :: ls)))
                   | _ => None
                   end with
             | Some arr => arrayItems arr
             | None => []
             end = match o with Some results => map labelName results | None => [] end).
  { intros [[|l1 ls]|]; reflexivity. }
  decode_cases jsonPage; decoded_fields Hlabels.
Qed.

Lemma initialize_decoded_witness :
  Page.isValid (Sample.draftPage ["Docs"]) = true /\
  Behaviour.labelsOf (Sample.draftPage ["Docs"]) = ["Docs"] /\
  strParentPageId (Sample.draftPage ["Docs"]) = None.
Proof.
  destruct (@initialize_decoded "1595584800000abc" (Sample.jsonPage "100" "Draft" 5 ["Docs"])
              (Sample.draftPage ["Docs"]) (draftPage_decoded ["Docs"]))
    as (_ & Hv & _ & _ & _ & _ & _ & _ & _ & Hl & Hp).
  repeat split; assumption.
Defined.

(** Decoding a JSON object returns a page or throws. *)
Lemma fromJson_settles (clientInternalId : string) :
  forall jsonPage : JsonPage, Page.fromJson clientInternalId jsonPage <> OutOfFuel.
Proof.
  fix IH 1. intros [id st ti sk vn bs bv ru rg uu ug hl ml anc].
  cbn [Page.fromJson]. unfold Page.scalars, chain, bindO.
  cbn [json_id json_status json_title json_space_key json_version_number
       json_body_storage_value json_body_styled_view_value json_restrictions_read_user
       json_restrictions_read_group json_restrictions_update_user
       json_restrictions_update_group json_history_lastUpdated
       json_metadata_labels_results json_ancestors].
  destruct sk as [sk|]; [|discriminate].
  destruct vn as [vn|]; [|discriminate].
  destruct bs as [bs|]; [|discriminate].
  destruct bv as [bv|]; [|discriminate].
  destruct ru as [ru|]; [|discriminate].
  destruct rg as [rg|]; [|discriminate].
  destruct uu as [uu|]; [|discriminate].
  destruct ug as [ug|]; [|discriminate].
  destruct hl as [hl|]; [|discriminate].
  destruct ml as [ml|]; [|discriminate].
  destruct anc as [[|a rest]|]; try discriminate.
  unfold Page.setParentPageId.
  destruct (json_id (last rest a)) as [pid|]; [|discriminate].
  destruct (isValidInteger pid); cbn [negb]; [|discriminate].
  pose proof (IH a) as Ha.
  destruct (Page.fromJson clientInternalId a) as [first|e|];
    [|discriminate|now elim Ha].
  match goal with
  | |- context [match ?X with Return _ => _ | Throw _ => _ | OutOfFuel => _ end] =>
      match X with
      | ?E rest => assert (Hrest : E rest <> OutOfFuel)
      end
  end.
  { clear - IH. revert rest. fix IHl 1. intros [|j l']; [discriminate|].
    pose proof (IH j) as Hj. pose proof (IHl l') as Hl.
    cbn. cbn in Hl.
    destruct (Page.fromJson clientInternalId j) as [p|e|];
      [|discriminate|now elim Hj].
    match type of Hl with
    | ?X <> _ => destruct X as [ps|e|]
    end; [discriminate|discriminate|now elim Hl]. }
  match type of Hrest with
  | ?X <> _ => destruct X as [ps|e|]
  end; [discriminate|discriminate|now elim Hrest].
Qed.

Lemma initialize_settles (clientInternalId : string) (jsonPage : option JsonPage) :
  Page.initialize clientInternalId jsonPage <> OutOfFuel.
Proof.
  destruct jsonPage as [j|]; [apply fromJson_settles | discriminate].
Qed.

(** ** Saving the page data *)

Lemma stringify_update (suppressNotifications : JsValue) (this : ConfluencePage) :
  exists payload, Page.stringify (JsBool false) suppressNotifications this = Return payload.
Proof.
  unfold Page.stringify. cbn [isBooleanTrue negb].
  destruct (isBooleanTrue suppressNotifications); cbn; eexists; reflexivity.
Qed.

Lemma truthyStr_Some (id : string) : id <> "" -> truthyStr (Some id) = true.
Proof. intros H. cbn. destruct (String.eqb_spec id ""); [contradiction | reflexivity]. Qed.

Lemma complete_id (objPage : ConfluencePage) :
  Behaviour.complete objPage = true -> exists id, strId objPage = Some id /\ id <> "".
Proof.
  unfold Behaviour.complete. destruct (strId objPage) as [id|]; [|discriminate].
  intros H. exists id. split; [reflexivity|]. intros ->. discriminate H.
Qed.

Lemma updatePageData_run (net : Network) (w : World) (objPage : ConfluencePage)
  (suppressNotifications : JsValue) (id : string) (payload : JsValue) :
  Page.isValid objPage = true ->
  Behaviour.complete objPage = true ->
  strId objPage = Some id ->
  Page.stringify (JsBool false) suppressNotifications objPage = Return payload ->
  exists w',
    sent w' = sent w ++ [Behaviour.putPage w id payload] /\
    match net (sent w) (Behaviour.putPage w id payload) with
    | Responds r =>
        match (if statusCode r =? 200
               then Behaviour.returnedVersion (clientInternalId (client w)) r
               else None) with
        | Some v =>
            exists saved,
              Page.setVersionNumber v objPage = Return saved /\
              intVersionNumber saved = Some v /\
              Client.updatePageData net suppressNotifications (w, objPage)
              = (Return true, (w', saved))
        | None =>
            Client.updatePageData net suppressNotifications (w, objPage)
            = (Return false, (w', objPage))
        end
    | Raises _ =>
        Client.updatePageData net suppressNotifications (w, objPage)
        = (Return false, (w', objPage))
    end.
Proof.
  intros Hvalid Hc Hid Hpay.
  unfold Behaviour.complete in Hc.
  destruct w as [[url err cid rm resp] snt].
  unfold Client.updatePageData, Behaviour.putPage, Behaviour.returnedVersion.
  repeat (mstep; rewrite ?Hvalid, ?Hc, ?Hpay).
  rewrite Hid. mstep.
  destruct (net snt _) as [r|e]; mstep; [|eexists; split; [|reflexivity]; reflexivity].
  destruct (statusCode r =? 200); mstep;
    [|destruct (haveError r); eexists; (split; [|reflexivity]); reflexivity].
  assert (Hdoc : asPage (body r) <> OutOfFuel) by (destruct (body r); discriminate).
  destruct (asPage (body r)) as [j|e|]; mstep;
    [|destruct (haveError r); eexists; (split; [|reflexivity]); reflexivity
     |now elim Hdoc].
  pose proof (initialize_settles cid (Some j)) as Hj.
  destruct (haveError r); mstep;
    (destruct (Page.initialize cid (Some j)) as [p|e|]; mstep;
     [|eexists; (split; [|reflexivity]); reflexivity|now elim Hj]);
    (destruct (intVersionNumber p) as [v|]; mstep;
     [|eexists; (split; [|reflexivity]); reflexivity]);
    unfold Page.setVersionNumber;
    (destruct (isValidIntegerNum v) eqn:Hv; mstep;
     [|eexists; (split; [|reflexivity]); reflexivity]);
    rewrite ?Hv; mstep;
    eexists; (split; [|eexists; split; [reflexivity|split; reflexivity]]); reflexivity.
Qed.

(** X12: [updatePageData] of the client throws, before any request, for a
    page that lacks an id, a version number, a parent id, a title or a space
    key.  Otherwise it sends one PUT request with the serialized page.  On
    status code 200 with a page in the body whose version number is valid it
    stores that version number in the page and returns [true]; on any other
    reply it returns [false] and leaves the page as it was. *)
Theorem updatePageData_outcomes (net : Network) (w : World) (objPage : ConfluencePage)
  (suppressNotifications : JsValue) :
  Page.isValid objPage = true ->
  (Behaviour.complete objPage = false ->
   exists e,
     Client.updatePageData net suppressNotifications (w, objPage) = (Throw e, (w, objPage))) /\
  (Behaviour.complete objPage = true ->
   exists id payload w',
     strId objPage = Some id /\
     Page.stringify (JsBool false) suppressNotifications objPage = Return payload /\
     sent w' = sent w ++ [Behaviour.putPage w id payload] /\
     match net (sent w) (Behaviour.putPage w id payload) with
     | Responds r =>
         match (if statusCode r =? 200
                then Behaviour.returnedVersion (clientInternalId (client w)) r
                else None) with
         | Some v =>
             exists saved,
               Page.setVersionNumber v objPage = Return saved /\
               intVersionNumber saved = Some v /\
               Client.updatePageData net suppressNotifications (w, objPage)
               = (Return true, (w', saved))
         | None =>
             Client.updatePageData net suppressNotifications (w, objPage)
             = (Return false, (w', objPage))
         end
     | Raises _ =>
         Client.updatePageData net suppressNotifications (w, objPage)
         = (Return false, (w', objPage))
     end).
Proof.
  intros Hvalid. split.
  - intros Hc. unfold Behaviour.complete in Hc.
    unfold Client.updatePageData. repeat (mstep; rewrite ?Hvalid, ?Hc). eauto.
  - intros Hc. destruct (complete_id objPage Hc) as (id & Hid & Hne).
    destruct (stringify_update suppressNotifications objPage) as (payload & Hpay).
    destruct (@updatePageData_run net w objPage suppressNotifications id payload
                Hvalid Hc Hid Hpay) as (w' & Hsent & Hrun).
    exists id, payload, w'. auto.
Qed.

Lemma updatePageData_outcomes_witness :
  exists e,
    Client.updatePageData (Sample.scripted []) JsUndefined
      (Sample.newWorld, Sample.draftPage [])
    = (Throw e, (Sample.newWorld, Sample.draftPage [])).
Proof.
  apply (proj1 (@updatePageData_outcomes (Sample.scripted []) Sample.newWorld
                  (Sample.draftPage []) JsUndefined eq_refl)).
  reflexivity.
Defined.

(** X13: when [update] of a page with changed page data sends the PUT
    request and the server answers with a new version number, the page's
    label flag is cleared together with the others, so [update] returns
    [true] after that one request: label changes made on the page are not
    sent, although the page keeps them. *)
Theorem update_skips_labels_after_new_version (net : Network) (fuel : nat)
  (suppressNotifications : JsValue) (w : World) (objPage : ConfluencePage)
  (id : string) (payload : JsValue) (r : Response) (v : Z) :
  Page.isValid objPage = true ->
  Behaviour.complete objPage = true ->
  strId objPage = Some id ->
  Page.stringify (JsBool false) suppressNotifications objPage = Return payload ->
  hasBodyChanged objPage || hasParentPageIdChanged objPage ||
  hasSpaceKeyChanged objPage || hasTitleChanged objPage = true ->
  hasScaffoldingDataChanged objPage = false ->
  net (sent w) (Behaviour.putPage w id payload) = Responds r ->
  statusCode r = 200 ->
  Behaviour.returnedVersion (clientInternalId (client w)) r = Some v ->
  intVersionNumber objPage <> Some v ->
  exists w' saved,
    PageSave.update net fuel suppressNotifications (w, objPage)
    = (Return true, (w', saved)) /\
    sent w' = sent w ++ [Behaviour.putPage w id payload] /\
    intVersionNumber saved = Some v /\
    arrLabels saved = arrLabels objPage /\
    Request.unchanged saved.
Proof.
  intros Hvalid Hc Hid Hpay Hchanged Hsc Hnet Hst Hver Hdiff.
  destruct (@updatePageData_run net w objPage suppressNotifications id payload
              Hvalid Hc Hid Hpay) as (w' & Hsent & Hrun).
  rewrite Hnet, Hst, Hver in Hrun. cbn [Z.eqb Pos.eqb] in Hrun.
  destruct Hrun as (saved & Hset & Hv & Hrun).
  exists w', saved.
  assert (Hflags : Request.unchanged saved /\ arrLabels saved = arrLabels objPage).
  { unfold Page.setVersionNumber in Hset.
    destruct (isValidIntegerNum v); [|discriminate Hset]. cbn [negb] in Hset.
    assert (Hd : Page.differsNum (intVersionNumber objPage) v = true).
    { unfold Page.differsNum. destruct (intVersionNumber objPage) as [n|]; [|reflexivity].
      destruct (Z.eqb_spec n v) as [->|]; [now elim Hdiff | reflexivity]. }
    rewrite Hd in Hset. injection Hset as <-. unfold Request.unchanged. cbn.
    repeat split. exact Hsc. }
  destruct Hflags as (Hun & Hlab). repeat split; try assumption; try apply Hun.
  unfold PageSave.update, PageSave.updatePageData, PageSave.updatePageLabels,
    PageSave.updateScaffoldingData.
  destruct Hun as (_ & _ & _ & _ & Hl & Hs).
  mstep. rewrite Hchanged, Hrun. mstep. rewrite Hl. mstep. rewrite Hs. reflexivity.
Qed.

Lemma update_skips_labels_after_new_version_witness :
  exists w' saved,
    PageSave.update
      (Sample.scripted [Sample.answer 200 (DocPage (Sample.jsonPage "100" "Final" 6 ["docs"]))])
      5 JsUndefined (Sample.newWorld, Sample.editedPage)
    = (Return true, (w', saved)) /\
    sent w'
    = sent Sample.newWorld ++
      [Behaviour.putPage Sample.newWorld "100"
         (JsObject [("id", JsString "100");
                    ("version", JsObject [("number", JsNumber 6)]);
                    ("type", JsString "page");
                    ("title", JsString "Final");
                    ("space", JsObject [("key", JsString "DEV")]);
                    ("body", JsObject [("storage",
                                        JsObject [("value", JsString "<p>text</p>");
                                                  ("representation", JsString "storage")])]);
                    ("ancestors", JsArray [JsObject [("id", JsString "99")]])])] /\
    intVersionNumber saved = Some 6 /\
    arrLabels saved = arrLabels Sample.editedPage /\
    Request.unchanged saved.
Proof.
  apply (@update_skips_labels_after_new_version _ 5 JsUndefined Sample.newWorld
           Sample.editedPage "100" _
           (mkResponse 200 (DocPage (Sample.jsonPage "100" "Final" 6 ["docs"])) false) 6);
    try (vm_compute; reflexivity).
  vm_compute. discriminate.
Defined.

(** ** Saving the Scaffolding data *)

Lemma updateScaffoldingData_run (net : Network) (w : World) (objPage : ConfluencePage)
  (id : string) (fields : list ScaffoldingField) :
  Page.isValid objPage = true ->
  strId objPage = Some id -> id <> "" ->
  arrScaffoldingData objPage = Some fields ->
  exists w' ok saved,
    Client.updateScaffoldingData net (w, objPage) = (Return ok, (w', saved)) /\
    sent w' = sent w ++ [Behaviour.putForm w id fields] /\
    hasScaffoldingDataChanged saved = hasScaffoldingDataChanged objPage /\
    arrScaffoldingData saved = arrScaffoldingData objPage /\
    (ok, saved)
    = match net (sent w) (Behaviour.putForm w id fields) with
      | Responds r =>
          if statusCode r =? 200
          then match intVersionNumber objPage with
               | Some n =>
                   if n =? 0 then (false, objPage)
                   else (true, set_intVersionNumber (Some (toDouble (n + 1))) objPage)
               | None => (false, objPage)
               end
          else (statusCode r =? 304, objPage)
      | Raises _ => (false, objPage)
      end.
Proof.
  intros Hvalid Hid Hne Hdata.
  pose proof (truthyStr_Some Hne) as Hid'.
  destruct w as [[url err cid rm resp] snt].
  unfold Client.updateScaffoldingData, Behaviour.putForm.
  repeat (mstep; rewrite ?Hvalid, ?Hid, ?Hid', ?Hdata).
  destruct (net snt _) as [r|e]; mstep.
  - destruct (statusCode r =? 200); mstep.
    + unfold Page.increaseVersionNumber.
      destruct (intVersionNumber objPage) as [n|]; [destruct (n =? 0)|];
        destruct (haveError r); mstep;
        do 3 eexists; (split; [reflexivity|]); repeat split; assumption.
    + destruct (statusCode r =? 304); destruct (haveError r); mstep;
        do 3 eexists; (split; [reflexivity|]); repeat split; assumption.
  - do 3 eexists. split; [reflexivity|]. repeat split; assumption.
Qed.

(** X14: [updateScaffoldingData] of the client throws, before any request,
    for a page without Scaffolding data.  For a page with an id and data it
    sends one PUT request with the fields.  On status code 200 it adds 1 to
    the page's version number, as doubles, and returns [true], or returns
    [false] if the page has no version number other than 0; for a version
    number from -2^53 up to 2^53 - 1 the page then holds the next number.  On
    304 it returns [true], on any other reply [false], the page being left as
    it was.  In no case does the Scaffolding flag or the data of the page
    change. *)
Theorem updateScaffoldingData_outcomes (net : Network) (w : World)
  (objPage : ConfluencePage) :
  Page.isValid objPage = true ->
  (arrScaffoldingData objPage = None ->
   exists e, Client.updateScaffoldingData net (w, objPage) = (Throw e, (w, objPage))) /\
  (forall id fields,
      strId objPage = Some id -> id <> "" ->
      arrScaffoldingData objPage = Some fields ->
      exists w' ok saved,
        Client.updateScaffoldingData net (w, objPage) = (Return ok, (w', saved)) /\
        sent w' = sent w ++ [Behaviour.putForm w id fields] /\
        hasScaffoldingDataChanged saved = hasScaffoldingDataChanged objPage /\
        arrScaffoldingData saved = arrScaffoldingData objPage /\
        (ok, saved)
        = match net (sent w) (Behaviour.putForm w id fields) with
          | Responds r =>
              if statusCode r =? 200
              then match intVersionNumber objPage with
                   | Some n =>
                       if n =? 0 then (false, objPage)
                       else (true, set_intVersionNumber (Some (toDouble (n + 1))) objPage)
                   | None => (false, objPage)
                   end
              else (statusCode r =? 304, objPage)
          | Raises _ => (false, objPage)
          end /\
        (forall n,
            intVersionNumber objPage = Some n -> n <> 0 ->
            - 2 ^ 53 <= n < 2 ^ 53 ->
            Request.succeeded 200 (net (sent w) (Behaviour.putForm w id fields)) = true ->
            ok = true /\ intVersionNumber saved = Some (n + 1))).
Proof.
  intros Hvalid. split.
  - intros Hdata. unfold Client.updateScaffoldingData.
    repeat (mstep; rewrite ?Hvalid).
    destruct (truthyStr (strId objPage)); repeat (mstep; rewrite ?Hdata); eauto.
  - intros id fields Hid Hne Hdata.
    destruct (@updateScaffoldingData_run net w objPage id fields Hvalid Hid Hne Hdata)
      as (w' & ok & saved & Hrun & Hsent & Hflag & Hkept & Hres).
    exists w', ok, saved. repeat (split; [assumption|]).
    intros n Hn Hn0 Hb Hok. unfold Request.succeeded in Hok.
    destruct (net (sent w) (Behaviour.putForm w id fields)) as [r|e]; [|discriminate Hok].
    rewrite Hok, Hn in Hres.
    destruct (Z.eqb_spec n 0) as [E|_]; [contradiction|].
    injection Hres as -> ->. split; [reflexivity|].
    cbn [intVersionNumber set_intVersionNumber]. f_equal. apply toDouble_exact. lia.
Qed.

Lemma updateScaffoldingData_outcomes_witness :
  exists w' saved,
    Client.updateScaffoldingData (Sample.scripted [Sample.answer 200 DocMalformed])
      (Sample.newWorld,
       set_arrScaffoldingData (Some [mkField "status" (JsString "done")])
         (Sample.draftPage []))
    = (Return true, (w', saved)) /\
    sent w'
    = sent Sample.newWorld ++
      [Behaviour.putForm Sample.newWorld "100" [mkField "status" (JsString "done")]] /\
    intVersionNumber saved = Some (5 + 1) /\
    arrScaffoldingData saved = Some [mkField "status" (JsString "done")].
Proof.
  destruct (proj2 (@updateScaffoldingData_outcomes
                     (Sample.scripted [Sample.answer 200 DocMalformed]) Sample.newWorld
                     (set_arrScaffoldingData (Some [mkField "status" (JsString "done")])
                        (Sample.draftPage []))
                     eq_refl)
              "100" [mkField "status" (JsString "done")]
              eq_refl ltac:(discriminate) eq_refl)
    as (w' & ok & saved & Hrun & Hsent & _ & Hkept & _ & Hsafe).
  assert (Hbound : - 2 ^ 53 <= 5 < 2 ^ 53).
  { split; [vm_compute; discriminate | vm_compute; reflexivity]. }
  assert (Hreply : Request.succeeded 200
                     (Sample.scripted [Sample.answer 200 DocMalformed]
                        (sent Sample.newWorld)
                        (Behaviour.putForm Sample.newWorld "100"
                           [mkField "status" (JsString "done")])) = true).
  { vm_compute. reflexivity. }
  assert (Hversion : intVersionNumber
                       (set_arrScaffoldingData (Some [mkField "status" (JsString "done")])
                          (Sample.draftPage [])) = Some 5).
  { reflexivity. }
  destruct (Hsafe 5 Hversion ltac:(discriminate) Hbound Hreply) as (Hok & Hv).
  exists w', saved. rewrite Hok in Hrun. repeat split; assumption.
Defined.

(** ** Adding and removing labels on the server *)

Lemma checkLabelNames_all (names : list string) :
  (forallb isValidLabelName names = true -> Client.checkLabelNames names = Return tt) /\
  (forallb isValidLabelName names = false ->
   exists e, Client.checkLabelNames names = Throw e).
Proof.
  induction names as [|n ns (IHt & IHf)]; cbn; [split; [reflexivity | discriminate]|].
  destruct (isValidLabelName n); cbn; [auto|].
  split; [discriminate | eauto].
Qed.

Lemma addLabelsLocally_run (names : list string) :
  forallb isValidLabelName names = true ->
  forall this : ConfluencePage,
  exists this',
    (forall w, Client.addLabelsLocally names (w, this) = (Return tt, (w, this'))) /\
    (forall n, In n names ->
               Page.labelIndexed (Page.normalizeLabel n) (Behaviour.labelsOf this') = true) /\
    (forall x, In x (Behaviour.labelsOf this) -> In x (Behaviour.labelsOf this')).
Proof.
  induction names as [|n ns IH]; cbn [forallb Client.addLabelsLocally]; intros Hall this.
  - exists this. repeat split; [intros n [] | auto].
  - apply andb_true_iff in Hall. destruct Hall as (Hn & Hns).
    destruct (@addLabel_result n this Hn) as (this1 & Hadd & Hitems & _).
    destruct (IH Hns this1) as (this' & Hrun & Hheld & Hkept).
    assert (Hin : In (Page.normalizeLabel n) (Behaviour.labelsOf this1)).
    { rewrite Hitems.
      destruct (Page.labelIndexed _ _) eqn:E; [now apply labelIndexed_iff|].
      apply in_or_app. right. now left. }
    assert (Hold : forall x, In x (Behaviour.labelsOf this) -> In x (Behaviour.labelsOf this1)).
    { intros x Hx. rewrite Hitems. destruct (Page.labelIndexed _ _); [exact Hx|].
      apply in_or_app. now left. }
    exists this'. repeat split.
    + intros w. mstep. rewrite Hadd. apply Hrun.
    + intros m [<-|Hm]; [|now apply Hheld]. now apply labelIndexed_iff, Hkept.
    + intros x Hx. now apply Hkept, Hold.
Qed.

(** X15: [addPageLabels] returns [false] without a request for an empty
    list, and throws before any request if one of the names is not a valid
    label name.  Otherwise it sends one POST request that lists the names as
    they were passed; on status code 200 it returns [true] and the page then
    holds every one of the names besides those it held before, on any other
    reply it returns [false] and leaves the page as it was. *)
Theorem addPageLabels_outcomes (net : Network) (w : World) (objPage : ConfluencePage)
  (id : string) (names : list string) :
  Page.isValid objPage = true ->
  strId objPage = Some id -> id <> "" ->
  (names = [] -> Client.addPageLabels net names (w, objPage) = (Return false, (w, objPage))) /\
  (forallb isValidLabelName names = false ->
   exists e, Client.addPageLabels net names (w, objPage) = (Throw e, (w, objPage))) /\
  (names <> [] -> forallb isValidLabelName names = true ->
   exists w' ok saved,
     Client.addPageLabels net names (w, objPage) = (Return ok, (w', saved)) /\
     sent w' = sent w ++ [Request.addLabels w id names] /\
     ok = Request.succeeded 200 (net (sent w) (Request.addLabels w id names)) /\
     if ok
     then (forall n, In n names -> Page.hasLabel n saved = Return true) /\
          (forall x, In x (Behaviour.labelsOf objPage) -> In x (Behaviour.labelsOf saved))
     else saved = objPage).
Proof.
  intros Hvalid Hid Hne. pose proof (truthyStr_Some Hne) as Hid'.
  split; [|split].
  - intros ->. unfold Client.addPageLabels. now repeat (mstep; rewrite ?Hvalid, ?Hid, ?Hid').
  - intros Hall. destruct (proj2 (checkLabelNames_all names) Hall) as (e & He).
    destruct names as [|n ns]; [discriminate Hall|].
    unfold Client.addPageLabels. repeat (mstep; rewrite ?Hvalid, ?Hid, ?Hid', ?He). eauto.
  - intros Hnames Hall. pose proof (proj1 (checkLabelNames_all names) Hall) as Hcheck.
    destruct (@addLabelsLocally_run names Hall objPage) as (saved & Hrun & Hheld & Hkept).
    assert (Hhas : forall n, In n names -> Page.hasLabel n saved = Return true).
    { intros n Hn. rewrite hasLabel_result, (Hheld n Hn); [reflexivity|].
      rewrite forallb_forall in Hall. now apply Hall. }
    destruct names as [|n ns]; [now elim Hnames|].
    destruct w as [[url err cid rm resp] snt].
    unfold Client.addPageLabels, Request.addLabels, Request.succeeded.
    repeat (mstep; rewrite ?Hvalid, ?Hid, ?Hid', ?Hcheck).
    destruct (net snt _) as [r|e]; mstep.
    + destruct (statusCode r =? 200); mstep.
      * rewrite Hrun. destruct (haveError r); do 3 eexists;
          (split; [reflexivity|]); repeat split; assumption.
      * destruct (haveError r); do 3 eexists; (split; [reflexivity|]); repeat split.
    + do 3 eexists. split; [reflexivity|]. repeat split.
Qed.

Lemma addPageLabels_outcomes_witness :
  exists w' ok saved,
    Client.addPageLabels (Sample.scripted [Sample.answer 200 DocMalformed])
      ["Review"; "Team-Docs"] (Sample.newWorld, Sample.draftPage ["docs"])
    = (Return ok, (w', saved)) /\
    sent w' = sent Sample.newWorld ++
              [Request.addLabels Sample.newWorld "100" ["Review"; "Team-Docs"]] /\
    ok = Request.succeeded 200
           (Sample.scripted [Sample.answer 200 DocMalformed] (sent Sample.newWorld)
              (Request.addLabels Sample.newWorld "100" ["Review"; "Team-Docs"])) /\
    if ok
    then (forall n, In n ["Review"; "Team-Docs"] -> Page.hasLabel n saved = Return true) /\
         (forall x, In x (Behaviour.labelsOf (Sample.draftPage ["docs"])) ->
                    In x (Behaviour.labelsOf saved))
    else saved = Sample.draftPage ["docs"].
Proof.
  apply (@addPageLabels_outcomes (Sample.scripted [Sample.answer 200 DocMalformed])
           Sample.newWorld (Sample.draftPage ["docs"]) "100" ["Review"; "Team-Docs"]);
    [reflexivity | reflexivity | discriminate | discriminate | reflexivity].
Defined.

(** X16: [removePageLabel] throws before anything else for a name that is
    not a valid label name.  For a valid name and a page with an id it sends
    one DELETE request; only status code 204 counts as success: the page then
    no longer holds the name and [true] is returned, while on any other
    reply, status code 200 included, [false] is returned and the page is left
    as it was. *)
Theorem removePageLabel_outcomes (net : Network) (w : World) (objPage : ConfluencePage)
  (name : string) :
  (isValidLabelName name = false ->
   exists e, Client.removePageLabel net name (w, objPage) = (Throw e, (w, objPage))) /\
  (forall id,
      isValidLabelName name = true ->
      Page.isValid objPage = true ->
      strId objPage = Some id -> id <> "" ->
      exists w' ok saved,
        Client.removePageLabel net name (w, objPage) = (Return ok, (w', saved)) /\
        sent w' = sent w ++ [Request.removeLabel w id name] /\
        ok = Request.succeeded 204 (net (sent w) (Request.removeLabel w id name)) /\
        if ok
        then Page.hasLabel name saved = Return false /\
             Behaviour.labelsOf saved
             = filter (fun item => negb (String.eqb item (Page.normalizeLabel name)))
                      (Behaviour.labelsOf objPage)
        else saved = objPage).
Proof.
  split.
  - intros Hname. unfold Client.removePageLabel. rewrite Hname. mstep. eauto.
  - intros id Hname Hvalid Hid Hne.
    destruct (@removePageLabel_run net w objPage id name Hvalid Hid Hne Hname)
      as (w' & removed & Hrem & Hsent & _ & Hrun).
    destruct (@removeLabel_result name objPage Hname) as (removed' & Hrem' & Hitems & _).
    rewrite Hrem in Hrem'. injection Hrem' as <-.
    exists w', (Request.succeeded 204 (net (sent w) (Request.removeLabel w id name))).
    eexists. split; [exact Hrun|]. split; [exact Hsent|]. split; [reflexivity|].
    destruct (Request.succeeded 204 _); [|reflexivity].
    split; [|exact Hitems].
    rewrite hasLabel_result, Hitems, labelIndexed_filtered by exact Hname. reflexivity.
Qed.

Lemma removePageLabel_outcomes_witness :
  exists e,
    Client.removePageLabel (Sample.scripted []) "not a label"
      (Sample.newWorld, Sample.draftPage ["docs"])
    = (Throw e, (Sample.newWorld, Sample.draftPage ["docs"])).
Proof.
  apply (proj1 (@removePageLabel_outcomes (Sample.scripted []) Sample.newWorld
                  (Sample.draftPage ["docs"]) "not a label")).
  reflexivity.
Defined.

(** ** Searching *)

Lemma digit_facts (c : ascii) :
  isDigit c = true -> isSpace c = false /\ lowerChar c = c /\ c <> "t"%char.
Proof.
  destruct c as [[] [] [] [] [] [] [] []]; vm_compute; intros H;
    try discriminate H; repeat split; discriminate.
Qed.

Lemma trimEnd_digits (s : string) : allChars isDigit s = true -> trimEnd s = s.
Proof.
  induction s as [|c r IH]; cbn; [reflexivity|]. intros H.
  apply andb_true_iff in H. destruct H as (Hc & Hr).
  rewrite (proj1 (digit_facts c Hc)), (IH Hr). reflexivity.
Qed.

Lemma toLowerCase_digits (s : string) : allChars isDigit s = true -> toLowerCase s = s.
Proof.
  induction s as [|c r IH]; cbn; [reflexivity|]. intros H.
  apply andb_true_iff in H. destruct H as (Hc & Hr).
  rewrite (proj1 (proj2 (digit_facts c Hc))), (IH Hr). reflexivity.
Qed.

Lemma includes_digits (s : string) :
  allChars isDigit s = true -> includes "type=page" s = false.
Proof.
  induction s as [|c r IH]; [reflexivity|]. cbn [allChars includes]. intros H.
  apply andb_true_iff in H. destruct H as (Hc & Hr).
  rewrite (IH Hr), orb_false_r. cbn [String.prefix].
  destruct (ascii_dec "t" c) as [<-|_]; [|reflexivity].
  now elim (proj2 (proj2 (digit_facts "t" Hc))).
Qed.

Lemma trimStart_cons (c : ascii) (r : string) :
  isSpace c = false -> trimStart (String c r) = String c r.
Proof. intros H. cbn [trimStart]. now rewrite H. Qed.

Lemma trimEnd_cons (c : ascii) (r : string) :
  isSpace c = false -> trimEnd (String c r) = String c (trimEnd r).
Proof. intros H. cbn [trimEnd]. now rewrite H. Qed.

Lemma finalCQL_ancestor (id : string) :
  isValidInteger id = true ->
  (5 <? String.length (trim ("ancestor=" ++ id)))%nat = true /\
  Client.finalCQL ("ancestor=" ++ id) = ("ancestor=" ++ id ++ " AND type=page")%string.
Proof.
  unfold isValidInteger. intros H. apply andb_true_iff in H. destruct H as (_ & Hd).
  assert (Htrim : trim ("ancestor=" ++ id) = ("ancestor=" ++ id)%string).
  { unfold trim. cbn [append]. rewrite trimStart_cons by reflexivity.
    rewrite !trimEnd_cons by reflexivity. now rewrite (trimEnd_digits id Hd). }
  split.
  - rewrite Htrim. cbn [append String.length]. reflexivity.
  - unfold Client.finalCQL. rewrite Htrim.
    assert (Hinc : includes "type=page" (toLowerCase ("ancestor=" ++ id)) = false).
    { cbn [append toLowerCase]. rewrite (toLowerCase_digits id Hd).
      repeat (cbn [includes]; match goal with
                              | |- context [String.prefix ?t ?s] =>
                                  replace (String.prefix t s) with false by reflexivity
                              end; cbn [orb]).
      now apply includes_digits. }
    rewrite Hinc. cbn [negb]. cbn [append]. reflexivity.
Qed.

(** X17: [loadPageDescendants] throws, before any request, for an id that
    is not made of digits.  For a valid id the query it searches with is
    ["ancestor=" + id + " AND type=page"]; when the network serves that
    search with the result lists [pages], the method returns one decoded page
    per result item, in order. *)
Theorem loadPageDescendants_searches (net : Network) (w : World) (strParentId : string)
  (includeContent : JsValue) (fuel : nat) :
  (isValidInteger strParentId = false ->
   exists e,
     Client.loadPageDescendants net fuel strParentId includeContent w = (Throw e, w)) /\
  (isValidInteger strParentId = true ->
   forall (pages : list (list JsonPage)) (decoded : list ConfluencePage),
     let request :=
       Request.search w ("ancestor=" ++ strParentId ++ " AND type=page") includeContent in
     Request.serves net request (sent w) 0 pages ->
     Forall2 (fun j p => Page.initialize (clientInternalId (client w)) (Some j) = Return p)
             (List.concat pages) decoded ->
     (List.length pages < fuel)%nat ->
     exists w',
       Client.loadPageDescendants net fuel strParentId includeContent w
       = (Return (Some decoded), w') /\
       sent w' = sent w ++ map request (Request.offsets 0 pages)).
Proof.
  unfold Client.loadPageDescendants. split.
  - intros ->. mstep. eauto.
  - intros Hid pages decoded Hserves Hdec Hfuel. rewrite Hid. cbn [negb].
    destruct (finalCQL_ancestor strParentId Hid) as (Hlen & Hcql).
    destruct (@searchLoop_paginates net ("ancestor=" ++ strParentId ++ " AND type=page")
                includeContent (strConfluenceURL (client w)) (clientInternalId (client w))
                (rmRequestBody (objRestMessage (client w))) pages
                w 0 [] decoded fuel eq_refl eq_refl eq_refl Hserves Hdec Hfuel)
      as (w' & Hrun & Hsent).
    exists w'. split; [|exact Hsent].
    unfold Client.searchPages. rewrite Hlen, Hcql. unfold tryCatch. now rewrite Hrun.
Qed.

Lemma loadPageDescendants_searches_witness :
  exists e,
    Client.loadPageDescendants (Sample.scripted []) 3 "12a" JsUndefined Sample.newWorld
    = (Throw e, Sample.newWorld).
Proof.
  apply (proj1 (@loadPageDescendants_searches (Sample.scripted []) Sample.newWorld "12a"
                  JsUndefined 3)).
  reflexivity.
Defined.

Lemma searchLoop_fails (net : Network) (strFinalCQL : string) (includeContent : JsValue)
  (url cid : string) (b : option RequestBody) (pages : list (list JsonPage)) :
  let request := fun start =>
    mkRestMessage (Some (url, EpSearch start strFinalCQL (_getCommonExpansions includeContent)))
                  (Some "get") b in
  forall (w : World) (start : Z) (acc decoded : list ConfluencePage) (fuel : nat),
    strConfluenceURL (client w) = url ->
    clientInternalId (client w) = cid ->
    rmRequestBody (objRestMessage (client w)) = b ->
    Behaviour.failsAfter net request (sent w) start pages ->
    Forall2 (fun j p => Page.initialize cid (Some j) = Return p) (List.concat pages) decoded ->
    (List.length pages < fuel)%nat ->
    exists w',
      sent w' = sent w ++ map request (Request.offsets start pages) /\
      (Client.searchLoop net fuel strFinalCQL includeContent acc start w = (Return None, w') \/
       exists e,
         Client.searchLoop net fuel strFinalCQL includeContent acc start w = (Throw e, w')).
Proof.
  intros request. induction pages as [|page rest IH];
    intros [[url' err cid' rm resp] snt] start acc decoded fuel Hurl Hcid Hb Hfails Hdec Hfuel;
    cbn in Hurl, Hcid, Hb; subst url' cid'; (destruct fuel as [|fuel]; [inversion Hfuel|]).
  - cbn [Behaviour.failsAfter sent] in Hfails.
    cbn [Client.searchLoop]. mstep. rewrite Hb. fold (request start).
    destruct (net snt (request start)) as [r|e]; mstep.
    + destruct (Z.eqb_spec (statusCode r) 200) as [E|_]; [contradiction|].
      eexists. split; [|left; reflexivity]. reflexivity.
    + eexists. split; [|right; eexists; reflexivity]. reflexivity.
  - cbn [List.concat] in Hdec. apply Forall2_app_inv_l in Hdec.
    destruct Hdec as (ps1 & ps2 & Hps1 & Hps2 & ->).
    destruct Hfails as (Hne & r & Hr & Hst & Hres & Hrest). cbn [sent] in Hr, Hrest.
    cbn [Client.searchLoop]. mstep. rewrite Hb. fold (request start). rewrite Hr. mstep.
    rewrite Hst, Hres. cbn [Z.eqb Pos.eqb].
    assert (Hlen : (Z.of_nat (List.length page) =? 0) = false).
    { destruct page; [contradiction | reflexivity]. }
    rewrite Hlen.
    set (w1 := mkWorld _ (snt ++ [request start])).
    assert (Hw1 : strConfluenceURL (client w1) = url /\ clientInternalId (client w1) = cid /\
                  rmRequestBody (objRestMessage (client w1)) = b).
    { unfold w1. destruct (haveError r); repeat split. }
    destruct Hw1 as (Hu1 & Hc1 & Hb1).
    rewrite (@pushPages_decoded page ps1 acc w1) by (rewrite Hc1; exact Hps1).
    destruct (IH w1 (start + Z.of_nat (List.length page)) (acc ++ ps1) ps2 fuel
                Hu1 Hc1 Hb1 Hrest Hps2) as (w' & Hsent & Hrun).
    { cbn in Hfuel. lia. }
    exists w'. split.
    + rewrite Hsent. unfold w1. cbn [sent Request.offsets map]. now rewrite <- !app_assoc.
    + exact Hrun.
Qed.

(** X18: [searchPages] throws, before any request, for a query that is not
    a string or has five characters or less once trimmed.  When a request of
    the search is answered with a status code other than 200, or not at all,
    it returns [null] and sends nothing more: the pages received with the
    requests before that one are not returned. *)
Theorem searchPages_failures (net : Network) (w : World) (includeContent : JsValue)
  (fuel : nat) :
  (forall strCQL,
      match strCQL with
      | JsString cql => (String.length (trim cql) <= 5)%nat
      | _ => True
      end ->
      exists e, Client.searchPages net fuel strCQL includeContent w = (Throw e, w)) /\
  (forall (cql : string) (pages : list (list JsonPage)) (decoded : list ConfluencePage),
      (5 < String.length (trim cql))%nat ->
      Behaviour.failsAfter net (Request.search w (Client.finalCQL cql) includeContent)
                           (sent w) 0 pages ->
      Forall2 (fun j p => Page.initialize (clientInternalId (client w)) (Some j) = Return p)
              (List.concat pages) decoded ->
      (List.length pages < fuel)%nat ->
      exists w',
        Client.searchPages net fuel (JsString cql) includeContent w = (Return None, w') /\
        sent w' = sent w ++ map (Request.search w (Client.finalCQL cql) includeContent)
                                (Request.offsets 0 pages)).
Proof.
  split.
  - intros strCQL H. unfold Client.searchPages.
    destruct strCQL; try (mstep; eauto; fail).
    apply Nat.ltb_ge in H. rewrite H. mstep. eauto.
  - intros cql pages decoded Hcql Hfails Hdec Hfuel.
    destruct (@searchLoop_fails net (Client.finalCQL cql) includeContent
                (strConfluenceURL (client w)) (clientInternalId (client w))
                (rmRequestBody (objRestMessage (client w))) pages
                w 0 [] decoded fuel eq_refl eq_refl eq_refl Hfails Hdec Hfuel)
      as (w' & Hsent & [Hrun | (e & Hrun)]).
    + exists w'. split; [|exact Hsent].
      unfold Client.searchPages. apply Nat.ltb_lt in Hcql. rewrite Hcql.
      unfold tryCatch. now rewrite Hrun.
    + eexists. split.
      * unfold Client.searchPages. apply Nat.ltb_lt in Hcql. rewrite Hcql.
        unfold tryCatch. rewrite Hrun. mstep. reflexivity.
      * exact Hsent.
Qed.

Lemma searchPages_failures_witness :
  exists w',
    Client.searchPages
      (Sample.scripted
         [Sample.answer 200
            (DocPageListing (Some 1) (Some [Sample.jsonPage "100" "Draft" 5 []]));
          Sample.answer 503 DocMalformed])
      3 (JsString "type=page") JsUndefined Sample.newWorld
    = (Return None, w') /\
    sent w' = sent Sample.newWorld ++
              map (Request.search Sample.newWorld (Client.finalCQL "type=page") JsUndefined)
                  (Request.offsets 0 [[Sample.jsonPage "100" "Draft" 5 []]]).
Proof.
  apply (proj2 (@searchPages_failures
                  (Sample.scripted
                     [Sample.answer 200
                        (DocPageListing (Some 1) (Some [Sample.jsonPage "100" "Draft" 5 []]));
                      Sample.answer 503 DocMalformed])
                  Sample.newWorld JsUndefined 3)
               "type=page" [[Sample.jsonPage "100" "Draft" 5 []]] [Sample.draftPage []]).
  - apply Nat.ltb_lt. reflexivity.
  - cbn. split; [discriminate|]. eexists. repeat split. discriminate.
  - repeat constructor.
  - cbn. lia.
Defined.

Lemma toLowerCase_app (a b : string) :
  toLowerCase (a ++ b) = (toLowerCase a ++ toLowerCase b)%string.
Proof. induction a as [|c a IH]; cbn; [reflexivity | now rewrite IH]. Qed.

Lemma includes_prefix (t s : string) : String.prefix t s = true -> includes t s = true.
Proof. intros H. destruct s; cbn [includes]; now rewrite H. Qed.

Lemma includes_app (t a b : string) : includes t b = true -> includes t (a ++ b) = true.
Proof.
  intros H. induction a as [|c a IH]; [exact H|].
  cbn [append includes]. rewrite IH. apply orb_true_r.
Qed.

Lemma prefix_inv (t s : string) : String.prefix t s = true -> exists r, s = (t ++ r)%string.
Proof.
  revert s. induction t as [|c t IH]; intros s H; [now exists s|].
  destruct s as [|d s]; [discriminate H|]. cbn [String.prefix] in H.
  destruct (ascii_dec c d) as [<-|_]; [|discriminate H].
  destruct (IH s H) as (r & ->). now exists r.
Qed.

Lemma prefix_app (t r : string) : String.prefix t (t ++ r) = true.
Proof.
  induction t as [|c t IH]; [now destruct r|].
  cbn [append String.prefix]. destruct (ascii_dec c c); [exact IH | contradiction].
Qed.

Lemma lowerChar_space (c : ascii) : isSpace (lowerChar c) = isSpace c.
Proof. destruct c as [[] [] [] [] [] [] [] []]; reflexivity. Qed.

Lemma toLowerCase_trimStart (s : string) :
  trimStart (toLowerCase s) = toLowerCase (trimStart s).
Proof.
  induction s as [|c r IH]; [reflexivity|]. cbn [toLowerCase trimStart].
  rewrite lowerChar_space. destruct (isSpace c); [exact IH | reflexivity].
Qed.

Lemma toLowerCase_trimEnd (s : string) :
  trimEnd (toLowerCase s) = toLowerCase (trimEnd s).
Proof.
  induction s as [|c r IH]; [reflexivity|]. cbn [toLowerCase trimEnd].
  rewrite lowerChar_space, IH, toLowerCase_empty.
  destruct (isSpace c && String.eqb (trimEnd r) ""); reflexivity.
Qed.

Lemma includes_trimStart (s : string) :
  includes "type=page" s = true -> includes "type=page" (trimStart s) = true.
Proof.
  induction s as [|c r IH]; [discriminate|]. intros H. cbn [trimStart].
  destruct (isSpace c) eqn:Hc; [|exact H]. apply IH.
  cbn [includes String.prefix] in H.
  destruct (ascii_dec "t" c) as [<-|_]; [discriminate Hc|exact H].
Qed.

Lemma includes_trimEnd (s : string) :
  includes "type=page" s = true -> includes "type=page" (trimEnd s) = true.
Proof.
  induction s as [|c r IH]; [discriminate|]. intros H.
  cbn [includes] in H. apply orb_true_iff in H. destruct H as [H|H].
  - apply includes_prefix. apply prefix_inv in H. destruct H as (rest & ->).
    cbn [append]. rewrite !trimEnd_cons by reflexivity.
    apply (prefix_app "type=page" (trimEnd rest)).
  - specialize (IH H). cbn [trimEnd].
    destruct (trimEnd r) as [|d r'] eqn:E; [discriminate IH|].
    rewrite andb_false_r. cbn [includes]. cbn [includes] in IH. rewrite IH.
    apply orb_true_r.
Qed.

(** X19: whatever the query, the CQL text that [searchPages] sends contains
    ["type=page"] when read in lowercase: a query that lacks it gets
    [" AND type=page"] appended, and trimming a query that has it does not
    remove it. *)
Theorem finalCQL_restricts_to_pages (strCQL : string) :
  includes "type=page" (toLowerCase (Client.finalCQL strCQL)) = true.
Proof.
  unfold Client.finalCQL.
  destruct (includes "type=page" (toLowerCase strCQL)) eqn:E; cbn [negb].
  - unfold trim. rewrite <- toLowerCase_trimEnd, <- toLowerCase_trimStart.
    now apply includes_trimEnd, includes_trimStart.
  - rewrite toLowerCase_app. now apply includes_app.
Qed.

(** ** Reconciling labels: what happens to the page *)

Lemma refresh_items (objPage : ConfluencePage) (l : LocalRef) :
  Behaviour.labelsOf objPage = refItems l -> refItems (refresh objPage l) = refItems l.
Proof.
  unfold Behaviour.labelsOf, refresh. intros H.
  destruct (refId l) as [i|]; [|reflexivity].
  destruct (arrLabels objPage) as [arr|]; [|reflexivity].
  destruct (Nat.eqb i (arrayId arr)); [exact H | reflexivity].
Qed.

Lemma removeMissing_keeps (net : Network) (id : string) (L remotes : list string) :
  id <> "" ->
  Forall Behaviour.stored remotes ->
  forall (l : LocalRef) (w1 : World) (p1 : ConfluencePage) (result1 : bool),
    Page.isValid p1 = true -> strId p1 = Some id ->
    refItems l = L -> Behaviour.labelsOf p1 = L ->
    exists w2 p2 res l2,
      Client.removeMissing net (map Some remotes) l result1 (w1, p1)
      = (Return (res, l2), (w2, p2)) /\
      Page.isValid p2 = true /\ strId p2 = Some id /\
      refItems l2 = L /\ Behaviour.labelsOf p2 = L /\
      haveLabelsChanged p2 = haveLabelsChanged p1.
Proof.
  intros Hne Hnames. induction Hnames as [|name rest (Hname & Hnorm) _ IH];
    intros l w1 p1 result1 Hvalid Hid Hl Hp.
  - exists w1, p1, result1, l. cbn. unfold ret. repeat split; assumption.
  - cbn [map Client.removeMissing]. rewrite existsLocally_among.
    destruct (Request.among (refItems l) name) eqn:Hamong; cbn [negb].
    + now apply IH.
    + destruct (@removePageLabel_run net w1 p1 id name Hvalid Hid Hne Hname)
        as (w1' & removed & Hrem & _ & _ & Hrun).
      unfold bind at 1. rewrite Hrun. cbv zeta.
      set (ok := Request.succeeded 204 _) in *.
      set (p1' := if ok then removed else p1).
      assert (Hkeep : Page.isValid p1' = true /\ strId p1' = Some id /\
                      Behaviour.labelsOf p1' = L /\
                      haveLabelsChanged p1' = haveLabelsChanged p1).
      { unfold p1'. destruct ok; [|auto].
        destruct (@removeLabel_frame name p1 Hname) as (q & Hq & Hqid & Hqv & _).
        destruct (@removeLabel_result name p1 Hname) as (q' & Hq' & Hitems & Hflag).
        rewrite Hq in Hrem, Hq'. injection Hrem as <-. injection Hq' as <-.
        assert (Hnot : ~ In name L).
        { intros Hin. rewrite <- Hl in Hin. apply among_In in Hin. congruence. }
        rewrite Hqid, Hqv, Hitems, Hflag, Hnorm, Hp. repeat split; auto.
        - now apply filter_other_absent.
        - destruct (Page.labelIndexed name L) eqn:E; [|apply orb_false_r].
          now apply labelIndexed_iff in E. }
      destruct Hkeep as (Hv' & Hid' & Hp' & Hf').
      unfold bind at 1, readPage. cbn [snd].
      assert (Hl' : refItems (refresh p1' l) = L).
      { rewrite refresh_items; [exact Hl | congruence]. }
      destruct (IH (refresh p1' l) w1' p1' (if ok then result1 else false) Hv' Hid' Hl' Hp')
        as (w2 & p2 & res & l2 & Hrun2 & Hv2 & Hid2 & Hl2 & Hp2 & Hf2).
      exists w2, p2, res, l2. rewrite Hrun2. repeat split; auto. congruence.
Qed.

Lemma addMissing_keeps (net : Network) (id : string) (L remotes : list string) :
  id <> "" ->
  Forall Behaviour.stored L ->
  forall (suf pre : list string) (fuel : nat) (l : LocalRef) (w1 : World)
         (p1 : ConfluencePage) (result2 : bool),
    refItems l = L -> L = pre ++ suf ->
    (List.length suf < fuel)%nat ->
    Page.isValid p1 = true -> strId p1 = Some id ->
    Behaviour.labelsOf p1 = L ->
    exists w2 p2 res,
      Client.addMissing net fuel (List.length pre) (map Some remotes) l result2 (w1, p1)
      = (Return res, (w2, p2)) /\
      Behaviour.labelsOf p2 = L /\
      haveLabelsChanged p2 = haveLabelsChanged p1.
Proof.
  intros Hne Hlocals. induction suf as [|name rest IH];
    intros pre fuel l w1 p1 result2 Hl Hsplit Hfuel Hvalid Hid Hp;
    (destruct fuel as [|fuel]; [inversion Hfuel|]); cbn [Client.addMissing].
  - rewrite app_nil_r in Hsplit. rewrite Hl.
    replace (nth_error L (List.length pre)) with (@None string)
      by (rewrite Hsplit; symmetry; apply nth_error_end).
    exists w1, p1, result2. unfold ret. repeat split. exact Hp.
  - rewrite Hl.
    replace (nth_error L (List.length pre)) with (Some name)
      by (rewrite Hsplit; symmetry; apply nth_error_middle).
    rewrite existsRemote_among.
    assert (Hpre : L = (pre ++ [name]) ++ rest) by now rewrite <- app_assoc.
    assert (Hlen : List.length (pre ++ [name]) = S (List.length pre)).
    { rewrite length_app. cbn. lia. }
    assert (Hfuel' : (List.length rest < fuel)%nat) by (cbn in Hfuel; lia).
    destruct (Request.among remotes name) eqn:Hamong; cbn [negb].
    + rewrite <- Hlen. now apply IH.
    + assert (Hin : In name L).
      { rewrite Hsplit. apply in_or_app. right. now left. }
      destruct (proj1 (Forall_forall _ _) Hlocals name Hin) as (Hname & Hnorm).
      destruct (@addPageLabels_run net w1 p1 id name Hvalid Hid Hne Hname)
        as (w1' & added & Hadd & _ & _ & Hrun).
      unfold bind at 1. rewrite Hrun. cbv zeta.
      set (ok := Request.succeeded 200 _) in *.
      set (p1' := if ok then added else p1).
      assert (Hkeep : Page.isValid p1' = true /\ strId p1' = Some id /\
                      Behaviour.labelsOf p1' = L /\
                      haveLabelsChanged p1' = haveLabelsChanged p1).
      { unfold p1'. destruct ok; [|auto].
        destruct (@addLabel_frame name p1 Hname) as (q & Hq & Hqid & Hqv & _).
        destruct (@addLabel_result name p1 Hname) as (q' & Hq' & Hitems & Hflag & _).
        rewrite Hq in Hadd, Hq'. injection Hadd as <-. injection Hq' as <-.
        rewrite Hqid, Hqv, Hitems, Hflag, Hnorm, Hp.
        rewrite (labelIndexed_In _ _ Hin). repeat split; auto. apply orb_false_r. }
      destruct Hkeep as (Hv' & Hid' & Hp' & Hf').
      unfold bind at 1, readPage. cbn [snd].
      assert (Hl' : refItems (refresh p1' l) = L).
      { rewrite refresh_items; [exact Hl | congruence]. }
      rewrite <- Hlen.
      destruct (IH (pre ++ [name]) fuel (refresh p1' l) w1' p1'
                  (if ok then result2 else false) Hl' Hpre Hfuel' Hv' Hid' Hp')
        as (w2 & p2 & res & Hrun2 & Hp2 & Hf2).
      exists w2, p2, res. rewrite Hrun2. repeat split; auto. congruence.
Qed.

(** X20: [updatePageLabels] of the client changes neither the labels of the
    page nor its label flag: for a page whose names are in stored form and a
    listing of remote names in stored form, whatever the outcomes of the
    removals and additions it asks for, the page holds the same names
    afterwards and a label flag that was set is still set, so the next
    [update] of the page reconciles the labels again. *)
Theorem updatePageLabels_keeps_page_labels (net : Network) (w : World)
  (objPage : ConfluencePage) (id : string) (remote : list JsonLabel) (r0 : Response)
  (fuel : nat) :
  Page.isValid objPage = true ->
  strId objPage = Some id -> id <> "" ->
  Forall Behaviour.stored (Behaviour.labelsOf objPage) ->
  Forall Behaviour.stored (map labelName remote) ->
  net (sent w) (Request.listLabels w id) = Responds r0 ->
  statusCode r0 = 200 ->
  body r0 = DocLabelListing (Some (Z.of_nat (List.length remote))) (Some remote) ->
  (List.length (Behaviour.labelsOf objPage) < fuel)%nat ->
  exists ok w' saved,
    Client.updatePageLabels net fuel (w, objPage) = (Return ok, (w', saved)) /\
    Behaviour.labelsOf saved = Behaviour.labelsOf objPage /\
    haveLabelsChanged saved = haveLabelsChanged objPage.
Proof.
  intros Hvalid Hid Hne Hlocals Hremotes Hget Hst Hbody Hfuel.
  pose proof (truthyStr_Some Hne) as Hid'.
  assert (Hl0 : refItems (localLabels objPage) = Behaviour.labelsOf objPage).
  { unfold localLabels, Behaviour.labelsOf, Page.getLabels.
    now destruct (arrLabels objPage). }
  destruct w as [[url err cid rm resp] snt].
  set (get := mkRestMessage (Some (url, EpLabel id)) (Some "get") (rmRequestBody rm)).
  set (w1 := mkWorld
               (if haveError r0
                then mkClient url (ErrorResponseMsg "ConfluenceClient.updatePageLabels" r0)
                              cid get (Some r0)
                else mkClient url err cid get (Some r0))
               (snt ++ [get])).
  destruct (@removeMissing_keeps net id (Behaviour.labelsOf objPage) (map labelName remote)
              Hne Hremotes (localLabels objPage) w1 objPage true Hvalid Hid Hl0 eq_refl)
    as (w2 & p2 & res1 & l2 & Hrun1 & Hv2 & Hid2 & Hl2 & Hp2 & Hf2).
  destruct (@addMissing_keeps net id (Behaviour.labelsOf objPage) (map labelName remote)
              Hne Hlocals (Behaviour.labelsOf objPage) [] fuel l2 w2 p2 true
              Hl2 eq_refl Hfuel Hv2 Hid2 Hp2)
    as (w3 & p3 & res2 & Hrun2 & Hp3 & Hf3).
  cbn [List.length] in Hrun2.
  exists (res1 && res2), w3, p3. split; [|split; congruence].
  unfold Client.updatePageLabels.
  repeat (mstep; rewrite ?Hvalid, ?Hid, ?Hid').
  unfold Request.listLabels in Hget.
  cbn [client sent strConfluenceURL objRestMessage rmRequestBody] in Hget.
  fold get in Hget |- *. rewrite Hget. mstep. rewrite Hst. cbn [Z.eqb Pos.eqb negb]. mstep.
  rewrite Hbody. cbn [asLabels option_map fst snd]. mstep. fold w1.
  rewrite <- (map_map labelName Some remote).
  match goal with
  | |- context [?f (w1, objPage)] =>
      match f with
      | (if _ then _ else _) =>
          assert (Hremote : f (w1, objPage)
                            = (Return (map Some (map labelName remote)), (w1, objPage)))
      end
  end.
  { clear. destruct remote; reflexivity. }
  rewrite Hremote. mstep. rewrite Hrun1. mstep. rewrite Hrun2. reflexivity.
Qed.

Lemma updatePageLabels_keeps_page_labels_witness :
  exists ok w' saved,
    Client.updatePageLabels
      (Sample.scripted [Sample.answer 200 (Sample.labelListing ["docs"; "old"])])
      5 (Sample.newWorld, Sample.editedPage)
    = (Return ok, (w', saved)) /\
    Behaviour.labelsOf saved = Behaviour.labelsOf Sample.editedPage /\
    haveLabelsChanged saved = haveLabelsChanged Sample.editedPage.
Proof.
  apply (@updatePageLabels_keeps_page_labels
           (Sample.scripted [Sample.answer 200 (Sample.labelListing ["docs"; "old"])])
           Sample.newWorld Sample.editedPage "100"
           [mkJsonLabel "global" "docs"; mkJsonLabel "global" "old"]
           (mkResponse 200 (Sample.labelListing ["docs"; "old"]) false) 5).
  - reflexivity.
  - reflexivity.
  - discriminate.
  - repeat constructor.
  - repeat constructor.
  - reflexivity.
  - reflexivity.
  - reflexivity.
  - cbn. lia.
Defined.

Lemma removeMissing_skip (net : Network) (l : LocalRef) (pre : list string)
  (rest : list (option string)) (result1 : bool) (s : World * ConfluencePage) :
  Forall (fun name => Request.among (refItems l) name = true) pre ->
  Client.removeMissing net (map Some pre ++ rest) l result1 s
  = Client.removeMissing net rest l result1 s.
Proof.
  induction 1 as [|name pre Hname _ IH]; [reflexivity|].
  cbn [map app Client.removeMissing]. rewrite existsLocally_among, Hname. exact IH.
Qed.

(** X21: [updatePageLabels] returns [false] after the GET request alone,
    with the page as it was, when the listing is not answered with status
    code 200, and also when the first remote name that the page does not
    hold is not a valid label name: the removal throws, the error is recorded
    as the last error message, and no label is removed or added. *)
Theorem updatePageLabels_gives_up (net : Network) (w : World) (objPage : ConfluencePage)
  (id : string) (fuel : nat) :
  Page.isValid objPage = true ->
  strId objPage = Some id -> id <> "" ->
  (Request.succeeded 200 (net (sent w) (Request.listLabels w id)) = false ->
   exists w',
     Client.updatePageLabels net fuel (w, objPage) = (Return false, (w', objPage)) /\
     sent w' = sent w ++ [Request.listLabels w id]) /\
  (forall (r0 : Response) (remote : list JsonLabel) (pre post : list string) (bad : string),
      net (sent w) (Request.listLabels w id) = Responds r0 ->
      statusCode r0 = 200 ->
      body r0 = DocLabelListing (Some (Z.of_nat (List.length remote))) (Some remote) ->
      map labelName remote = pre ++ bad :: post ->
      Forall (fun name => Request.among (Behaviour.labelsOf objPage) name = true) pre ->
      Request.among (Behaviour.labelsOf objPage) bad = false ->
      isValidLabelName bad = false ->
      exists w' e,
        Client.updatePageLabels net fuel (w, objPage) = (Return false, (w', objPage)) /\
        sent w' = sent w ++ [Request.listLabels w id] /\
        Client.getLastErrorMessage w'
        = (Return (CaughtErrorMsg "ConfluenceClient.updatePageLabels" (Error e)), w')).
Proof.
  intros Hvalid Hid Hne. pose proof (truthyStr_Some Hne) as Hid'.
  assert (Hl0 : refItems (localLabels objPage) = Behaviour.labelsOf objPage).
  { unfold localLabels, Behaviour.labelsOf, Page.getLabels.
    now destruct (arrLabels objPage). }
  destruct w as [[url err cid rm resp] snt].
  unfold Request.listLabels, Request.succeeded.
  cbn [client sent strConfluenceURL objRestMessage rmRequestBody].
  set (get := mkRestMessage (Some (url, EpLabel id)) (Some "get") (rmRequestBody rm)).
  split.
  - intros Hfail. unfold Client.updatePageLabels.
    repeat (mstep; rewrite ?Hvalid, ?Hid, ?Hid'). fold get.
    destruct (net snt get) as [r|e]; mstep.
    + rewrite Hfail. mstep.
      destruct (haveError r); eexists; (split; [reflexivity|]); reflexivity.
    + eexists. split; reflexivity.
  - intros r0 remote pre post bad Hget Hst Hbody Hnames Hpre Hbad Hinvalid.
    rewrite <- Hl0 in Hpre, Hbad.
    set (w1 := mkWorld
                 (if haveError r0
                  then mkClient url (ErrorResponseMsg "ConfluenceClient.updatePageLabels" r0)
                                cid get (Some r0)
                  else mkClient url err cid get (Some r0))
                 (snt ++ [get])).
    assert (Hrun1 : exists e,
               forall result1,
                 Client.removeMissing net (map Some (map labelName remote))
                   (localLabels objPage) result1 (w1, objPage)
                 = (Throw (Error e), (w1, objPage))).
    { eexists. intros result1. rewrite Hnames, map_app, removeMissing_skip by exact Hpre.
      cbn [map Client.removeMissing]. rewrite existsLocally_among, Hbad. cbn [negb].
      unfold Client.removePageLabel. rewrite Hinvalid. mstep. reflexivity. }
    destruct Hrun1 as (e & Hrun1).
    unfold Client.updatePageLabels, Client.getLastErrorMessage.
    repeat (mstep; rewrite ?Hvalid, ?Hid, ?Hid').
    fold get. rewrite Hget. mstep. rewrite Hst. cbn [Z.eqb Pos.eqb negb]. mstep.
    rewrite Hbody. cbn [asLabels option_map fst snd]. mstep. fold w1.
    rewrite <- (map_map labelName Some remote).
    match goal with
    | |- context [?f (w1, objPage)] =>
        match f with
        | (if _ then _ else _) =>
            assert (Hremote : f (w1, objPage)
                              = (Return (map Some (map labelName remote)), (w1, objPage)))
        end
    end.
    { clear. destruct remote; reflexivity. }
    rewrite Hremote. mstep. rewrite Hrun1. mstep.
    unfold w1. destruct (haveError r0); do 2 eexists; repeat split.
Qed.

Lemma updatePageLabels_gives_up_witness :
  exists w',
    Client.updatePageLabels (Sample.scripted [Sample.answer 404 DocMalformed]) 5
      (Sample.newWorld, Sample.editedPage)
    = (Return false, (w', Sample.editedPage)) /\
    sent w' = sent Sample.newWorld ++ [Request.listLabels Sample.newWorld "100"].
Proof.
  apply (proj1 (@updatePageLabels_gives_up
                  (Sample.scripted [Sample.answer 404 DocMalformed])
                  Sample.newWorld Sample.editedPage "100" 5
                  eq_refl eq_refl ltac:(discriminate))).
  reflexivity.
Defined.

(** ** The last error message *)

(** X22: after [removePage] has sent its request, [getLastErrorMessage]
    returns the text for the exception if the request was not answered, and
    the text for the response if the response reports an error; after a
    response that reports none, whatever its status code, it still returns
    the message that was stored before the call. *)
Theorem removePage_last_error (net : Network) (w : World) (objPage : ConfluencePage)
  (id : string) :
  Page.isValid objPage = true ->
  strId objPage = Some id -> id <> "" ->
  strStatus objPage <> Some "trashed" ->
  exists ok s',
    Client.removePage net (w, objPage) = (Return ok, s') /\
    Client.getLastErrorMessage (fst s')
    = (Return match net (sent w) (Request.delete w id) with
              | Raises e => CaughtErrorMsg "ConfluenceClient.removePage" e
              | Responds r =>
                  if haveError r
                  then ErrorResponseMsg "ConfluenceClient.removePage" r
                  else strErrorMsg (client w)
              end,
       fst s').
Proof.
  intros Hvalid Hid Hne Hst. pose proof (truthyStr_Some Hne) as Hid'.
  assert (Htr : match strStatus objPage with
                | Some s => String.eqb s "trashed"
                | None => false
                end = false).
  { destruct (strStatus objPage) as [s|]; [|reflexivity].
    destruct (String.eqb_spec s "trashed") as [->|]; [now elim Hst | reflexivity]. }
  destruct w as [[url err cid rm resp] snt].
  unfold Client.removePage, Client.getLastErrorMessage, Request.delete.
  repeat (mstep; rewrite ?Hvalid, ?Hid, ?Hid', ?Htr).
  destruct (net snt _) as [r|e]; mstep.
  - destruct ((statusCode r =? 200) || (statusCode r =? 204)); mstep;
      cbn [Page.setStatus]; mstep;
      destruct (haveError r); do 2 eexists; split; reflexivity.
  - do 2 eexists. split; reflexivity.
Qed.

Lemma removePage_last_error_witness :
  exists ok s',
    Client.removePage (Sample.scripted []) (Sample.newWorld, Sample.draftPage [])
    = (Return ok, s') /\
    Client.getLastErrorMessage (fst s')
    = (Return match Sample.scripted [] (sent Sample.newWorld)
                      (Request.delete Sample.newWorld "100") with
              | Raises e => CaughtErrorMsg "ConfluenceClient.removePage" e
              | Responds r =>
                  if haveError r
                  then ErrorResponseMsg "ConfluenceClient.removePage" r
                  else strErrorMsg (client Sample.newWorld)
              end,
       fst s').
Proof.
  apply (@removePage_last_error (Sample.scripted []) Sample.newWorld
           (Sample.draftPage []) "100");
    [reflexivity | reflexivity | discriminate | discriminate].
Defined.

(** ** Pages and clients *)

(** X23: the validity check of the client's methods compares the page's
    internal id with that of the client the page itself refers to, so it does
    not tie a page to the client whose method is called: a page that the
    constructor has decoded for any client is accepted by [removePage] of
    every client, which sends the DELETE request to its own Confluence. *)
Theorem removePage_accepts_other_clients_page (net : Network) (w : World)
  (clientInternalId : string) (jsonPage : JsonPage) (objPage : ConfluencePage)
  (id : string) :
  Page.initialize clientInternalId (Some jsonPage) = Return objPage ->
  strId objPage = Some id -> id <> "" ->
  strStatus objPage <> Some "trashed" ->
  exists ok s',
    Client.removePage net (w, objPage) = (Return ok, s') /\
    sent (fst s') = sent w ++ [Request.delete w id].
Proof.
  intros Hdec Hid Hne Hst. pose proof (truthyStr_Some Hne) as Hid'.
  pose proof (initialize_isValid _ _ Hdec) as Hvalid.
  assert (Htr : match strStatus objPage with
                | Some s => String.eqb s "trashed"
                | None => false
                end = false).
  { destruct (strStatus objPage) as [s|]; [|reflexivity].
    destruct (String.eqb_spec s "trashed") as [->|]; [now elim Hst | reflexivity]. }
  destruct w as [[url err cid rm resp] snt].
  unfold Client.removePage, Request.delete.
  repeat (mstep; rewrite ?Hvalid, ?Hid, ?Hid', ?Htr).
  destruct (net snt _) as [r|e]; mstep.
  - destruct ((statusCode r =? 200) || (statusCode r =? 204)); mstep;
      cbn [Page.setStatus]; mstep; do 2 eexists; split; reflexivity.
  - do 2 eexists. split; reflexivity.
Qed.

Lemma removePage_accepts_other_clients_page_witness :
  exists ok s',
    Client.removePage (Sample.scripted [Sample.answer 204 DocMalformed])
      (Sample.newWorld, Behaviour.otherClientsPage)
    = (Return ok, s') /\
    sent (fst s') = sent Sample.newWorld ++ [Request.delete Sample.newWorld "100"].
Proof.
  apply (@removePage_accepts_other_clients_page
           (Sample.scripted [Sample.answer 204 DocMalformed]) Sample.newWorld
           "1595584800001xyz" (Sample.jsonPage "100" "Draft" 5 [])
           Behaviour.otherClientsPage "100");
    [reflexivity | reflexivity | discriminate | discriminate].
Defined.
